(** * health-dashboard: metric derivation and date reconciliation

    A shallow embedding of the transformation code of the repository
    ([prepare_data/process_data.py], [prepare_data/perform_calculations.py],
    [prepare_data/process_mental_health.py]) and the properties its
    specification states about it.

    Modelling conventions.
    - A float64 cell of a DataFrame is an [option Q]: [None] is NaN / NA, and
      finite values are exact rationals (rounding is not modelled).  A float
      that a division can send to an infinity is a [pyfloat].
    - A calendar date or a midnight Timestamp is its proleptic Gregorian day
      number ([date_of_ymd], Python's [date.toordinal]).
    - A Python exception is the name of its class; a call that can raise
      returns a [result].
    - A DataFrame is the list of its rows, in index order; a column-wise
      pandas operation is a [map] over the rows. *)

From Stdlib Require Import List Bool Arith ZArith QArith Qminmax String Ascii Lia.
From Stdlib Require Import Sorting.Sorted Sorting.Permutation OrdersEx FinFun Qround Lqa.
Import ListNotations.

Local Open Scope Z_scope.

(* ================================================================== *)
(** ** Python values *)

Module Py.

(** A float64 cell: [None] is NaN. *)
Definition cell := option Q.

(** A float that may have left the finite range. *)
Inductive pyfloat : Type :=
| Num (q : Q)
| PosInf
| NegInf
| NaN.

(** The outcome of a call: a value, or the class name of the exception. *)
Inductive result (A : Type) : Type :=
| Ok (a : A)
| Raise (exn : string).
Arguments Ok {A} a.
Arguments Raise {A} exn.

Definition bind {A B} (r : result A) (k : A -> result B) : result B :=
  match r with Ok a => k a | Raise e => Raise e end.

(** NaN-propagating arithmetic on cells. *)
Definition lift2 (f : Q -> Q -> Q) (x y : cell) : cell :=
  match x, y with
  | Some a, Some b => Some (f a b)
  | _, _ => None
  end.

Definition notna (x : cell) : bool :=
  match x with Some _ => true | None => false end.

(** [Series.eq(c)]: false on NaN. *)
Definition cell_eq (x : cell) (c : Q) : bool :=
  match x with Some a => Qeq_bool a c | None => false end.

(** [x > 0] on a float cell: false on NaN. *)
Definition cell_gt0 (x : cell) : bool :=
  match x with Some a => negb (Qle_bool a 0) | None => false end.

(** [fillna(c)]. *)
Definition fillna (c : Q) (x : cell) : Q :=
  match x with Some a => a | None => c end.

(** numpy's float division: a zero divisor gives NaN or an infinity. *)
Definition float_div (n d : Q) : pyfloat :=
  if Qeq_bool d 0 then
    if Qeq_bool n 0 then NaN
    else if Qle_bool n 0 then NegInf else PosInf
  else Num (n / d)%Q.

(** [x * a - b] for a positive finite [a]. *)
Definition float_scale (x : pyfloat) (a b : Q) : pyfloat :=
  match x with
  | Num q => Num (q * a - b)%Q
  | other => other
  end.

(** Element-wise combination of two Series over the same index. *)
Fixpoint zip_with {A B C} (f : A -> B -> C) (xs : list A) (ys : list B) : list C :=
  match xs, ys with
  | x :: xs', y :: ys' => f x y :: zip_with f xs' ys'
  | _, _ => []
  end.

(** Sum of a sequence of floats, left to right. *)
Definition qsum (l : list Q) : Q := fold_left Qplus l 0%Q.

(** The larger of two floats. *)
Definition qmax (x y : Q) : Q := if Qle_bool x y then y else x.

(** [max] with [skipna=True]: NaN is the value of an all-NaN sequence only. *)
Definition cell_max (a b : cell) : cell :=
  match a, b with
  | Some x, Some y => Some (qmax x y)
  | Some x, None => Some x
  | None, _ => b
  end.

Definition nanmax (l : list cell) : cell := fold_left cell_max l None.

(** [m] is the maximum of the numbers of [l]: NaN when [l] has none. *)
Definition is_max_of (m : cell) (l : list cell) : Prop :=
  match m with
  | None => forall x, In x l -> x = None
  | Some v => In (Some v) l /\ forall w, In (Some w) l -> (w <= v)%Q
  end.

(** [sum] with [skipna=True]: NaN counts for nothing, an empty sum is 0. *)
Definition nansum (l : list cell) : Q := qsum (map (fillna 0) l).

(** [cummax] of one group, carrying the running maximum: NaN positions stay
    NaN and do not reset it. *)
Fixpoint cummax_from (running : cell) (l : list cell) : list cell :=
  match l with
  | [] => []
  | x :: l' =>
      let running' := cell_max running x in
      (if notna x then running' else None) :: cummax_from running' l'
  end.

(** [sort_values]: a stable sort by insertion. *)
Fixpoint insert_sorted {A} (leb : A -> A -> bool) (x : A) (l : list A) : list A :=
  match l with
  | [] => [x]
  | y :: l' => if leb x y then x :: l else y :: insert_sorted leb x l'
  end.

Definition sort_values {A} (leb : A -> A -> bool) (l : list A) : list A :=
  fold_right (insert_sorted leb) [] l.

(** The rows of a frame with their positions (a RangeIndex). *)
Definition indexed {A} (l : list A) : list (nat * A) :=
  combine (seq 0 (List.length l)) l.

(** Python's [needle in s] on strings. *)
Fixpoint contains (needle s : string) : bool :=
  String.prefix needle s
  || match s with
     | EmptyString => false
     | String _ s' => contains needle s'
     end.

End Py.
Import Py.

(* ================================================================== *)
(** ** Calendar dates *)

Module Dates.

Definition is_leap (y : Z) : bool :=
  ((y mod 4 =? 0) && negb (y mod 100 =? 0)) || (y mod 400 =? 0).

Definition days_before_year (y : Z) : Z :=
  let p := y - 1 in p * 365 + p / 4 - p / 100 + p / 400.

Definition days_in_month (y m : Z) : Z :=
  if m =? 2 then (if is_leap y then 29 else 28)
  else if (m =? 4) || (m =? 6) || (m =? 9) || (m =? 11) then 30
  else 31.

Fixpoint days_before_month (y : Z) (m : nat) : Z :=
  match m with
  | O => 0
  | S k => days_before_month y k + days_in_month y (Z.of_nat (S k))
  end.

(** Python's [date(y, m, d).toordinal()]. *)
Definition date_of_ymd (y m d : Z) : Z :=
  days_before_year y + days_before_month y (Z.to_nat (m - 1)) + d.

(** [Series.between(lo, hi)], inclusive on both sides. *)
Definition between (lo hi d : Z) : bool := (lo <=? d) && (d <=? hi).

End Dates.
Import Dates.

(* ================================================================== *)
(** ** Mental Health Scoring Engine: [calculate_score] *)

Module Scoring.

(** One entry of [vars_info]: [(min_val, max_val, weight, transformation)]. *)
Record VarInfo : Type := mkVar {
  min_val : Q;
  max_val : Q;
  weight : Q;
  transformation : Q -> Q
}.

(** [vars_info]: a dict, in insertion order. *)
Definition ScoreDefinition := list (string * VarInfo).

(** A row of the merged mood log. *)
Record MoodRow : Type := mkMood {
  date : Z;
  factor : string -> cell
}.

Record MoodFrame : Type := mkFrame {
  columns : list string;
  rows : list MoodRow
}.

Definition has_column (data : MoodFrame) (c : string) : bool :=
  existsb (String.eqb c) (columns data).

(** The default of [exclude_dates]. *)
Definition default_exclude_dates : list (Z * Z) :=
  [ (date_of_ymd 2000 1 1, date_of_ymd 2021 12 1);
    (date_of_ymd 2023 6 16, date_of_ymd 2023 9 20) ].

Definition main_vars : list string :=
  [ "elevated"; "depressed"; "anxiety" ]%string.

Definition in_main_vars (v : string) : bool :=
  existsb (String.eqb v) main_vars.

(** [valid_rows &= ~exclusion], once per range. *)
Definition exclude_ranges (rs : list MoodRow) (exclude_dates : list (Z * Z))
    (valid_rows : list bool) : list bool :=
  fold_left
    (fun valid range =>
       let exclusion := map (fun r => between (fst range) (snd range) (date r)) rs in
       zip_with andb valid (map negb exclusion))
    exclude_dates valid_rows.

(** [data[[vars]].notna().sum(axis=1)]. *)
Definition available_factors (vars_info : ScoreDefinition) (r : MoodRow) : nat :=
  List.length (filter (fun kv => notna (factor r (fst kv))) vars_info).

(** [available_factors / total_factors >= cutoff_proportion]; the quotient
    is NaN when [vars_info] is empty, and NaN compares false. *)
Definition cutoff_check (vars_info : ScoreDefinition) (cutoff_proportion : Q)
    (r : MoodRow) : bool :=
  let total_factors := List.length vars_info in
  match total_factors with
  | O => false
  | S _ =>
      Qle_bool cutoff_proportion
        (inject_Z (Z.of_nat (available_factors vars_info r))
           / inject_Z (Z.of_nat total_factors))
  end.

Definition main_zero_check (vars_info : ScoreDefinition) (r : MoodRow) : bool :=
  forallb (fun kv => cell_eq (factor r (fst kv)) 0)
    (filter (fun kv => in_main_vars (fst kv)) vars_info).

Definition custom_one_check (vars_info : ScoreDefinition) (r : MoodRow) : bool :=
  forallb (fun kv => cell_eq (factor r (fst kv)) 1)
    (filter (fun kv => negb (in_main_vars (fst kv))) vars_info).

Definition uniform_data (vars_info : ScoreDefinition) (r : MoodRow) : bool :=
  main_zero_check vars_info r && custom_one_check vars_info r.

(** The [transformed_<var>] cell, after [fillna(0)]. *)
Definition transformed (r : MoodRow) (kv : string * VarInfo) : Q :=
  let x := factor r (fst kv) in
  fillna 0
    (match x with
     | Some a => Some (transformation (snd kv) a * weight (snd kv))%Q
     | None => None
     end).

Definition score_sum (vars_info : ScoreDefinition) (r : MoodRow) : Q :=
  qsum (map (transformed r) vars_info).

Definition min_scores (vars_info : ScoreDefinition) : list Q :=
  map (fun kv =>
         let v := snd kv in
         if negb (Qle_bool (weight v) 0)
         then (transformation v (min_val v) * weight v)%Q
         else (transformation v (max_val v) * weight v)%Q)
      vars_info.

Definition max_scores (vars_info : ScoreDefinition) : list Q :=
  map (fun kv =>
         let v := snd kv in
         if negb (Qle_bool (weight v) 0)
         then (transformation v (max_val v) * weight v)%Q
         else (transformation v (min_val v) * weight v)%Q)
      vars_info.

Definition min_possible_score (vars_info : ScoreDefinition) : Q :=
  qsum (min_scores vars_info).

Definition max_possible_score (vars_info : ScoreDefinition) : Q :=
  qsum (max_scores vars_info).

(** [(score_sum - min) / (max - min) * 200 - 100]. *)
Definition rescaled (vars_info : ScoreDefinition) (s : Q) : pyfloat :=
  float_scale
    (float_div (s - min_possible_score vars_info)
               (max_possible_score vars_info - min_possible_score vars_info))
    200 100.

(** [MentalHealthDataProcessor.calculate_score(data, vars_info,
    cutoff_proportion, exclude_dates, rescale)]
    (process_mental_health.py, lines 190-321): the array of scores, one per
    row.  Each [let] is one assignment of the source, in its order. *)
Definition calculate_score (data : MoodFrame) (vars_info : ScoreDefinition)
    (cutoff_proportion : Q) (exclude_dates : list (Z * Z)) (rescale : bool)
    : result (list pyfloat) :=
  let rs := rows data in
  (* valid_rows = pd.Series([True] * len(data)) *)
  let valid_rows := map (fun _ => true) rs in
  (* for start_date, end_date in exclude_dates: valid_rows &= ~exclusion *)
  let valid_rows := exclude_ranges rs exclude_dates valid_rows in
  (* data[[var for var in vars_info]] *)
  if negb (forallb (fun kv => has_column data (fst kv)) vars_info)
  then Raise "KeyError"
  else
    let cutoff_ok := map (cutoff_check vars_info cutoff_proportion) rs in
    let uniform := map (uniform_data vars_info) rs in
    (* valid_rows = (available / total >= cutoff) & (~uniform_data) *)
    let valid_rows := zip_with andb cutoff_ok (map negb uniform) in
    let sums := map (score_sum vars_info) rs in
    let score :=
      if rescale then map (rescaled vars_info) sums else map Num sums in
    (* np.where(valid_rows, score, np.nan) *)
    Ok (zip_with (fun (v : bool) s => if v then s else NaN) valid_rows score).

(** The scoring tables of [calculate_mental_health_metrics] (lines 337-369)
    whose transformations are rational; [mental_health_vars] raises to the
    power 2.8675 and is left out. *)
Definition ident (x : Q) : Q := x.
Definition square (x : Q) : Q := (x * x)%Q.

Definition subjective_well_being_vars : ScoreDefinition :=
  [ ("elevated", mkVar 1 4 1 square);
    ("energy", mkVar 1 4 1 square);
    ("fun", mkVar 1 4 0.5 square);
    ("dog_interaction", mkVar 1 2 4 ident);
    ("anxiety", mkVar 1 4 (-1) square);
    ("conflict", mkVar 1 2 (-4) ident);
    ("depressed", mkVar 1 4 (-1) square) ]%string%Q.

Definition life_satisfaction_vars : ScoreDefinition :=
  [ ("self-acceptance", mkVar 1 4 1 ident);
    ("liberty", mkVar 1 4 2 ident);
    ("value_alignment", mkVar 1 4 2 ident);
    ("health", mkVar 1 4 2 ident);
    ("security", mkVar 1 4 2 ident);
    ("relationship_satisfaction", mkVar 1 4 2 ident);
    ("integrity", mkVar 1 4 2 ident);
    ("optimism", mkVar 1 4 1 ident);
    ("shame", mkVar 1 4 (-1) square);
    ("suicidality", mkVar 1 2 (-4) ident) ]%string%Q.

Definition work_satisfaction_vars : ScoreDefinition :=
  [ ("energy", mkVar 1 4 1 ident);
    ("mental_clarity", mkVar 1 4 (4 / 2) square);
    ("value_alignment", mkVar 1 4 (2 / 2) square);
    ("security", mkVar 1 4 1 ident);
    ("relationship_satisfaction", mkVar 1 4 1 ident);
    ("liberty", mkVar 1 4 2 ident);
    ("achievement", mkVar 1 4 4 ident);
    ("learning", mkVar 1 4 0.5 ident);
    ("work_depth", mkVar 1 4 (1 / 2) square);
    ("professional_mastery", mkVar 1 4 2 ident) ]%string%Q.

End Scoring.

(* ================================================================== *)
(** ** Date-Series Reconciler: [join_dates] and [fill_missing_dates] *)

Module Reconciler.

(** What the [date] column of a frame holds: [datetime.date] objects (dtype
    [object]) or Timestamps (dtype [datetime64]). *)
Inductive DateDtype : Type :=
| DateObject
| Datetime64.

(** [Series.min()] and [Series.max()] of a column of dates: NaN when empty. *)
Definition series_min (dates : list Z) : option Z :=
  match dates with
  | [] => None
  | d :: ds => Some (fold_left Z.min ds d)
  end.

Definition series_max (dates : list Z) : option Z :=
  match dates with
  | [] => None
  | d :: ds => Some (fold_left Z.max ds d)
  end.

(** The days from [lo] to [hi], both included. *)
Definition days_from (lo hi : Z) : list Z :=
  map (fun i => lo + Z.of_nat i) (seq 0 (Z.to_nat (hi - lo + 1))).

(** [pd.date_range(start, end, freq="D")]: a NaN or NaT endpoint is
    refused with a [ValueError]. *)
Definition date_range (start finish : option Z) : result (list Z) :=
  match start, finish with
  | Some lo, Some hi => Ok (days_from lo hi)
  | _, _ => Raise "ValueError"
  end.

Section JoinDates.

(** The columns of an observation besides [date]; [metric] reads the
    [metric] column when the frame has one. *)
Variable Row : Type.
Variable metric : option (Row -> option string).

Record Frame : Type := mkFrame {
  date_dtype : DateDtype;
  rows : list (Z * Row)
}.

(** A row of the joined frame: [j_row] is [None] where no observation
    matched and every joined column is NaN. *)
Record Joined : Type := mkJoined {
  j_date : Z;
  j_metric : option string;
  j_row : option Row
}.

(** The literal lists of the second [if multiple_metrics] block; for any
    other [metric_type] the name [metrics] is never bound. *)
Definition metrics_of (metric_type : string) : option (list string) :=
  if String.eqb metric_type "energy" then
    Some [ "Calorie expenditure"; "Calorie intake";
           "Calorie deficit (absolute)"; "Calorie deficit (relative)" ]%string
  else if String.eqb metric_type "nutrition" then
    Some [ "Protein"; "Sugar"; "Water"; "Carbohydrates"; "Fat" ]%string
  else if String.eqb metric_type "volume" then
    Some [ "hypertrophy_adjusted_volume"; "volume" ]%string
  else None.

(** [data["date"] = pd.to_datetime(data["date"])], on the caller's frame. *)
Definition to_datetime (data : Frame) : Frame :=
  mkFrame Datetime64 (rows data).

(** [pd.merge(date_seq, data, how="left", on=...)]. *)
Definition merge_left (date_seq : list (Z * option string))
    (matches : Z * option string -> Z * Row -> bool) (data : Frame) : list Joined :=
  flat_map
    (fun key =>
       match filter (matches key) (rows data) with
       | [] => [mkJoined (fst key) (snd key) None]
       | found => map (fun o => mkJoined (fst key) (snd key) (Some (snd o))) found
       end)
    date_seq.

Definition on_date (key : Z * option string) (o : Z * Row) : bool :=
  fst key =? fst o.

Definition on_date_metric (column : Row -> option string)
    (key : Z * option string) (o : Z * Row) : bool :=
  (fst key =? fst o)
  && match snd key, column (snd o) with
     | Some m, Some m' => String.eqb m m'
     | _, _ => false
     end.

(** [HealthDataProcessor.join_dates(data, multiple_metrics, metric_type)]
    (process_data.py, lines 46-110), run on the day [today]: the outcome,
    and the caller's frame as the call leaves it.
    The lists passed as [energy_metrics], [nutrition_metrics] and
    [volume_metrics] are bound in the first [if multiple_metrics] block
    and replaced by the literal lists before any use. *)
Definition join_dates (data : Frame) (multiple_metrics : bool)
    (metric_type : string) (today : Z) : result (list Joined) * Frame :=
  (* min_date = data["date"].min(); max_date = datetime.now().date() *)
  let min_date := series_min (map fst (rows data)) in
  let max_date := Some today in
  match date_range min_date max_date with
  | Raise e => (Raise e, data)
  | Ok dates =>
      if multiple_metrics then
        match metrics_of metric_type with
        | None => (Raise "UnboundLocalError", data)
        | Some metrics =>
            (* date_seq.merge(metrics_df, on="key") *)
            let date_seq :=
              flat_map (fun d => map (fun m => (d, Some m)) metrics) dates in
            let data := to_datetime data in
            match metric with
            | None => (Raise "KeyError", data)
            | Some column =>
                (Ok (merge_left date_seq (on_date_metric column) data), data)
            end
        end
      else
        let date_seq := map (fun d => (d, None)) dates in
        let data := to_datetime data in
        (Ok (merge_left date_seq on_date data), data)
  end.

End JoinDates.

Arguments mkFrame {Row} _ _.
Arguments date_dtype {Row} _.
Arguments rows {Row} _.
Arguments j_date {Row} _.
Arguments j_metric {Row} _.
Arguments j_row {Row} _.
Arguments to_datetime {Row} _.
Arguments join_dates {Row} _ _ _ _ _.

(** [VolumeDataProcessor.fill_missing_dates(data)]
    (perform_calculations.py, lines 28-48) on a frame of Timestamps
    and one value column: the column's name in the result and its rows.
    The in-place [fillna] on the column reaches the merged frame, as it does
    in pandas without copy-on-write. *)
Definition fill_missing_dates (data : list (Z * cell))
    (fill_column : string) (new_column : option string)
    : result (string * list (Z * Q)) :=
  let min_date := series_min (map fst data) in
  let max_date := series_max (map fst data) in
  bind (date_range min_date max_date) (fun all_dates =>
    let merged :=
      flat_map
        (fun d =>
           match filter (fun o => d =? fst o) data with
           | [] => [(d, None)]
           | found => map (fun o => (d, snd o)) found
           end)
        all_dates in
    let column := match new_column with Some c => c | None => fill_column end in
    (* merged_data[column].fillna(0, inplace=True) *)
    Ok (column, map (fun row => (fst row, fillna 0 (snd row))) merged)).

End Reconciler.

(* ================================================================== *)
(** ** Strength Metric Engine: [WeightliftingDataProcessor] *)

Module Strength.

(** A row of the cleaned strength log. *)
Record ExerciseSet : Type := mkSet {
  date : Z;
  exercise_name : option string;
  set_order : Z;
  weight : cell;
  reps : cell
}.

(** A row after [calculate_1RM]: the set, its body mass, its [one_rep_max]. *)
Record Rated : Type := mkRated {
  r_date : Z;
  r_exercise_name : option string;
  r_set_order : Z;
  r_weight : cell;
  r_reps : cell;
  r_body_mass : cell;
  one_rep_max : cell
}.

(** A row of [daily_max]. *)
Record DailyMax : Type := mkDaily {
  d_exercise_name : string;
  d_date : Z;
  d_one_rep_max : cell;
  d_cummax : cell;
  d_rolling : cell
}.

(** A row after [calculate_derivative_metrics]. *)
Record Derived : Type := mkDerived {
  rated : Rated;
  dv_cummax : cell;
  dv_rolling : cell
}.

(** A row of the final table: [set_order], [weight], [body_mass] dropped. *)
Record ExerciseSetScored : Type := mkScored {
  s_date : Z;
  s_exercise_name : option string;
  s_reps : cell;
  s_one_rep_max : cell;
  cummax_one_rep_max : cell;
  rolling_90d_max : cell
}.

(** [pd.merge(exercise_data, weight_data, on="date", how="left")]: every
    set with each body mass of its date, or with NaN when there is none. *)
Definition merge_body_mass (exercise_data : list ExerciseSet)
    (weight_data : list (Z * cell)) : list (ExerciseSet * cell) :=
  flat_map
    (fun s =>
       match filter (fun w => fst w =? date s) weight_data with
       | [] => [(s, None)]
       | matches => map (fun w => (s, snd w)) matches
       end)
    exercise_data.

Definition unweighted_exercises : list string :=
  [ "Chin Up"; "Pull Up"; "Wide Pull Up"; "Back Extension"; "Ab Coaster";
    "Battle Ropes"; "Press Up"; "Chest Dip"; "Triceps Dip";
    "Curved Hack Squat"; "Bulgarian Split Squat (Plate-Loaded)";
    "Knee Raise (Captain's Chair)"; "Half-Hack Squat";
    "Goblet Squat (Kettlebell)"; "Lunge (Dumbbell)" ]%string.

Definition name_in (name : string) (l : list string) : bool :=
  existsb (String.eqb name) l.

(** [fillna("Unknown").astype(str)]. *)
Definition fill_name (n : option string) : string :=
  match n with Some x => x | None => "Unknown"%string end.

(** [Series.unique()]: the distinct values, in order of first appearance. *)
Fixpoint unique (seen : list string) (l : list string) : list string :=
  match l with
  | [] => []
  | x :: l' => if name_in x seen then unique seen l' else x :: unique (x :: seen) l'
  end.

(** [x * (1 + (reps / 30))]. *)
Definition epley (x reps : cell) : cell :=
  lift2 Qmult x (lift2 Qplus (Some 1%Q) (lift2 Qdiv reps (Some 30%Q))).

(** The body of the [iterrows] loop of [calculate_1RM] (lines 391-405). *)
Definition rate_row (barbell_exercises : list string)
    (row : ExerciseSet * cell) : Rated :=
  let s := fst row in
  let exercise_name := fill_name (exercise_name s) in
  let weight := weight s in
  let reps := reps s in
  let body_mass := snd row in
  let weight :=
    if name_in exercise_name barbell_exercises
    then lift2 Qplus weight (Some 44%Q) else weight in
  let one_rep_max :=
    if name_in exercise_name unweighted_exercises
    then epley body_mass reps
    else epley weight reps in
  mkRated (date s) (Some exercise_name) (set_order s) (Strength.weight s) reps
          body_mass one_rep_max.

(** [DataFrame.update]: a cell of [that] replaces the cell of [this] unless
    it is NA; columns [this] does not have are ignored. *)
Definition overlay {A} (this that : option A) : option A :=
  match that with Some _ => that | None => this end.

Definition update_row (this that : Rated) : Rated :=
  mkRated (r_date that)
          (overlay (r_exercise_name this) (r_exercise_name that))
          (r_set_order that)
          (overlay (r_weight this) (r_weight that))
          (overlay (r_reps this) (r_reps that))
          (overlay (r_body_mass this) (r_body_mass that))
          (overlay (one_rep_max this) (one_rep_max that)).

Definition update (data : list Rated) (group : list (nat * Rated)) : list Rated :=
  map (fun ir =>
         match find (fun g => Nat.eqb (fst g) (fst ir)) group with
         | Some g => update_row (snd ir) (snd g)
         | None => snd ir
         end)
      (indexed data).

Definition has_name (n : string) (r : Rated) : bool :=
  match r_exercise_name r with Some x => String.eqb x n | None => false end.

(** One pass of the loop over [data.groupby("exercise_name")]: the group
    gets a [cummax_one_rep_max] column, [data] gets the group's cells of
    the columns it has. *)
Definition cummax_pass (data : list Rated) (name : string) : list Rated :=
  let group := filter (fun ir => has_name name (snd ir)) (indexed data) in
  let group_cummax := cummax_from None (map (fun ir => one_rep_max (snd ir)) group) in
  update data group.

(** [calculate_1RM] (process_data.py, lines 360-413). *)
Definition calculate_1RM (data : list (ExerciseSet * cell)) : list Rated :=
  let all_exercises := unique [] (map (fun row => fill_name (exercise_name (fst row))) data) in
  let barbell_exercises := filter (contains "(Barbell)") all_exercises in
  let data := map (rate_row barbell_exercises) data in
  fold_left cummax_pass
    (sort_values String.leb (unique [] (map (fun r => fill_name (r_exercise_name r)) data)))
    data.

(** Ordering of group keys: by name, then by date. *)
Definition key := (string * Z)%type.

Definition key_compare (a b : key) : comparison :=
  match String_as_OT.compare (fst a) (fst b) with
  | Eq => Z.compare (snd a) (snd b)
  | c => c
  end.

Definition key_eqb (a b : key) : bool :=
  String.eqb (fst a) (fst b) && (snd a =? snd b).

(** The sorted, distinct keys of a [groupby]. *)
Fixpoint insert_key (k : key) (ks : list key) : list key :=
  match ks with
  | [] => [k]
  | k' :: ks' =>
      match key_compare k k' with
      | Lt => k :: ks
      | Eq => ks
      | Gt => k' :: insert_key k ks'
      end
  end.

(** The key of a row; a row without a name belongs to no group. *)
Definition key_of (r : Rated) : option key :=
  match r_exercise_name r with
  | Some n => Some (n, r_date r)
  | None => None
  end.

Definition has_key (k : key) (r : Rated) : bool :=
  match key_of r with Some k' => key_eqb k' k | None => false end.

Definition group_keys (data : list Rated) : list key :=
  fold_right
    (fun r ks => match key_of r with Some k => insert_key k ks | None => ks end)
    [] data.

(** [data.groupby(["exercise_name", "date"])["one_rep_max"].max()]. *)
Definition groupby_max (data : list Rated) : list (key * cell) :=
  map (fun k => (k, nanmax (map one_rep_max (filter (has_key k) data))))
      (group_keys data).

(** [groupby("exercise_name")["one_rep_max"].cummax()]: one running maximum
    per name, visited in row order. *)
Fixpoint group_cummax (running : string -> cell) (l : list (key * cell)) : list cell :=
  match l with
  | [] => []
  | (k, x) :: l' =>
      let running' := cell_max (running (fst k)) x in
      (if notna x then running' else None)
        :: group_cummax
             (fun n => if String.eqb n (fst k) then running' else running n) l'
  end.

(** [groupby("exercise_name")["one_rep_max"].rolling(window="90D").max()]
    over a date index: at each row, the maximum over the rows of its
    name seen so far whose date is later than its own minus the window. *)
Fixpoint group_rolling_max (window : Z) (seen : list (key * cell))
    (l : list (key * cell)) : list cell :=
  match l with
  | [] => []
  | (k, x) :: l' =>
      let seen' := (k, x) :: seen in
      nanmax
        (map snd
           (filter (fun e => String.eqb (fst (fst e)) (fst k)
                             && (snd k - window <? snd (fst e)))
                   (rev seen')))
        :: group_rolling_max window seen' l'
  end.

Definition daily_max_table (data : list Rated) : list DailyMax :=
  let daily_max := groupby_max data in
  let cummax := group_cummax (fun _ => None) daily_max in
  let rolling := group_rolling_max 90 [] daily_max in
  zip_with (fun e cr => mkDaily (fst (fst e)) (snd (fst e)) (snd e) (fst cr) (snd cr))
           daily_max (combine cummax rolling).

Definition name_compare (a b : option string) : comparison :=
  match a, b with
  | Some x, Some y => String_as_OT.compare x y
  | Some _, None => Lt
  | None, Some _ => Gt
  | None, None => Eq
  end.

Definition by_name_date (a b : Rated) : bool :=
  match name_compare (r_exercise_name a) (r_exercise_name b) with
  | Lt => true
  | Gt => false
  | Eq => r_date a <=? r_date b
  end.

Definition by_date_name (a b : Derived) : bool :=
  match Z.compare (r_date (rated a)) (r_date (rated b)) with
  | Lt => true
  | Gt => false
  | Eq => match name_compare (r_exercise_name (rated a)) (r_exercise_name (rated b)) with
          | Gt => false
          | _ => true
          end
  end.

Definition by_date (a b : Derived) : bool :=
  r_date (rated a) <=? r_date (rated b).

(** [pd.merge(data, daily_max, on=["exercise_name", "date"], how="left")]. *)
Definition merge_daily_max (data : list Rated) (daily_max : list DailyMax)
    : list Derived :=
  flat_map
    (fun r =>
       match filter (fun d => has_key (d_exercise_name d, d_date d) r) daily_max with
       | [] => [mkDerived r None None]
       | matches => map (fun d => mkDerived r (d_cummax d) (d_rolling d)) matches
       end)
    data.

(** [calculate_derivative_metrics] (process_data.py, lines 290-338). *)
Definition calculate_derivative_metrics (data : list Rated) : list Derived :=
  let data := sort_values by_name_date data in
  let daily_max := daily_max_table data in
  let data := merge_daily_max data daily_max in
  sort_values by_date_name data.

(** [filter_exercise_data] (process_data.py, lines 415-427). *)
Definition filter_exercise_data (data : list Derived) : list ExerciseSetScored :=
  (* data[data["exercise_name"].notna()] *)
  let data := filter (fun r => match r_exercise_name (rated r) with
                               | Some _ => true | None => false end) data in
  (* data[data["one_rep_max"] > 0] *)
  let data := filter (fun r => cell_gt0 (one_rep_max (rated r))) data in
  (* data.drop(["set_order", "weight", "body_mass"], axis=1) *)
  map (fun r => mkScored (r_date (rated r)) (r_exercise_name (rated r))
                         (r_reps (rated r)) (one_rep_max (rated r))
                         (dv_cummax r) (dv_rolling r))
      data.

(** [wrangle_weightlifting_data] (process_data.py, lines 340-358).  The
    sort by date is numpy's quicksort, which may order the rows of one date
    differently; the properties below speak of the rows of the table, not
    of their order. *)
Definition wrangle_weightlifting_data (exercise_data : list ExerciseSet)
    (weight_data : list (Z * cell)) : list ExerciseSetScored :=
  let data := merge_body_mass exercise_data weight_data in
  let data := calculate_1RM data in
  let data := calculate_derivative_metrics data in
  let data := sort_values by_date data in
  filter_exercise_data data.

End Strength.

(* ================================================================== *)
(** ** Volume Aggregator: [VolumeDataProcessor] *)

Module Volume.
Import Strength Reconciler.

(** The sorted, distinct dates of a [groupby("date")]. *)
Fixpoint insert_date (d : Z) (ds : list Z) : list Z :=
  match ds with
  | [] => [d]
  | d' :: ds' =>
      match d ?= d' with
      | Lt => d :: ds
      | Eq => ds
      | Gt => d' :: insert_date d ds'
      end
  end.

Definition group_dates (data : list ExerciseSetScored) : list Z :=
  fold_right (fun r ds => insert_date (s_date r) ds) [] data.

Definition on_day (d : Z) (r : ExerciseSetScored) : bool := s_date r =? d.

(** [weightlifting_data.groupby("date").agg({"one_rep_max": "sum"})]. *)
Definition wrangle_volume_data (weightlifting_data : list ExerciseSetScored)
    : list (Z * cell) :=
  map (fun d => (d, Some (nansum (map s_one_rep_max (filter (on_day d) weightlifting_data)))))
      (group_dates weightlifting_data).

(** [process_volume_data] (perform_calculations.py, lines 50-56). *)
Definition process_volume_data (weightlifting_data : list ExerciseSetScored)
    : result (string * list (Z * Q)) :=
  let data := wrangle_volume_data weightlifting_data in
  fill_missing_dates data "one_rep_max" None.

End Volume.

Module VolumeSpec.
Import Strength Volume.

(** The daily volume: the total of the day's sets, which is 0 for a day
    without sets. *)
Definition day_volume (data : list ExerciseSetScored) (d : Z) : Q :=
  nansum (map s_one_rep_max (filter (on_day d) data)).

End VolumeSpec.

(** The one-rep-max formula in the specification's words, and the rows the
    strength properties speak about. *)
Module StrengthSpec.
Import Strength.

Definition barbell_variant (exercise_name : string) : bool :=
  contains "(Barbell)" exercise_name.

Definition spec_one_rep_max (exercise_name : string)
    (weight reps body_mass : cell) : cell :=
  if name_in exercise_name unweighted_exercises
  then epley body_mass reps
  else
    let effective_weight :=
      if barbell_variant exercise_name
      then lift2 Qplus weight (Some 44%Q) else weight in
    epley effective_weight reps.

(** The row [calculate_1RM] is specified to make of a set. *)
Definition spec_rated (row : ExerciseSet * cell) : Rated :=
  let s := fst row in
  let n := fill_name (exercise_name s) in
  mkRated (date s) (Some n) (set_order s) (weight s) (reps s) (snd row)
          (spec_one_rep_max n (weight s) (reps s) (snd row)).

(** The sets of the engine with their one-rep-max: the rows the derived
    metrics are computed from. *)
Definition scored_sets (exercise_data : list ExerciseSet)
    (weight_data : list (Z * cell)) : list Rated :=
  calculate_1RM (merge_body_mass exercise_data weight_data).

(** [groupby_max] at one key: the daily maximum of the key's rows. *)
Definition daily_value (data : list Rated) (k : key) : cell :=
  nanmax (map one_rep_max (filter (has_key k) data)).

(** [m] is the maximum of [one_rep_max] over the rows satisfying [P],
    NaN when none of them has a number. *)
Definition is_max_over_rows (m : cell) (P : Rated -> Prop) : Prop :=
  match m with
  | None => forall s, P s -> one_rep_max s = None
  | Some v =>
      (exists s, P s /\ one_rep_max s = Some v)
      /\ forall s w, P s -> one_rep_max s = Some w -> (w <= v)%Q
  end.

(** The strict order of group keys. *)
Definition key_lt (a b : key) : Prop := key_compare a b = Lt.

(** The cells of the rows of one name, and the rows of one name inside the
    window that ends at key [k]. *)
Definition same_name_values (n : string) (l : list (key * cell)) : list cell :=
  map snd (filter (fun e => String.eqb (fst (fst e)) n) l).

Definition in_rolling_window (window : Z) (k : key) (e : key * cell) : bool :=
  String.eqb (fst (fst e)) (fst k) && (snd k - window <? snd (fst e)).

(** The rows of exercise [e] dated [d] or earlier. *)
Definition up_to (data : list Rated) (e : string) (d : Z) (s : Rated) : Prop :=
  In s data /\ r_exercise_name s = Some e /\ r_date s <= d.

(** The rows of exercise [e] dated after [d - window], up to [d]. *)
Definition trailing (data : list Rated) (e : string) (window d : Z) (s : Rated) : Prop :=
  In s data /\ r_exercise_name s = Some e /\ d - window < r_date s <= d.

(** The final row made of a derived row. *)
Definition project (dv : Derived) : ExerciseSetScored :=
  mkScored (r_date (rated dv)) (r_exercise_name (rated dv)) (r_reps (rated dv))
           (one_rep_max (rated dv)) (dv_cummax dv) (dv_rolling dv).

(** A set of exercise [e] dated within the [days] calendar days ending on [d]. *)
Definition in_window (e : string) (d days : Z) (s : Rated) : Prop :=
  r_exercise_name s = Some e /\ d - (days - 1) <= r_date s <= d.

(** A small strength log: three bench-press days, the last more than 90
    days after the first, a chin-up set, and a set without a name. *)
Definition sample_sets : list ExerciseSet :=
  [ mkSet (date_of_ymd 2023 1 10) (Some "Bench Press (Barbell)"%string) 1
          (Some 100%Q) (Some 5%Q);
    mkSet (date_of_ymd 2023 2 1) (Some "Bench Press (Barbell)"%string) 1
          (Some 90%Q) (Some 5%Q);
    mkSet (date_of_ymd 2023 6 1) (Some "Bench Press (Barbell)"%string) 1
          (Some 95%Q) (Some 5%Q);
    mkSet (date_of_ymd 2023 1 10) (Some "Chin Up"%string) 2 (Some 0%Q) (Some 8%Q);
    mkSet (date_of_ymd 2023 2 1) None 2 (Some 50%Q) (Some 10%Q) ].

Definition sample_weights : list (Z * cell) :=
  [ (date_of_ymd 2023 1 10, Some 180%Q); (date_of_ymd 2023 2 1, None) ].

(** Two sets the name filter is specified to drop: one without a name, one
    whose name is the empty string. *)
Definition unnamed_sets : list ExerciseSet :=
  [ mkSet (date_of_ymd 2023 1 10) None 1 (Some 100%Q) (Some 5%Q);
    mkSet (date_of_ymd 2023 1 11) (Some ""%string) 1 (Some 100%Q) (Some 5%Q) ].

End StrengthSpec.

(** Predicates the scoring properties are stated with. *)
Module ScoringSpec.
Import Scoring.

(** Every factor of positive or negative weight sits at an endpoint of its
    range: the one that raises the score when [favourable], the one that
    lowers it otherwise. *)
Definition at_extreme (favourable : bool) (vars_info : ScoreDefinition)
    (r : MoodRow) : Prop :=
  Forall
    (fun kv =>
       let v := snd kv in
       ((0 < weight v)%Q ->
        factor r (fst kv) = Some (if favourable then max_val v else min_val v))
       /\ ((weight v < 0)%Q ->
        factor r (fst kv) = Some (if favourable then min_val v else max_val v)))
    vars_info.

(** Every factor of the definition is present and equal to 1. *)
Definition all_ones (vars_info : ScoreDefinition) (r : MoodRow) : Prop :=
  Forall (fun kv => exists x, factor r (fst kv) = Some x /\ (x == 1)%Q) vars_info.

(** The definition has none of the fixed-log factors. *)
Definition no_main_vars (vars_info : ScoreDefinition) : Prop :=
  Forall (fun kv => in_main_vars (fst kv) = false) vars_info.

Definition columns_present (data : MoodFrame) (vars_info : ScoreDefinition) : Prop :=
  forallb (fun kv => has_column data (fst kv)) vars_info = true.

(** A frame whose columns are the factors of one definition. *)
Definition frame_of (vars_info : ScoreDefinition) (rs : list MoodRow) : MoodFrame :=
  mkFrame (map fst vars_info) rs.

(** A row holding the same value in every factor. *)
Definition constant_row (d : Z) (x : Q) : MoodRow :=
  mkMood d (fun _ => Some x).

(** What [calculate_score] returns at one row. *)
Definition score_of_row (vars_info : ScoreDefinition) (cutoff_proportion : Q)
    (rescale : bool) (r : MoodRow) : pyfloat :=
  if cutoff_check vars_info cutoff_proportion r && negb (uniform_data vars_info r)
  then if rescale then rescaled vars_info (score_sum vars_info r)
       else Num (score_sum vars_info r)
  else NaN.

(** A row of [life_satisfaction_vars] at its favourable extreme: positive
    weights at 4, [shame] and [suicidality] at 1. *)
Definition best_life_row : MoodRow :=
  mkMood (date_of_ymd 2022 3 1)
    (fun k => if (String.eqb k "shame" || String.eqb k "suicidality")%string
              then Some 1%Q else Some 4%Q).

End ScoringSpec.

(** Readings of the strength tables used by the further properties. *)
Module StrengthLookup.
Import Strength.

(** The body mass joined to a set dated [d]: the first measurement of that
    date, NaN when there is none. *)
Definition body_mass_on (weight_data : list (Z * cell)) (d : Z) : cell :=
  match find (fun w => fst w =? d) weight_data with
  | Some w => snd w
  | None => None
  end.

(** The key columns of a row of [daily_max]. *)
Definition daily_key (dm : DailyMax) : key := (d_exercise_name dm, d_date dm).

End StrengthLookup.

(** Conditions on a scored row used by the further properties. *)
Module ScoringRanges.
Import Scoring.

(** The transformation of a factor does not decrease over the factor's
    declared range. *)
Definition monotone_on_range (v : VarInfo) : Prop :=
  forall x y, (min_val v <= x)%Q -> (x <= y)%Q -> (y <= max_val v)%Q ->
              (transformation v x <= transformation v y)%Q.

(** Every factor of the definition is present in the row, inside its
    declared range. *)
Definition in_declared_range (vars_info : ScoreDefinition) (r : MoodRow) : Prop :=
  Forall (fun kv => exists x, factor r (fst kv) = Some x
                              /\ (min_val (snd kv) <= x)%Q /\ (x <= max_val (snd kv))%Q)
         vars_info.

(** The row passes the two tests of [valid_rows]. *)
Definition valid_row (vars_info : ScoreDefinition) (cutoff : Q) (r : MoodRow) : bool :=
  cutoff_check vars_info cutoff r && negb (uniform_data vars_info r).

End ScoringRanges.

(* ================================================================== *)
(** ** Workout pace: [HealthDataProcessor.get_pace_for_workout] *)

Module Workouts.

(** [int(x)] on a finite float: truncation towards zero. *)
Definition py_int (x : Q) : Z :=
  if Qle_bool 0 x then Qfloor x else Qceiling x.

(** [x % 1] on a finite float: the distance to the integer below. *)
Definition py_mod1 (x : Q) : Q := x - inject_Z (Qfloor x).

(** [convert_to_minute_proportion(number)] (process_data.py, lines 167-168):
    [int(number) + ((number % 1) / 100 * 60)]; [int] of NaN raises. *)
Definition convert_to_minute_proportion (number : cell) : result Q :=
  match number with
  | None => Raise "ValueError"
  | Some x => Ok (inject_Z (py_int x) + (py_mod1 x / 100 * 60))%Q
  end.



End Workouts.

(* ================================================================== *)
(** ** Mood log: cleaning, exceptional days, the mental-health scores *)

Module MoodLog.
Import Scoring.

(** [clean_merged_data], lines 70-74, on one numeric column given with the
    dates of its rows (strings [YYYY-MM-DD], whose order is the order of the
    days): [first_non_na_date] is NaN for a column without a number, and no
    date compares greater than NaN. *)
Definition first_non_na_date (column : list (Z * cell)) : option Z :=
  Reconciler.series_min (map fst (filter (fun dv => notna (snd dv)) column)).

Definition after_first (column : list (Z * cell)) (d : Z) : bool :=
  match first_non_na_date column with
  | Some first => first <? d
  | None => false
  end.

Definition fill_after_first (column : list (Z * cell)) : list (Z * cell) :=
  map (fun dv => if after_first column (fst dv)
                 then (fst dv, Some (fillna 1 (snd dv)))
                 else dv)
      column.

(** The table of [add_scores_to_exceptional_days] (lines 82-173). *)
Definition exceptional_days_conditions : list (string * Q) :=
  [
    ("private tour of Aruba’s national park", 4.5);
    ("performed Part of Your World", 5.0);
    ("Day after Duelling Pianos", 4.0);
    ("magical island off of Vieques", 5.0);
    ("jam session at Linden", 4.5);
    ("hotel Halloween party", 5.0);
    ("Won FTX fellowship", 4.0);
    ("Did well in important exam", 4.5);
    ("art gallery rationalist party", 4.0);
    ("last full day in nyc", 4.5);
    ("Received great grades", 4.0);
    ("first day living in Nassau", 5.0);
    ("day two in the Bahamas", 4.0);
    ("Met up with FTX staff", 4.0);
    ("big welcome dinner for FTX fellows", 4.0);
    ("going to war with FTX fellows", 4.0);
    ("amazing opportunity in the Bahamas", 4.0);
    ("opulent party", 4.0);
    ("blissful meditation experience", 4.5);
    ("Received great professional offer", 4.0);
    ("workday; EA dinner", 4.0);
    ("Excursion to the Exumas", 4.5);
    ("Miti's dream job offer", 4.5);
    ("excited for Miti", 4.0);
    ("Back in Nassau", 4.0);
    ("Atlantis water park", 4.5);
    ("Relaxing day with Miti", 4.0);
    ("Miti's fancy birthday dinner", 4.5);
    ("Dinner with Ben, Aria", 4.0);
    ("Misha and Joel's", 4.0);
    ("call with immigration lawyer", 4.0);
    ("excited for conferences", 4.0);
    ("seeing Greta", 4.5);
    ("friends back-to-back, through EAGxBoston", 4.5);
    ("First full day of EAGx", 4.5);
    ("Last day of EAGxBoston", 4.5);
    ("job contract meeting", 4.0);
    ("Booba and Miti", 4.5);
    ("Walk around Kenwood", 4.5);
    ("First day of EAG London", 4.0);
    ("Second day of EAG London", 4.0);
    ("FTX agree to guarantee", 4.0);
    ("Day after great immigration news", 4.5);
    ("coffee tasting in art gallery", 4.0);
    ("singalong with Chi", 4.0);
    ("Mum's arrival in Nassau", 4.0);
    ("Russian table songs with iulia", 4.5);
    ("lunch with Mum and Miti on Paradise Island", 4.5);
    ("Breakfast with iulya", 5.0);
    ("albeit with a very painful shoulder", 4.0);
    ("Given responsibility to run Wytham event", 4.0);
    ("Met my new puppy", 4.5);
    ("Bonding with Anemone", 4.5);
    ("getting over angst around normative uncertainty", 4.5);
    ("27th birthday", 4.0);
    ("arriving in SF for Constellation", 4.0);
    ("start in-person work on SHELTER Weekend", 4.0);
    ("welcoming participants to SHELTER Weekend", 4.5);
    ("First full day of SHELTER Weekend", 4.5);
    ("Meet up with London-based friends", 4.0);
    ("FTX bonus announcement", 4.0);
    ("Sending Misha off", 4.0);
    ("First full day in Boston", 4.0);
    ("Returning to Getaway cabins", 4.0);
    ("Leaving Getaway cabins", 4.5);
    ("renewed creativity and tolerance", 4.0);
    ("first solo thinking trip", 4.5);
    ("experiencing long-kindness glow on top of the lake", 4.5);
    ("Alexey, Linch, Basil, Sam, Greta, and Eric", 4.5);
    ("Cedar point with Miti", 4.0);
    ("Reminded of how great I feel", 4.0);
    ("Clarifying chat with Alexey", 4.0);
    ("coffee, lunch, heat, cold, and dinner with Misha", 4.0);
    ("AI concerns started to click intuitively", 4.0);
    ("Last day in Prague", 4.5);
    ("Beautiful trip with Miti", 4.0);
    ("wrote nice new years messages", 4.0);
    ("Job offer from CAIS", 4.5);
    ("tacos with EA NYC friends, Harry, and Sophie", 4.0);
    ("Exploring Roma Norte and Ian's food suggestions", 4.0);
    ("First day at CAIS", 4.0);
    ("Feeling grateful for my recent luck", 4.0);
    ("Abba-St. Patrick's day club night", 4.0);
    ("Happy with green card", 4.5);
    ("Enjoying beautiful CDMX", 4.0);
    ("exploring Paris for hours", 4.5);
    ("party with Arden", 4.0);
    ("Harry and Sophie's wedding", 4.5);
    ("ESPR house party in north London", 4.0)
  ]%string%Q.

Section ExceptionalDays.

(** [str_contains pattern text]: whether the regular expression [pattern]
    matches somewhere in [text], as [Series.str.contains] decides it. *)
Variable str_contains : string -> string -> bool.

(** The columns of a row besides [note] and [elevated]. *)
Variable Others : Type.

Record Entry : Type := mkEntry {
  note : option string;
  elevated : cell;
  others : Others
}.

(** [data["note"].str.contains(note, na=False)]. *)
Definition note_matches (pattern : string) (e : Entry) : bool :=
  match note e with
  | Some text => str_contains pattern text
  | None => false
  end.

(** [data.loc[..., "elevated"] = score], for one condition. *)
Definition set_score (data : list Entry) (condition : string * Q) : list Entry :=
  map (fun e => if note_matches (fst condition) e
                then mkEntry (note e) (Some (snd condition)) (others e)
                else e)
      data.

Definition add_scores_to_exceptional_days (data : list Entry) : list Entry :=
  fold_left set_score exceptional_days_conditions data.

End ExceptionalDays.

Arguments mkEntry {Others} _ _ _.
Arguments note {Others} _.
Arguments elevated {Others} _.
Arguments others {Others} _.
Arguments note_matches _ {Others} _ _.
Arguments set_score _ {Others} _ _.
Arguments add_scores_to_exceptional_days _ {Others} _.

Section MentalHealth.

(** The three real powers of the source, on floats that are not negative:
    [x ** 6.6582], [x ** 0.5] and [x ** 2.8675]. *)
Variable pow_6_6582 : Q -> Q.
Variable pow_0_5 : Q -> Q.
Variable pow_2_8675 : Q -> Q.

(** [x**6.6582 if x != 0 else np.nan]; NaN differs from 0 and stays NaN. *)
Definition power_or_nan (x : cell) : cell :=
  match x with
  | Some v => if Qeq_bool v 0 then None else Some (pow_6_6582 v)
  | None => None
  end.

(** One cell of [0.5 * (anxiety + depression) ** 0.5]. *)
Definition interaction_of (anxiety depressed : cell) : cell :=
  lift2 Qmult (Some 0.5%Q)
        (option_map pow_0_5 (lift2 Qplus (power_or_nan anxiety) (power_or_nan depressed))).

(** [data[name] = column], the column given row by row. *)
Definition assign_column (data : MoodFrame) (name : string) (value : MoodRow -> cell)
    : MoodFrame :=
  mkFrame (if has_column data name then columns data else columns data ++ [name])
          (map (fun r => mkMood (date r)
                           (fun k => if String.eqb k name then value r else factor r k))
               (rows data)).

(** [anxiety_depression_interaction(data)] (lines 180-188): the frame with
    its new column. *)
Definition anxiety_depression_interaction (data : MoodFrame) : result MoodFrame :=
  if negb (has_column data "anxiety") then Raise "KeyError"
  else if negb (has_column data "depressed") then Raise "KeyError"
  else Ok (assign_column data "anxiety_depression_interaction"
             (fun r => interaction_of (factor r "anxiety") (factor r "depressed"))).

Definition mental_health_vars : ScoreDefinition :=
  [ ("elevated", mkVar 1 4 1 pow_2_8675);
    ("anxiety_depression_interaction", mkVar 1 4 (-1) ident) ]%string%Q.

(** The eight score columns of [calculate_mental_health_metrics]. *)
Record Metrics : Type := mkMetrics {
  mental_health : list pyfloat;
  subjective_well_being : list pyfloat;
  life_satisfaction : list pyfloat;
  work_satisfaction : list pyfloat;
  mental_health_partial : list pyfloat;
  subjective_well_being_partial : list pyfloat;
  life_satisfaction_partial : list pyfloat;
  work_satisfaction_partial : list pyfloat
}.

(** [calculate_mental_health_metrics(data)] (lines 323-393).  The score
    columns a call adds to [data] are read by no later call. *)
Definition calculate_mental_health_metrics (data : MoodFrame) : result Metrics :=
  bind (anxiety_depression_interaction data) (fun data =>
  bind (calculate_score data mental_health_vars 1 default_exclude_dates false) (fun mh =>
  bind (calculate_score data subjective_well_being_vars 1 default_exclude_dates true) (fun swb =>
  bind (calculate_score data life_satisfaction_vars 1 default_exclude_dates true) (fun ls =>
  bind (calculate_score data work_satisfaction_vars 1 default_exclude_dates true) (fun ws =>
  bind (calculate_score data mental_health_vars 0.5 default_exclude_dates false) (fun mhp =>
  bind (calculate_score data subjective_well_being_vars 0.5 default_exclude_dates true) (fun swbp =>
  bind (calculate_score data life_satisfaction_vars 0.5 default_exclude_dates true) (fun lsp =>
  bind (calculate_score data work_satisfaction_vars 0.5 default_exclude_dates true) (fun wsp =>
  Ok (mkMetrics mh swb ls ws mhp swbp lsp wsp)))))))))).

End MentalHealth.

End MoodLog.

(* ================================================================== *)
(** ** The tidy format of the scores *)

Module Tidy.

(** [str.replace(old, new)] for a non-empty [old]: the occurrences are taken
    from the left and do not overlap; [skip] characters of an occurrence
    are still to be passed. *)
Fixpoint replace_from (skip : nat) (old new s : string) : string :=
  match s with
  | EmptyString => EmptyString
  | String c s' =>
      match skip with
      | S k => replace_from k old new s'
      | O =>
          if String.prefix old s
          then new ++ replace_from (String.length old - 1) old new s'
          else String c (replace_from O old new s')
      end
  end.

Definition str_replace (old new s : string) : string := replace_from O old new s.

(** A row of the scored log: [date], [note] and the score columns by name. *)
Record ScoredDay : Type := mkDay {
  date : Z;
  note : option string;
  score : string -> pyfloat
}.

(** A row of a melted frame. *)
Record Melted : Type := mkMelted {
  m_date : Z;
  m_note : option string;
  m_metric : string;
  m_value : pyfloat
}.

(** A row of the tidy frame. *)
Record TidyRow : Type := mkTidy {
  t_date : Z;
  t_note : option string;
  metric : string;
  value : pyfloat;
  value_partial : pyfloat
}.

Definition value_cols : list string :=
  [ "mental_health"; "subjective_well_being"; "life_satisfaction";
    "work_satisfaction" ]%string.

Definition partial_value_cols : list string :=
  map (fun col => (col ++ "_partial")%string) value_cols.

(** [pd.melt(data, id_vars=["date", "note"], value_vars=...)]: one block of
    rows per column, in the order of [value_vars]. *)
Definition melt (data : list ScoredDay) (value_vars : list string) : list Melted :=
  flat_map (fun col => map (fun r => mkMelted (date r) (note r) col (score r col)) data)
           value_vars.

(** Equality of two [note] keys; a merge pairs a missing note with a missing
    note. *)
Definition note_eqb (a b : option string) : bool :=
  match a, b with
  | Some x, Some y => String.eqb x y
  | None, None => true
  | _, _ => false
  end.

Definition same_key (l p : Melted) : bool :=
  (m_date l =? m_date p) && String.eqb (m_metric l) (m_metric p)
  && note_eqb (m_note l) (m_note p).

(** [reshape_to_tidy_format(data)] (process_mental_health.py, lines 395-440)
    on a frame that has the eight score columns. *)
Definition reshape_to_tidy_format (data : list ScoredDay) : list TidyRow :=
  let tidy_full := melt data value_cols in
  let tidy_partial := melt data partial_value_cols in
  (* tidy_partial["metric"] = tidy_partial["metric"].str.replace("_partial", "") *)
  let tidy_partial :=
    map (fun p => mkMelted (m_date p) (m_note p)
                    (str_replace "_partial" "" (m_metric p)) (m_value p))
        tidy_partial in
  (* pd.merge(tidy_full, tidy_partial, on=["date", "metric", "note"], how="left") *)
  flat_map
    (fun l =>
       match filter (same_key l) tidy_partial with
       | [] => [mkTidy (m_date l) (m_note l) (m_metric l) (m_value l) NaN]
       | found =>
           map (fun p => mkTidy (m_date l) (m_note l) (m_metric l) (m_value l) (m_value p))
               found
       end)
    tidy_full.

End Tidy.

(** Readings of the scored log used by the further properties. *)
Module TidySpec.
Import Tidy.

(** The key of a day in the merge. *)
Definition day_key (r : ScoredDay) : Z * option string := (date r, note r).

(** The tidy row of one day and one metric. *)
Definition tidy_row (col : string) (r : ScoredDay) : TidyRow :=
  mkTidy (date r) (note r) col (score r col) (score r (col ++ "_partial")%string).

Definition sample_days : list ScoredDay :=
  [ mkDay 738000 (Some "rest day"%string)
      (fun col => if String.eqb col "mental_health" then Num 3 else NaN);
    mkDay 738001 None
      (fun col => if String.eqb col "mental_health_partial" then Num 2 else NaN) ].

End TidySpec.

(* ================================================================== *)
(** ** Body mass (process_data.py, [WeightDataProcessor]) *)

Module BodyMass.
Import Reconciler Volume.

(** A record of the health export: its [type], [date] and [value]. *)
Record HealthRecord : Type := mkRecord {
  type : string;
  date : Z;
  value : cell
}.

Definition qmin (x y : Q) : Q := if Qle_bool x y then x else y.

Definition cell_min (a b : cell) : cell :=
  match a, b with
  | Some x, Some y => Some (qmin x y)
  | Some x, None => Some x
  | None, _ => b
  end.

(** [min] with [skipna=True]: NaN when there is no number. *)
Definition nanmin (l : list cell) : cell := fold_left cell_min l None.

(** The first number of [l], with how many NaN come before it. *)
Fixpoint next_valid (l : list cell) : option (nat * Q) :=
  match l with
  | [] => None
  | Some v :: _ => Some (O, v)
  | None :: t =>
      match next_valid t with
      | Some (j, v) => Some (S j, v)
      | None => None
      end
  end.

(** [Series.interpolate()] (linear, forward) from a position on: [prev] is
    the last number passed and how many NaN have come after it.  A NaN
    between two numbers is set on the line through them, positions counted
    in rows; a NaN after the last number gets that number; a NaN before the
    first number stays. *)
Fixpoint interpolate_from (prev : option (Q * nat)) (l : list cell) : list cell :=
  match l with
  | [] => []
  | Some v :: t => Some v :: interpolate_from (Some (v, O)) t
  | None :: t =>
      match prev with
      | None => None :: interpolate_from None t
      | Some (p, k) =>
          Some (match next_valid t with
                | Some (j, q) =>
                    (q - p) / inject_Z (Z.of_nat (S k + S j))
                    * inject_Z (Z.of_nat (S k)) + p
                | None => p
                end)%Q
          :: interpolate_from (Some (p, S k)) t
      end
  end.

Definition interpolate (l : list cell) : list cell := interpolate_from None l.

(** The [value] column of the joined frame: NaN on a day without record. *)
Definition joined_value (j : Joined cell) : cell :=
  match j_row j with
  | Some v => v
  | None => None
  end.

(** [data[data["type"] == "BodyMass"].loc[:, ["date", "value"]]]. *)
Definition body_mass_records (data : list HealthRecord) : list (Z * cell) :=
  map (fun r => (date r, value r))
      (filter (fun r => String.eqb (type r) "BodyMass") data).

(** What [wrangle_weight_data] does with the joined frame: the rows
    [(date, body_mass)] of its result.  The in-place [interpolate] on the
    column reaches the frame, as it does in pandas without copy-on-write. *)
Definition body_mass_table (data : list (Joined cell)) : list (Z * cell) :=
  (* data["value"].interpolate(inplace=True) *)
  let value := interpolate (map joined_value data) in
  (* data["body_mass"] = data["value"] * 2.20462 *)
  let body_mass := map (fun v => lift2 Qmult v (Some 2.20462%Q)) value in
  let rows := combine (map (@j_date cell) data) body_mass in
  (* data.groupby("date").agg({"body_mass": "min"}).reset_index() *)
  map (fun d => (d, nanmin (map snd (filter (fun row => fst row =? d) rows))))
      (fold_right insert_date [] (map fst rows)).

(** [WeightDataProcessor.wrangle_weight_data(data)] (lines 225-235), run on
    the day [today]. *)
Definition wrangle_weight_data (data : list HealthRecord) (today : Z)
    : result (list (Z * cell)) :=
  let data := mkFrame DateObject (body_mass_records data) in
  bind (fst (join_dates None data false "energy" today))
       (fun data => Ok (body_mass_table data)).

End BodyMass.

(** Readings of the health export used by the further properties. *)
Module BodyMassSpec.
Import BodyMass.

(** The export has a body-mass record of the day [d] with the number [x]. *)
Definition measured (data : list HealthRecord) (d : Z) (x : Q) : Prop :=
  exists r, In r data /\ type r = "BodyMass"%string /\ date r = d /\ value r = Some x.

(** Every body-mass record holds a number. *)
Definition all_numeric (data : list HealthRecord) : Prop :=
  forall r, In r data -> type r = "BodyMass"%string -> value r <> None.

Definition sample_export : list HealthRecord :=
  [ mkRecord "BodyMass" 738000 (Some 80%Q);
    mkRecord "HeartRate" 738001 (Some 61%Q);
    mkRecord "BodyMass" 738000 (Some 79%Q);
    mkRecord "BodyMass" 738003 (Some 77%Q) ]%string.

End BodyMassSpec.

(** Readings of the mood log used by the further properties. *)
Module MoodLogSpec.
Import Scoring MoodLog.

(** Some row of the column dated before [d] holds a number. *)
Definition numbered_before (column : list (Z * cell)) (d : Z) : Prop :=
  exists d0 x, In (d0, Some x) column /\ d0 < d.

(** The last condition of the table whose phrase matches the note. *)
Definition last_match (str_contains : string -> string -> bool) {Others}
    (e : Entry Others) : option (string * Q) :=
  find (fun c => note_matches str_contains (fst c) e) (rev exceptional_days_conditions).

Definition rescored (str_contains : string -> string -> bool) {Others}
    (e : Entry Others) : Entry Others :=
  match last_match str_contains e with
  | Some c => mkEntry (note e) (Some (snd c)) (others e)
  | None => e
  end.

(** The cell is 0 or NaN. *)
Definition zero_or_missing (x : cell) : bool :=
  match x with Some v => Qeq_bool v 0 | None => true end.

(** The bases of the real powers are not negative (Python gives a complex
    number for a negative base, which the float model leaves out). *)
Definition nonnegative_log (data : MoodFrame) : Prop :=
  Forall (fun r =>
            Forall (fun k => match factor r k with
                             | Some v => (0 <= v)%Q
                             | None => True
                             end)
                   [ "elevated"; "anxiety"; "depressed" ]%string)
         (rows data).

(** A log with every factor column of the four definitions. *)
Definition log_columns : list string :=
  [ "anxiety"; "depressed"; "elevated" ]%string
    ++ map fst subjective_well_being_vars
    ++ map fst life_satisfaction_vars
    ++ map fst work_satisfaction_vars.

(** A day with every factor at 2, but [anxiety] at [a]. *)
Definition day_with_anxiety (d : Z) (a : Q) : MoodRow :=
  mkMood d (fun k => if String.eqb k "anxiety" then Some a else Some 2%Q).

Definition sample_log : MoodFrame :=
  mkFrame log_columns
    [ day_with_anxiety (date_of_ymd 2024 1 1) 0;
      day_with_anxiety (date_of_ymd 2024 1 2) 3 ].

Definition sample_entries : list (Entry unit) :=
  [ mkEntry (Some "Quiet day at home"%string) (Some 2%Q) tt;
    mkEntry (Some "Back in Nassau after a blissful meditation experience"%string)
            (Some 3%Q) tt;
    mkEntry None None tt ].

Definition sample_column : list (Z * cell) :=
  [ (3, None); (5, Some 2%Q); (4, None); (6, None); (7, Some 3%Q) ].

End MoodLogSpec.

(* ================================================================== *)
(** * Properties *)

Section ListFacts.

Lemma nth_error_zip_with {A B C} (f : A -> B -> C) xs ys i a b :
  nth_error xs i = Some a -> nth_error ys i = Some b ->
  nth_error (zip_with f xs ys) i = Some (f a b).
Proof.
  revert ys i. induction xs as [|x xs IH]; intros [|y ys] [|i]; simpl;
    try discriminate.
  - intros [= ->] [= ->]. reflexivity.
  - apply IH.
Qed.

End ListFacts.

(* ------------------------------------------------------------------ *)
(** ** Scoring *)

Section ScoringFacts.
Import Scoring ScoringSpec.

Lemma qsum_acc (l : list Q) (a : Q) :
  (fold_left Qplus l a == a + qsum l)%Q.
Proof.
  unfold qsum. revert a. induction l as [|x l IH]; intros a; simpl.
  - ring.
  - rewrite (IH (a + x)%Q), (IH (0 + x)%Q). ring.
Qed.

Lemma qsum_cons (x : Q) (l : list Q) : (qsum (x :: l) == x + qsum l)%Q.
Proof. unfold qsum at 1. simpl. rewrite qsum_acc. ring. Qed.

Lemma qsum_map_ext {A} (f g : A -> Q) (l : list A) :
  Forall (fun a => (f a == g a)%Q) l ->
  (qsum (map f l) == qsum (map g l))%Q.
Proof.
  induction 1 as [|a l Ha _ IH]; simpl.
  - reflexivity.
  - rewrite !qsum_cons, Ha, IH. reflexivity.
Qed.

Lemma calculate_score_nth data vars_info cutoff exclude_dates rescale i r :
  columns_present data vars_info ->
  nth_error (rows data) i = Some r ->
  exists out,
    calculate_score data vars_info cutoff exclude_dates rescale = Ok out
    /\ nth_error out i = Some (score_of_row vars_info cutoff rescale r).
Proof.
  intros Hcols Hr. unfold calculate_score, columns_present in *.
  rewrite Hcols. simpl. eexists. split; [reflexivity|].
  unfold score_of_row.
  erewrite nth_error_zip_with.
  - reflexivity.
  - erewrite nth_error_zip_with; [reflexivity| |].
    + rewrite nth_error_map, Hr. reflexivity.
    + rewrite !nth_error_map, Hr. reflexivity.
  - destruct rescale; rewrite !nth_error_map, Hr; reflexivity.
Qed.

Lemma calculate_score_length data vars_info cutoff exclude_dates rescale out :
  calculate_score data vars_info cutoff exclude_dates rescale = Ok out ->
  List.length out = List.length (rows data).
Proof.
  unfold calculate_score.
  destruct (negb _); [discriminate|]. intros [= <-].
  assert (Hz : forall A B C (f : A -> B -> C) xs ys,
             List.length xs = List.length ys ->
             List.length (zip_with f xs ys) = List.length xs).
  { intros A B C f xs. induction xs as [|x xs IH]; intros [|y ys]; simpl;
      try discriminate; auto. }
  rewrite Hz.
  - rewrite Hz; rewrite ?length_map; reflexivity.
  - rewrite Hz; rewrite ?length_map; [|reflexivity].
    destruct rescale; rewrite !length_map; reflexivity.
Qed.

Lemma transformed_at_extreme (favourable : bool) (r : MoodRow) (kv : string * VarInfo) :
  (let v := snd kv in
   ((0 < weight v)%Q ->
    factor r (fst kv) = Some (if favourable then max_val v else min_val v))
   /\ ((weight v < 0)%Q ->
    factor r (fst kv) = Some (if favourable then min_val v else max_val v))) ->
  (transformed r kv ==
   (fun kv' =>
      let v := snd kv' in
      if negb (Qle_bool (weight v) 0)
      then (transformation v (if favourable then max_val v else min_val v) * weight v)
      else (transformation v (if favourable then min_val v else max_val v) * weight v)) kv)%Q.
Proof.
  destruct kv as [k v]. cbn [fst snd]. intros [Hpos Hneg].
  unfold transformed. cbn [fst snd].
  destruct (Qle_bool (weight v) 0) eqn:Hw; cbn [negb].
  - apply Qle_bool_iff in Hw.
    destruct (Qeq_dec (weight v) 0) as [Hz|Hnz].
    + (* a weight of zero contributes nothing wherever the factor sits *)
      destruct (factor r k); cbn [fillna]; rewrite Hz; ring.
    + assert (Hlt : (weight v < 0)%Q).
      { apply Qle_lteq in Hw. destruct Hw as [Hw|Hw]; [exact Hw|contradiction]. }
      rewrite (Hneg Hlt). reflexivity.
  - assert (Hlt : (0 < weight v)%Q).
    { apply Qnot_le_lt. intro Hle. apply Qle_bool_iff in Hle. congruence. }
    rewrite (Hpos Hlt). reflexivity.
Qed.

Lemma score_sum_favourable vars_info r :
  at_extreme true vars_info r ->
  (score_sum vars_info r == max_possible_score vars_info)%Q.
Proof.
  intros H. unfold score_sum, max_possible_score, max_scores.
  apply qsum_map_ext. eapply Forall_impl; [|exact H].
  intros kv Hkv. apply (transformed_at_extreme true r kv Hkv).
Qed.

Lemma score_sum_unfavourable vars_info r :
  at_extreme false vars_info r ->
  (score_sum vars_info r == min_possible_score vars_info)%Q.
Proof.
  intros H. unfold score_sum, min_possible_score, min_scores.
  apply qsum_map_ext. eapply Forall_impl; [|exact H].
  intros kv Hkv. apply (transformed_at_extreme false r kv Hkv).
Qed.

Lemma rescaled_finite vars_info s :
  ~ (max_possible_score vars_info == min_possible_score vars_info)%Q ->
  rescaled vars_info s =
  Num ((s - min_possible_score vars_info)
       / (max_possible_score vars_info - min_possible_score vars_info) * 200 - 100)%Q.
Proof.
  intros Hne. unfold rescaled, float_div.
  destruct (Qeq_bool _ 0) eqn:E.
  - apply Qeq_bool_iff in E. exfalso. apply Hne.
    setoid_replace (max_possible_score vars_info)
      with ((max_possible_score vars_info - min_possible_score vars_info)
            + min_possible_score vars_info)%Q by ring.
    rewrite E. ring.
  - reflexivity.
Qed.

End ScoringFacts.

Section ScoringClaims.
Import Scoring ScoringSpec.

(** The exclusion mask is computed and then overwritten: the score array
    does not depend on [exclude_dates]. *)
Lemma calculate_score_ignores_exclude_dates data vars_info cutoff exclude_dates rescale :
  calculate_score data vars_info cutoff exclude_dates rescale
  = calculate_score data vars_info cutoff [] rescale.
Proof. reflexivity. Qed.

(** C1 (the code departs from the claim).  A row dated 2023-07-01, inside
    the excluded range 2023-06-16 .. 2023-09-20, with every factor of
    [life_satisfaction_vars] present and equal to 2, passes the strict
    cutoff and is not degenerate; [calculate_score] returns the finite
    score -900/61 for it, not NaN. *)
Theorem excluded_row_is_scored :
  let r := constant_row (date_of_ymd 2023 7 1) 2 in
  let data := frame_of life_satisfaction_vars [r] in
  existsb (fun range => between (fst range) (snd range) (date r))
          default_exclude_dates = true
  /\ cutoff_check life_satisfaction_vars 1 r = true
  /\ uniform_data life_satisfaction_vars r = false
  /\ exists q,
       calculate_score data life_satisfaction_vars 1 default_exclude_dates true
       = Ok [Num q]
       /\ (q == - (900 # 61))%Q.
Proof.
  cbv zeta. repeat split; try (vm_compute; reflexivity).
  eexists. split; [vm_compute; reflexivity|]. vm_compute. reflexivity.
Qed.

(** C8 (as amended).  With [rescale=True], for a definition whose
    [max_possible_score] differs from its [min_possible_score], a row that
    passes the cutoff and the degenerate-row test scores exactly 100 when
    every weighted factor is at its favourable endpoint, and exactly -100
    when every weighted factor is at its unfavourable endpoint.  The
    excluded date ranges play no part. *)
Theorem rescaled_score_at_extremes
    (data : MoodFrame) (vars_info : ScoreDefinition) (cutoff : Q)
    (exclude_dates : list (Z * Z)) (i : nat) (r : MoodRow) (favourable : bool) :
  columns_present data vars_info ->
  nth_error (rows data) i = Some r ->
  cutoff_check vars_info cutoff r = true ->
  uniform_data vars_info r = false ->
  ~ (max_possible_score vars_info == min_possible_score vars_info)%Q ->
  at_extreme favourable vars_info r ->
  exists out q,
    calculate_score data vars_info cutoff exclude_dates true = Ok out
    /\ nth_error out i = Some (Num q)
    /\ (q == if favourable then 100 else -100)%Q.
Proof.
  intros Hcols Hr Hcut Huni Hne Hext.
  destruct (calculate_score_nth data vars_info cutoff exclude_dates true i r Hcols Hr)
    as (out & Hout & Hnth).
  unfold score_of_row in Hnth. rewrite Hcut, Huni in Hnth. cbn in Hnth.
  rewrite (rescaled_finite _ _ Hne) in Hnth.
  exists out. eexists. split; [exact Hout|]. split; [exact Hnth|].
  assert (Hd : ~ (max_possible_score vars_info - min_possible_score vars_info == 0)%Q).
  { intro E. apply Hne.
    setoid_replace (max_possible_score vars_info)
      with ((max_possible_score vars_info - min_possible_score vars_info)
            + min_possible_score vars_info)%Q by ring.
    rewrite E. ring. }
  destruct favourable.
  - rewrite (score_sum_favourable _ _ Hext). field. exact Hd.
  - rewrite (score_sum_unfavourable _ _ Hext). field. exact Hd.
Qed.

(** The best row of [life_satisfaction_vars] scores 100. *)
Lemma rescaled_score_at_extremes_witness :
  exists out q,
    calculate_score (frame_of life_satisfaction_vars [best_life_row])
      life_satisfaction_vars 1 default_exclude_dates true = Ok out
    /\ nth_error out 0 = Some (Num q)
    /\ (q == 100)%Q.
Proof.
  apply (rescaled_score_at_extremes
           (frame_of life_satisfaction_vars [best_life_row])
           life_satisfaction_vars 1 default_exclude_dates 0 best_life_row true).
  - vm_compute. reflexivity.
  - reflexivity.
  - vm_compute. reflexivity.
  - vm_compute. reflexivity.
  - vm_compute. discriminate.
  - repeat constructor; vm_compute; (reflexivity || discriminate).
Defined.

(** C8 (as stated) fails where [max_possible_score = min_possible_score]:
    for a definition whose only weight is 0, and for one whose only factor
    has equal endpoints, the rescaling divides 0 by 0 and a valid row at
    its extreme scores NaN. *)
Lemma rescaled_score_zero_weight_counterexample :
  calculate_score (frame_of [("elevated"%string, mkVar 1 4 0 ident)]
                            [constant_row (date_of_ymd 2022 3 1) 1])
                  [("elevated"%string, mkVar 1 4 0 ident)]
                  1 default_exclude_dates true
  = Ok [NaN]
  /\ calculate_score (frame_of [("energy"%string, mkVar 4 4 1 ident)]
                               [constant_row (date_of_ymd 2022 3 1) 4])
                     [("energy"%string, mkVar 4 4 1 ident)]
                     1 default_exclude_dates true
     = Ok [NaN]
  /\ ~ (forall (data : MoodFrame) (vars_info : ScoreDefinition) (cutoff : Q)
               (exclude_dates : list (Z * Z)) (i : nat) (r : MoodRow)
               (favourable : bool),
           columns_present data vars_info ->
           nth_error (rows data) i = Some r ->
           existsb (fun range => between (fst range) (snd range) (date r))
                   exclude_dates = false ->
           cutoff_check vars_info cutoff r = true ->
           uniform_data vars_info r = false ->
           at_extreme favourable vars_info r ->
           exists out q,
             calculate_score data vars_info cutoff exclude_dates true = Ok out
             /\ nth_error out i = Some (Num q)
             /\ (q == if favourable then 100 else -100)%Q).
Proof.
  split; [vm_compute; reflexivity|]. split; [vm_compute; reflexivity|].
  intros H.
  pose (vars := [("energy"%string, mkVar 4 4 1 ident)]).
  pose (r := constant_row (date_of_ymd 2022 3 1) 4).
  destruct (H (frame_of vars [r]) vars 1%Q default_exclude_dates 0%nat r true)
    as (out & q & Hout & Hnth & _).
  - reflexivity.
  - reflexivity.
  - vm_compute. reflexivity.
  - vm_compute. reflexivity.
  - vm_compute. reflexivity.
  - repeat constructor; vm_compute; (reflexivity || discriminate).
  - vm_compute in Hout. injection Hout as <-. discriminate Hnth.
Qed.

(** C10.  For a definition with none of [elevated], [depressed], [anxiety],
    a row whose factors all equal 1 gets NaN from [calculate_score],
    whatever the cutoff, the excluded ranges, the date and [rescale]. *)
Theorem all_ones_row_is_undefined
    (data : MoodFrame) (vars_info : ScoreDefinition) (cutoff : Q)
    (exclude_dates : list (Z * Z)) (rescale : bool) (i : nat) (r : MoodRow) :
  columns_present data vars_info ->
  nth_error (rows data) i = Some r ->
  no_main_vars vars_info ->
  all_ones vars_info r ->
  exists out,
    calculate_score data vars_info cutoff exclude_dates rescale = Ok out
    /\ nth_error out i = Some NaN.
Proof.
  intros Hcols Hr Hmain Hones.
  destruct (calculate_score_nth data vars_info cutoff exclude_dates rescale i r Hcols Hr)
    as (out & Hout & Hnth).
  exists out. split; [exact Hout|]. rewrite Hnth. f_equal.
  unfold score_of_row.
  assert (Hu : uniform_data vars_info r = true).
  { clear - Hmain Hones.
    unfold uniform_data, main_zero_check, custom_one_check.
    unfold no_main_vars, all_ones in *.
    induction vars_info as [|kv vs IH]; [reflexivity|].
    inversion Hmain as [|? ? Hm Hms]; inversion Hones as [|? ? Ho Hos]; subst.
    cbn [filter]. rewrite Hm. cbn [negb forallb].
    destruct Ho as (x & Hx & Hx1). rewrite Hx. cbn [cell_eq].
    apply Qeq_bool_iff in Hx1. rewrite Hx1. cbn [andb].
    apply IH; assumption. }
  rewrite Hu. rewrite andb_false_r. reflexivity.
Qed.

(** The strict [life_satisfaction] and the partial [work_satisfaction]
    scores of a row of ones dated 2022-03-01, outside every excluded range. *)
Lemma all_ones_row_is_undefined_witness :
  (exists out,
      calculate_score (frame_of life_satisfaction_vars
                         [constant_row (date_of_ymd 2022 3 1) 1])
        life_satisfaction_vars 1 default_exclude_dates true = Ok out
      /\ nth_error out 0 = Some NaN)
  /\ (exists out,
      calculate_score (frame_of work_satisfaction_vars
                         [constant_row (date_of_ymd 2022 3 1) 1])
        work_satisfaction_vars 0.5 default_exclude_dates true = Ok out
      /\ nth_error out 0 = Some NaN).
Proof.
  split.
  - apply (all_ones_row_is_undefined
             (frame_of life_satisfaction_vars [constant_row (date_of_ymd 2022 3 1) 1])
             life_satisfaction_vars 1 default_exclude_dates true 0
             (constant_row (date_of_ymd 2022 3 1) 1)).
    + vm_compute. reflexivity.
    + reflexivity.
    + repeat constructor.
    + repeat constructor; exists 1%Q; split; reflexivity.
  - apply (all_ones_row_is_undefined
             (frame_of work_satisfaction_vars [constant_row (date_of_ymd 2022 3 1) 1])
             work_satisfaction_vars 0.5 default_exclude_dates true 0
             (constant_row (date_of_ymd 2022 3 1) 1)).
    + vm_compute. reflexivity.
    + reflexivity.
    + repeat constructor.
    + repeat constructor; exists 1%Q; split; reflexivity.
Defined.

End ScoringClaims.

(* ------------------------------------------------------------------ *)
(** ** Sorting and indexing *)

Section FrameFacts.

Lemma insert_sorted_perm {A} (leb : A -> A -> bool) x l :
  Permutation (insert_sorted leb x l) (x :: l).
Proof.
  induction l as [|y l IH]; simpl.
  - reflexivity.
  - destruct (leb x y).
    + reflexivity.
    + rewrite IH. apply perm_swap.
Qed.

Lemma sort_values_perm {A} (leb : A -> A -> bool) l :
  Permutation (sort_values leb l) l.
Proof.
  induction l as [|x l IH]; simpl.
  - reflexivity.
  - unfold sort_values in *. simpl. rewrite insert_sorted_perm.
    constructor. exact IH.
Qed.

Lemma in_sort_values {A} (leb : A -> A -> bool) l x :
  In x (sort_values leb l) <-> In x l.
Proof.
  split; apply Permutation_in;
    [apply sort_values_perm | symmetry; apply sort_values_perm].
Qed.

Lemma in_combine_seq {A} (l : list A) (start i : nat) (a : A) :
  In (i, a) (combine (seq start (List.length l)) l) ->
  nth_error l (i - start) = Some a /\ (start <= i)%nat.
Proof.
  revert start. induction l as [|x l IH]; intros start; simpl.
  - intros [].
  - intros [[= <- <-]|H].
    + rewrite Nat.sub_diag. split; [reflexivity|lia].
    + apply IH in H. destruct H as [H Hle].
      replace (i - start)%nat with (S (i - S start)) by lia.
      split; [exact H|lia].
Qed.

Lemma in_indexed {A} (l : list A) i a :
  In (i, a) (indexed l) -> nth_error l i = Some a.
Proof.
  intros H. apply in_combine_seq in H. rewrite Nat.sub_0_r in H. tauto.
Qed.

Lemma indexed_nth {A} (l : list A) ir :
  In ir (indexed l) -> nth_error l (fst ir) = Some (snd ir).
Proof. destruct ir as [i a]. apply in_indexed. Qed.

Lemma map_snd_indexed {A} (l : list A) : map snd (indexed l) = l.
Proof.
  unfold indexed. generalize 0%nat.
  induction l as [|x l IH]; intros n; simpl; [reflexivity|].
  f_equal. apply IH.
Qed.

End FrameFacts.

(* ------------------------------------------------------------------ *)
(** ** Strength: the one-rep-max pass *)

Section OneRepMaxFacts.
Import Strength StrengthSpec.

Lemma name_in_iff n l : name_in n l = true <-> In n l.
Proof.
  unfold name_in. rewrite existsb_exists. split.
  - intros (x & Hx & E). apply String.eqb_eq in E. subst. exact Hx.
  - intros H. exists n. split; [exact H|apply String.eqb_refl].
Qed.

Lemma in_unique seen l x :
  In x (unique seen l) <-> In x l /\ ~ In x seen.
Proof.
  revert seen. induction l as [|y l IH]; intros seen; simpl.
  - tauto.
  - destruct (name_in y seen) eqn:E.
    + apply name_in_iff in E. rewrite IH. split.
      * tauto.
      * intros [[->|H] Hn]; [contradiction|tauto].
    + assert (Hy : ~ In y seen).
      { intro H. apply name_in_iff in H. congruence. }
      simpl. rewrite IH. simpl. split.
      * intros [<-|[H Hn]]; [tauto|]. split; [tauto|]. intro; apply Hn; tauto.
      * intros [[->|H] Hn]; [tauto|].
        destruct (string_dec y x) as [->|Hne]; [tauto|]. right. split; tauto.
Qed.

(** Membership in the list of barbell exercises is the substring test. *)
Lemma name_in_barbell names n :
  In n names ->
  name_in n (filter (contains "(Barbell)") (unique [] names)) = barbell_variant n.
Proof.
  intros Hin. unfold barbell_variant.
  destruct (contains "(Barbell)" n) eqn:E.
  - apply name_in_iff. apply filter_In. split; [|exact E].
    apply in_unique. split; [exact Hin|intros []].
  - destruct (name_in n _) eqn:E'; [|reflexivity].
    apply name_in_iff in E'. apply filter_In in E'. destruct E'; congruence.
Qed.

Lemma overlay_self {A} (x : option A) : overlay x x = x.
Proof. destruct x; reflexivity. Qed.

Lemma update_row_self r : update_row r r = r.
Proof. destruct r. unfold update_row. cbn. rewrite !overlay_self. reflexivity. Qed.

(** Updating a frame from rows taken out of it changes nothing. *)
Lemma update_from_own_rows data group :
  (forall g, In g group -> In g (indexed data)) ->
  update data group = data.
Proof.
  intros Hsub. unfold update.
  rewrite <- (map_snd_indexed data) at 2.
  apply map_ext_in. intros ir Hir.
  destruct (find _ group) as [g|] eqn:F; [|reflexivity].
  apply find_some in F. destruct F as [Hg E].
  apply Nat.eqb_eq in E.
  apply Hsub in Hg. apply indexed_nth in Hg. apply indexed_nth in Hir.
  rewrite E in Hg. rewrite Hir in Hg. injection Hg as <-.
  apply update_row_self.
Qed.

Lemma cummax_pass_id data name : cummax_pass data name = data.
Proof.
  unfold cummax_pass. apply update_from_own_rows.
  intros g Hg. apply filter_In in Hg. tauto.
Qed.

(** The loop over the groups leaves the frame as the [iterrows] loop made
    it: [data] has no [cummax_one_rep_max] column to update. *)
Lemma cummax_loop_id names data : fold_left cummax_pass names data = data.
Proof.
  induction names as [|n names IH]; simpl; [reflexivity|].
  rewrite cummax_pass_id. exact IH.
Qed.

Lemma calculate_1RM_spec data : calculate_1RM data = map spec_rated data.
Proof.
  unfold calculate_1RM. rewrite cummax_loop_id.
  apply map_ext_in. intros [s bm] Hin.
  unfold rate_row, spec_rated, spec_one_rep_max. cbn [fst snd].
  rewrite name_in_barbell.
  - reflexivity.
  - apply in_map_iff. exists (s, bm). split; [reflexivity|exact Hin].
Qed.

End OneRepMaxFacts.

Section OneRepMaxClaims.
Import Strength StrengthSpec.

(** C4.  [calculate_1RM] gives every set the one-rep-max of the formula:
    body mass times [1 + reps/30] for an unweighted exercise, and otherwise
    the weight, plus 44 for a barbell-named exercise, times [1 + reps/30].
    With weight 100 and 5 reps, a plain exercise gets [100 * (1 + 5/30)]
    and a barbell exercise gets 168. *)
Theorem one_rep_max_formula :
  (forall data : list (ExerciseSet * cell),
      calculate_1RM data = map spec_rated data)
  /\ (forall (d : Z) (body_mass : cell),
        exists q,
          map one_rep_max
            (calculate_1RM
               [(mkSet d (Some "Leg Press (Machine)"%string) 1 (Some 100%Q) (Some 5%Q),
                 body_mass)])
          = [Some q]
          /\ (q == 100 * (1 + 5 / 30))%Q)
  /\ (forall (d : Z) (body_mass : cell),
        exists q,
          map one_rep_max
            (calculate_1RM
               [(mkSet d (Some "Bench Press (Barbell)"%string) 1 (Some 100%Q) (Some 5%Q),
                 body_mass)])
          = [Some q]
          /\ (q == (100 + 44) * (1 + 5 / 30))%Q /\ (q == 168)%Q).
Proof.
  split; [exact calculate_1RM_spec|]. split.
  - intros d bm. rewrite calculate_1RM_spec. eexists. split.
    + cbv -[Qmult Qplus Qdiv]. reflexivity.
    + reflexivity.
  - intros d bm. rewrite calculate_1RM_spec. eexists. split.
    + cbv -[Qmult Qplus Qdiv]. reflexivity.
    + split; reflexivity.
Qed.

End OneRepMaxClaims.

(* ------------------------------------------------------------------ *)
(** ** Maxima that skip NaN *)

Section MaxFacts.

Lemma qmax_cases x y :
  (qmax x y = y /\ (x <= y)%Q) \/ (qmax x y = x /\ (y <= x)%Q).
Proof.
  unfold qmax. destruct (Qle_bool x y) eqn:E.
  - left. split; [reflexivity|]. apply Qle_bool_iff. exact E.
  - right. split; [reflexivity|].
    apply Qlt_le_weak. apply Qnot_le_lt. intro H.
    apply Qle_bool_iff in H. congruence.
Qed.

Lemma cell_max_is_max a b : is_max_of (cell_max a b) [a; b].
Proof.
  destruct a as [x|], b as [y|]; simpl.
  - destruct (qmax_cases x y) as [[-> H]|[-> H]].
    + split; [tauto|]. intros w [[= ->]|[[= ->]|[]]]; [exact H|apply Qle_refl].
    + split; [tauto|]. intros w [[= ->]|[[= ->]|[]]]; [apply Qle_refl|exact H].
  - split; [tauto|]. intros w [[= ->]|[[=]|[]]]. apply Qle_refl.
  - split; [tauto|]. intros w [[=]|[[= ->]|[]]]. apply Qle_refl.
  - intros x [<-|[<-|[]]]; reflexivity.
Qed.

(** A maximum taken over a list where two cells were merged into their
    maximum is a maximum over the list with both cells. *)
Lemma is_max_of_merge m a b l :
  is_max_of m (cell_max a b :: l) -> is_max_of m (a :: b :: l).
Proof.
  pose proof (cell_max_is_max a b) as Hab.
  destruct m as [v|]; simpl.
  - intros [Hin Hub]. split.
    + destruct Hin as [E|Hin]; [|tauto].
      rewrite E in Hab. simpl in Hab. destruct Hab as [[?|[?|[]]] _]; tauto.
    + intros w Hw.
      destruct Hw as [E|[E|Hw]]; [| |apply Hub; tauto].
      * destruct (cell_max a b) as [u|] eqn:Eab; simpl in Hab.
        -- apply Qle_trans with u; [apply Hab; left; exact E|apply Hub; tauto].
        -- specialize (Hab a (or_introl eq_refl)). congruence.
      * destruct (cell_max a b) as [u|] eqn:Eab; simpl in Hab.
        -- apply Qle_trans with u; [apply Hab; right; left; exact E|apply Hub; tauto].
        -- specialize (Hab b (or_intror (or_introl eq_refl))). congruence.
  - intros H x [<-|[<-|Hx]]; [| |apply H; tauto].
    + specialize (H _ (or_introl eq_refl)). rewrite H in Hab. simpl in Hab.
      apply Hab. tauto.
    + specialize (H _ (or_introl eq_refl)). rewrite H in Hab. simpl in Hab.
      apply Hab. tauto.
Qed.

Lemma fold_cell_max_is_max l a : is_max_of (fold_left cell_max l a) (a :: l).
Proof.
  revert a. induction l as [|x l IH]; intros a; simpl fold_left.
  - destruct a as [v|]; simpl.
    + split; [tauto|]. intros w [[= ->]|[]]. apply Qle_refl.
    + intros x [<-|[]]. reflexivity.
  - apply is_max_of_merge. apply IH.
Qed.

Lemma is_max_of_drop_nan m l : is_max_of m (None :: l) -> is_max_of m l.
Proof.
  destruct m as [v|]; simpl.
  - intros [[E|H] Hub]; [discriminate|]. split; [exact H|]. intros; apply Hub; tauto.
  - intros H x Hx. apply H. tauto.
Qed.

Lemma nanmax_is_max l : is_max_of (nanmax l) l.
Proof. apply is_max_of_drop_nan. apply fold_cell_max_is_max. Qed.

(** The maximum is a number as soon as the list holds one. *)
Lemma is_max_of_some m l v :
  is_max_of m l -> In (Some v) l -> exists u, m = Some u /\ (v <= u)%Q.
Proof.
  destruct m as [u|]; simpl.
  - intros [_ Hub] Hin. exists u. split; [reflexivity|apply Hub; exact Hin].
  - intros H Hin. apply H in Hin. discriminate.
Qed.

End MaxFacts.

(* ------------------------------------------------------------------ *)
(** ** Strength: group keys *)

Section KeyFacts.
Import Strength StrengthSpec.

Lemma string_compare_refl s : String_as_OT.compare s s = Eq.
Proof.
  destruct (String_as_OT.compare_spec s s) as [_|H|H]; [reflexivity| |];
    exfalso; exact (StrictOrder_Irreflexive s H).
Qed.

Lemma key_compare_eq a b : key_compare a b = Eq -> a = b.
Proof.
  destruct a as [n d], b as [n' d']. unfold key_compare. cbn [fst snd].
  destruct (String_as_OT.compare_spec n n') as [E|H|H]; try discriminate.
  red in E. intros Hd. apply Z.compare_eq in Hd. congruence.
Qed.

Lemma key_compare_gt a b : key_compare a b = Gt -> key_lt b a.
Proof.
  destruct a as [n d], b as [n' d']. unfold key_lt, key_compare. cbn [fst snd].
  destruct (String_as_OT.compare_spec n n') as [E|H|H]; try discriminate.
  - red in E. subst. rewrite string_compare_refl. intros Hd.
    apply Z.compare_gt_iff in Hd. apply Z.compare_lt_iff. exact Hd.
  - intros _. unfold String_as_OT.lt in H. rewrite H. reflexivity.
Qed.

Lemma key_lt_same_name n d d' : key_lt (n, d) (n, d') <-> d < d'.
Proof.
  unfold key_lt, key_compare. cbn [fst snd]. rewrite string_compare_refl.
  apply Z.compare_lt_iff.
Qed.

Lemma key_lt_trans a b c : key_lt a b -> key_lt b c -> key_lt a c.
Proof.
  destruct a as [n1 d1], b as [n2 d2], c as [n3 d3].
  unfold key_lt, key_compare. cbn [fst snd].
  destruct (String_as_OT.compare_spec n1 n2) as [E12|H12|H12]; try discriminate;
  destruct (String_as_OT.compare_spec n2 n3) as [E23|H23|H23]; try discriminate;
    intros Ha Hb; unfold String_as_OT.eq in *; subst.
  - rewrite string_compare_refl.
    change (d1 < d2) in Ha. change (d2 < d3) in Hb.
    change (d1 < d3). lia.
  - unfold String_as_OT.lt in H23. rewrite H23. reflexivity.
  - unfold String_as_OT.lt in H12. rewrite H12. reflexivity.
  - pose proof (StrictOrder_Transitive _ _ _ H12 H23) as H13.
    unfold String_as_OT.lt in H13. rewrite H13. reflexivity.
Qed.

Lemma key_lt_irrefl a : ~ key_lt a a.
Proof.
  destruct a as [n d]. rewrite key_lt_same_name. lia.
Qed.

Lemma key_eqb_eq a b : key_eqb a b = true <-> a = b.
Proof.
  destruct a as [n d], b as [n' d']. unfold key_eqb. cbn [fst snd].
  rewrite andb_true_iff, String.eqb_eq, Z.eqb_eq. split.
  - intros [-> ->]. reflexivity.
  - intros [= -> ->]. tauto.
Qed.

Lemma in_insert_key k k' ks :
  In k' (insert_key k ks) <-> k' = k \/ In k' ks.
Proof.
  induction ks as [|x ks IH]; simpl.
  - split; [intros [<-|[]]; tauto|intros [->|[]]; tauto].
  - destruct (key_compare k x) eqn:E; simpl.
    + apply key_compare_eq in E. subst. split; [tauto|]. intros [->|H]; tauto.
    + split; [intros [<-|H]; tauto|intros [->|H]; tauto].
    + rewrite IH. tauto.
Qed.

Lemma insert_key_sorted k ks :
  StronglySorted key_lt ks -> StronglySorted key_lt (insert_key k ks).
Proof.
  induction 1 as [|x ks Hs IH Hx]; simpl.
  - repeat constructor.
  - destruct (key_compare k x) eqn:E.
    + constructor; assumption.
    + constructor; [constructor; assumption|].
      constructor; [exact E|].
      eapply Forall_impl; [|exact Hx]. intros y Hy.
      eapply key_lt_trans; [exact E|exact Hy].
    + constructor; [exact IH|].
      apply Forall_forall. intros y Hy. apply in_insert_key in Hy.
      destruct Hy as [->|Hy].
      * apply key_compare_gt. exact E.
      * rewrite Forall_forall in Hx. apply Hx. exact Hy.
Qed.

Lemma in_group_keys data k :
  In k (group_keys data) <-> exists r, In r data /\ key_of r = Some k.
Proof.
  induction data as [|r data IH]; simpl.
  - split; [intros []|intros (r & [] & _)].
  - destruct (key_of r) as [k0|] eqn:E.
    + rewrite in_insert_key, IH. split.
      * intros [->|(r' & Hr' & Hk)]; [exists r; tauto|exists r'; tauto].
      * intros (r' & [<-|Hr'] & Hk); [left; congruence|right; exists r'; tauto].
    + rewrite IH. split.
      * intros (r' & Hr' & Hk). exists r'. tauto.
      * intros (r' & [<-|Hr'] & Hk); [congruence|exists r'; tauto].
Qed.

Lemma group_keys_sorted data : StronglySorted key_lt (group_keys data).
Proof.
  induction data as [|r data IH]; simpl.
  - constructor.
  - destruct (key_of r); [apply insert_key_sorted|]; exact IH.
Qed.

(** In a strictly sorted list, an earlier entry is smaller. *)
Lemma sorted_nth_lt (l : list key) i j a b :
  StronglySorted key_lt l ->
  nth_error l i = Some a -> nth_error l j = Some b ->
  (i < j)%nat -> key_lt a b.
Proof.
  intros Hs. revert i j. induction Hs as [|x l Hs IH Hx]; intros i j Hi Hj Hlt.
  - destruct i; discriminate.
  - destruct j as [|j]; [lia|]. destruct i as [|i]; simpl in *.
    + injection Hi as <-. rewrite Forall_forall in Hx. apply Hx.
      eapply nth_error_In. exact Hj.
    + apply (IH i j); [assumption..|lia].
Qed.

End KeyFacts.

(* ------------------------------------------------------------------ *)
(** ** Strength: the grouped scans *)

Section ScanFacts.
Import Strength StrengthSpec.

Lemma in_firstn_S {A} (l : list A) i x :
  In x (firstn (S i) l) <-> exists j, (j <= i)%nat /\ nth_error l j = Some x.
Proof.
  revert i. induction l as [|y l IH]; intros i.
  - simpl. split; [intros []|intros (j & _ & H); destruct j; discriminate].
  - rewrite firstn_cons. simpl. split.
    + intros [<-|H].
      * exists 0%nat. split; [lia|reflexivity].
      * destruct i as [|i]; [destruct H|].
        apply IH in H. destruct H as (j & Hj & Hn).
        exists (S j). split; [lia|exact Hn].
    + intros (j & Hj & Hn). destruct j as [|j]; simpl in Hn.
      * left. congruence.
      * right. destruct i as [|i]; [lia|]. apply IH.
        exists j. split; [lia|exact Hn].
Qed.

Lemma is_max_of_ext m l1 l2 :
  (forall x, In x l1 <-> In x l2) -> is_max_of m l1 -> is_max_of m l2.
Proof.
  intros H. destruct m as [v|]; simpl.
  - intros [Hin Hub]. split; [apply H; exact Hin|].
    intros w Hw. apply Hub. apply H. exact Hw.
  - intros Hn x Hx. apply Hn. apply H. exact Hx.
Qed.

(** The running maximum at a row: NaN where the row is NaN, and otherwise
    the maximum of the start value and the rows of its name up to it. *)
Lemma group_cummax_nth l : forall running i k x,
  nth_error l i = Some (k, x) ->
  exists c,
    nth_error (group_cummax running l) i = Some c
    /\ (x = None -> c = None)
    /\ (x <> None ->
        is_max_of c (running (fst k) :: same_name_values (fst k) (firstn (S i) l))).
Proof.
  induction l as [|[k0 x0] l IH]; intros running i k x Hn.
  - destruct i; discriminate.
  - destruct i as [|i]; simpl in Hn.
    + injection Hn as -> ->. simpl group_cummax.
      eexists. split; [reflexivity|]. split.
      * intros ->. reflexivity.
      * intros Hx. destruct x as [v|]; [|congruence]. cbn [notna].
        unfold same_name_values. simpl. rewrite String.eqb_refl. simpl.
        apply cell_max_is_max.
    + simpl group_cummax.
      destruct (IH (fun n => if String.eqb n (fst k0)
                             then cell_max (running (fst k0)) x0 else running n)
                   i k x Hn) as (c & Hc & Hnone & Hsome).
      exists c. split; [exact Hc|]. split; [exact Hnone|].
      intros Hx. specialize (Hsome Hx). cbv beta in Hsome.
      rewrite firstn_cons. unfold same_name_values in *. cbn [filter fst].
      rewrite (String.eqb_sym (fst k0) (fst k)).
      destruct (String.eqb (fst k) (fst k0)) eqn:E.
      * apply String.eqb_eq in E. rewrite <- E in Hsome. cbn [map snd].
        apply is_max_of_merge. exact Hsome.
      * exact Hsome.
Qed.

Lemma group_rolling_max_nth window l : forall seen i k x,
  nth_error l i = Some (k, x) ->
  nth_error (group_rolling_max window seen l) i
  = Some (nanmax (map snd (filter (in_rolling_window window k)
                                  (rev seen ++ firstn (S i) l)))).
Proof.
  induction l as [|[k0 x0] l IH]; intros seen i k x Hn.
  - destruct i; discriminate.
  - destruct i as [|i]; simpl in Hn.
    + injection Hn as -> ->. simpl. reflexivity.
    + simpl group_rolling_max. simpl nth_error.
      rewrite (IH ((k0, x0) :: seen) i k x Hn).
      rewrite firstn_cons. simpl rev. rewrite <- app_assoc. reflexivity.
Qed.

Lemma group_cummax_length l : forall running,
  List.length (group_cummax running l) = List.length l.
Proof.
  induction l as [|[k x] l IH]; intros running; simpl; [reflexivity|].
  f_equal. apply IH.
Qed.

Lemma group_rolling_max_length window l : forall seen,
  List.length (group_rolling_max window seen l) = List.length l.
Proof.
  induction l as [|[k x] l IH]; intros seen; simpl; [reflexivity|].
  f_equal. apply IH.
Qed.

Lemma in_zip_with {A B C} (f : A -> B -> C) xs ys z :
  In z (zip_with f xs ys) ->
  exists i a b, nth_error xs i = Some a /\ nth_error ys i = Some b /\ z = f a b.
Proof.
  revert ys. induction xs as [|x xs IH]; intros [|y ys]; simpl; try tauto.
  intros [<-|H].
  - exists 0%nat, x, y. repeat split.
  - apply IH in H. destruct H as (i & a & b & Ha & Hb & ->).
    exists (S i), a, b. repeat split; assumption.
Qed.

Lemma nth_error_combine {A B} (xs : list A) (ys : list B) i a b :
  nth_error xs i = Some a -> nth_error ys i = Some b ->
  nth_error (combine xs ys) i = Some (a, b).
Proof.
  revert ys i. induction xs as [|x xs IH]; intros [|y ys] [|i]; simpl;
    try discriminate.
  - intros [= ->] [= ->]. reflexivity.
  - apply IH.
Qed.

Lemma nth_error_combine_inv {A B} (xs : list A) (ys : list B) i a b :
  nth_error (combine xs ys) i = Some (a, b) ->
  nth_error xs i = Some a /\ nth_error ys i = Some b.
Proof.
  revert ys i. induction xs as [|x xs IH]; intros [|y ys] [|i]; simpl;
    try discriminate.
  - intros [= -> ->]. split; reflexivity.
  - apply IH.
Qed.

End ScanFacts.

(* ------------------------------------------------------------------ *)
(** ** Strength: the table of daily maxima *)

Section DailyMaxFacts.
Import Strength StrengthSpec.

Lemma has_key_iff k r : has_key k r = true <-> key_of r = Some k.
Proof.
  unfold has_key. destruct (key_of r) as [k'|].
  - rewrite key_eqb_eq. split; congruence.
  - split; discriminate.
Qed.

Lemma key_of_iff r e d :
  key_of r = Some (e, d) <-> r_exercise_name r = Some e /\ r_date r = d.
Proof.
  unfold key_of. destruct (r_exercise_name r) as [n|].
  - split; [intros [= -> ->]; tauto|intros [[= ->] ->]; reflexivity].
  - split; [discriminate|intros [? _]; discriminate].
Qed.

Lemma groupby_max_eq data :
  groupby_max data = map (fun k => (k, daily_value data k)) (group_keys data).
Proof. reflexivity. Qed.

Lemma is_max_over_rows_ext m (P Q : Rated -> Prop) :
  (forall s, P s <-> Q s) -> is_max_over_rows m P -> is_max_over_rows m Q.
Proof.
  intros H. destruct m as [v|]; simpl.
  - intros [(s & Hs & Hv) Hub]. split.
    + exists s. split; [apply H; exact Hs|exact Hv].
    + intros s' w Hs' Hw. apply (Hub s' w); [apply H; exact Hs'|exact Hw].
  - intros Hn s Hs. apply Hn. apply H. exact Hs.
Qed.

(** A maximum of daily maxima is a maximum over the rows of the days. *)
Lemma max_of_daily_values data (sel : key -> bool) m :
  is_max_of m (map (daily_value data) (filter sel (group_keys data))) ->
  is_max_over_rows m
    (fun s => In s data /\ exists k, key_of s = Some k /\ sel k = true).
Proof.
  intros Hm.
  assert (Hrow : forall s k, In s data -> key_of s = Some k -> sel k = true ->
            In (daily_value data k)
               (map (daily_value data) (filter sel (group_keys data)))
            /\ In (one_rep_max s) (map one_rep_max (filter (has_key k) data))).
  { intros s k Hs Hk Hsel. split.
    - apply in_map. apply filter_In. split; [|exact Hsel].
      apply in_group_keys. exists s. tauto.
    - apply in_map. apply filter_In. split; [exact Hs|].
      apply has_key_iff. exact Hk. }
  destruct m as [v|]; simpl in *.
  - destruct Hm as [Hin Hub]. split.
    + apply in_map_iff in Hin. destruct Hin as (k & Hk & Hkin).
      apply filter_In in Hkin. destruct Hkin as [_ Hsel].
      pose proof (nanmax_is_max (map one_rep_max (filter (has_key k) data))) as Hd.
      fold (daily_value data k) in Hd. rewrite Hk in Hd. simpl in Hd.
      destruct Hd as [Hd _]. apply in_map_iff in Hd.
      destruct Hd as (s & Hsv & Hs). apply filter_In in Hs.
      destruct Hs as [Hs Hkey]. apply has_key_iff in Hkey.
      exists s. split; [|exact Hsv]. split; [exact Hs|]. exists k. tauto.
    + intros s w [Hs (k & Hk & Hsel)] Hw.
      destruct (Hrow s k Hs Hk Hsel) as [Hdv Hrv]. rewrite Hw in Hrv.
      destruct (is_max_of_some _ _ _ (nanmax_is_max _) Hrv) as (u & Hu & Hle).
      fold (daily_value data k) in Hu. rewrite Hu in Hdv.
      apply Qle_trans with u; [exact Hle|apply Hub; exact Hdv].
  - intros s [Hs (k & Hk & Hsel)].
    destruct (Hrow s k Hs Hk Hsel) as [Hdv Hrv].
    apply Hm in Hdv.
    pose proof (nanmax_is_max (map one_rep_max (filter (has_key k) data))) as Hd.
    fold (daily_value data k) in Hd. rewrite Hdv in Hd. simpl in Hd.
    apply Hd. exact Hrv.
Qed.

(** Keys are sorted by name and date: among the keys of one name, those up
    to a position are those up to its date. *)
Lemma prefix_keys data i e d k :
  nth_error (group_keys data) i = Some (e, d) ->
  fst k = e ->
  (In k (firstn (S i) (group_keys data)) <-> In k (group_keys data) /\ snd k <= d).
Proof.
  intros Hi Hname. pose proof (group_keys_sorted data) as Hs.
  destruct k as [n dk]. cbn [fst snd] in *. subst n.
  rewrite in_firstn_S. split.
  - intros (j & Hj & Hn). split; [eapply nth_error_In; exact Hn|].
    destruct (Nat.eq_dec j i) as [E|Hne].
    + subst j.
      assert (E : Some (e, dk) = Some (e, d))
        by (etransitivity; [symmetry; exact Hn|exact Hi]).
      injection E as ->. lia.
    + assert (Hlt : key_lt (e, dk) (e, d)).
      { apply (sorted_nth_lt _ j i _ _ Hs Hn Hi). lia. }
      apply key_lt_same_name in Hlt. lia.
  - intros [Hin Hle]. apply In_nth_error in Hin. destruct Hin as (j & Hn).
    exists j. split; [|exact Hn].
    destruct (le_lt_dec j i) as [Hji|Hij]; [exact Hji|].
    assert (Hlt : key_lt (e, d) (e, dk)).
    { apply (sorted_nth_lt _ i j _ _ Hs Hi Hn). exact Hij. }
    apply key_lt_same_name in Hlt. lia.
Qed.

Lemma prefix_values data i e d (p : key -> bool) x :
  nth_error (group_keys data) i = Some (e, d) ->
  (forall k, p k = true -> fst k = e) ->
  (In x (map snd (filter (fun en => p (fst en)) (firstn (S i) (groupby_max data))))
   <-> In x (map (daily_value data)
                 (filter (fun k => p k && (snd k <=? d)) (group_keys data)))).
Proof.
  intros Hi Hp. rewrite groupby_max_eq, firstn_map.
  rewrite !in_map_iff. split.
  - intros ([k v] & <- & Hin). apply filter_In in Hin. destruct Hin as [Hin Hpk].
    apply in_map_iff in Hin. destruct Hin as (k' & [= <- <-] & Hk').
    cbn [fst snd] in *. exists k'. split; [reflexivity|].
    apply filter_In. apply (prefix_keys data i e d k' Hi (Hp _ Hpk)) in Hk'.
    split; [tauto|]. rewrite Hpk. apply Z.leb_le. tauto.
  - intros (k & <- & Hin). apply filter_In in Hin. destruct Hin as [Hin Hsel].
    apply andb_true_iff in Hsel. destruct Hsel as [Hpk Hle]. apply Z.leb_le in Hle.
    exists (k, daily_value data k). split; [reflexivity|].
    apply filter_In. split; [|exact Hpk].
    apply in_map_iff. exists k. split; [reflexivity|].
    apply (prefix_keys data i e d k Hi (Hp _ Hpk)). tauto.
Qed.

End DailyMaxFacts.

(* ------------------------------------------------------------------ *)
(** ** Strength: the derived metrics of a row *)

Section DerivedFacts.
Import Strength StrengthSpec.

Lemma daily_max_table_nth data i e d :
  nth_error (group_keys data) i = Some (e, d) ->
  exists c r,
    nth_error (daily_max_table data) i
    = Some (mkDaily e d (daily_value data (e, d)) c r)
    /\ (daily_value data (e, d) = None -> c = None)
    /\ (daily_value data (e, d) <> None -> is_max_over_rows c (up_to data e d))
    /\ is_max_over_rows r (trailing data e 90 d).
Proof.
  intros Hi.
  assert (Hd : nth_error (groupby_max data) i = Some ((e, d), daily_value data (e, d))).
  { rewrite groupby_max_eq, nth_error_map.
    change (nth_error (group_keys data) i = Some (e, d)) in Hi.
    unfold key in *. rewrite Hi. reflexivity. }
  destruct (group_cummax_nth (groupby_max data) (fun _ => None) i _ _ Hd)
    as (c & Hc & Hnone & Hsome).
  pose proof (group_rolling_max_nth 90 (groupby_max data) [] i _ _ Hd) as Hr.
  exists c. eexists. split; [|split; [exact Hnone|split]].
  - unfold daily_max_table.
    rewrite (nth_error_zip_with _ _ _ i _ _ Hd (nth_error_combine _ _ i _ _ Hc Hr)).
    reflexivity.
  - intros Hv. specialize (Hsome Hv). apply is_max_of_drop_nan in Hsome.
    cbn [fst] in Hsome.
    apply (is_max_over_rows_ext _
             (fun s => In s data /\ exists k, key_of s = Some k
                       /\ (String.eqb (fst k) e && (snd k <=? d)) = true)).
    + intros s. unfold up_to. split.
      * intros [Hs ([n dk] & Hk & Hsel)]. cbn [fst snd] in Hsel.
        apply andb_true_iff in Hsel. destruct Hsel as [Hn Hle].
        apply String.eqb_eq in Hn. apply Z.leb_le in Hle. subst n.
        apply key_of_iff in Hk. destruct Hk as [Hk <-]. tauto.
      * intros (Hs & Hn & Hle). split; [exact Hs|].
        exists (e, r_date s). split; [apply key_of_iff; tauto|].
        cbn [fst snd]. rewrite String.eqb_refl. apply Z.leb_le. exact Hle.
    + apply max_of_daily_values.
      eapply is_max_of_ext; [|exact Hsome].
      intros x. unfold same_name_values.
      apply (prefix_values data i e d (fun k => String.eqb (fst k) e) x Hi).
      intros k Hk. apply String.eqb_eq. exact Hk.
  - pose proof (nanmax_is_max
                  (map snd (filter (in_rolling_window 90 (e, d))
                                   (rev [] ++ firstn (S i) (groupby_max data))))) as Hm.
    simpl rev in Hm. rewrite app_nil_l in Hm.
    apply (is_max_over_rows_ext _
             (fun s => In s data /\ exists k, key_of s = Some k
                       /\ ((String.eqb (fst k) e && (d - 90 <? snd k))
                           && (snd k <=? d)) = true)).
    + intros s. unfold trailing. split.
      * intros [Hs ([n dk] & Hk & Hsel)]. cbn [fst snd] in Hsel.
        apply andb_true_iff in Hsel. destruct Hsel as [Hsel Hle].
        apply andb_true_iff in Hsel. destruct Hsel as [Hn Hlo].
        apply String.eqb_eq in Hn. apply Z.leb_le in Hle. apply Z.ltb_lt in Hlo.
        subst n. apply key_of_iff in Hk. destruct Hk as [Hk <-]. tauto.
      * intros (Hs & Hn & Hlo & Hle). split; [exact Hs|].
        exists (e, r_date s). split; [apply key_of_iff; tauto|].
        cbn [fst snd]. rewrite String.eqb_refl.
        apply andb_true_iff. split; [apply Z.ltb_lt; exact Hlo|apply Z.leb_le; exact Hle].
    + apply max_of_daily_values.
      eapply is_max_of_ext; [|exact Hm].
      intros x.
      apply (prefix_values data i e d
               (fun k => String.eqb (fst k) e && (d - 90 <? snd k)) x Hi).
      intros k Hk. apply andb_true_iff in Hk. apply String.eqb_eq. tauto.
Qed.

Lemma in_daily_max_table data dm :
  In dm (daily_max_table data) ->
  exists i,
    nth_error (group_keys data) i = Some (d_exercise_name dm, d_date dm)
    /\ nth_error (daily_max_table data) i = Some dm.
Proof.
  intros Hin. unfold daily_max_table in *.
  apply in_zip_with in Hin. destruct Hin as (i & [k v] & [c r] & Ha & Hb & ->).
  exists i. cbn [d_exercise_name d_date fst snd]. split.
  - rewrite groupby_max_eq, nth_error_map in Ha.
    destruct (nth_error (group_keys data) i) as [k'|] eqn:E; [|discriminate].
    injection Ha as -> _. destruct k; reflexivity.
  - exact (nth_error_zip_with _ _ _ i _ _ Ha Hb).
Qed.

Lemma in_merge_daily_max data table dv :
  In dv (merge_daily_max data table) ->
  In (rated dv) data
  /\ ((exists dm, In dm table
                  /\ key_of (rated dv) = Some (d_exercise_name dm, d_date dm)
                  /\ dv_cummax dv = d_cummax dm /\ dv_rolling dv = d_rolling dm)
      \/ ((forall dm, In dm table ->
                      key_of (rated dv) <> Some (d_exercise_name dm, d_date dm))
          /\ dv_cummax dv = None /\ dv_rolling dv = None)).
Proof.
  unfold merge_daily_max. intros Hin. apply in_flat_map in Hin.
  destruct Hin as (r & Hr & Hdv).
  destruct (filter _ table) as [|m ms] eqn:F.
  - destruct Hdv as [<-|[]]. cbn. split; [exact Hr|]. right.
    split; [|tauto]. intros dm Hdm Hk. apply has_key_iff in Hk.
    assert (Hf : In dm (filter (fun d => has_key (d_exercise_name d, d_date d) r) table))
      by (apply filter_In; tauto).
    rewrite F in Hf. destruct Hf.
  - apply in_map_iff in Hdv. destruct Hdv as (dm & <- & Hdm). cbn.
    split; [exact Hr|]. left. exists dm.
    rewrite <- F in Hdm. apply filter_In in Hdm. destruct Hdm as [Hdm Hk].
    apply has_key_iff in Hk. tauto.
Qed.

Lemma merge_daily_max_complete data table s :
  In s data -> exists dv, In dv (merge_daily_max data table) /\ rated dv = s.
Proof.
  intros Hs. unfold merge_daily_max.
  destruct (filter (fun d => has_key (d_exercise_name d, d_date d) s) table)
    as [|m ms] eqn:F.
  - exists (mkDerived s None None). split; [|reflexivity].
    apply in_flat_map. exists s. split; [exact Hs|]. rewrite F. left. reflexivity.
  - exists (mkDerived s (d_cummax m) (d_rolling m)). split; [|reflexivity].
    apply in_flat_map. exists s. split; [exact Hs|]. rewrite F. left. reflexivity.
Qed.

(** What [calculate_derivative_metrics] attaches to a named row. *)
Lemma derived_metrics data dv e :
  In dv (calculate_derivative_metrics data) ->
  r_exercise_name (rated dv) = Some e ->
  In (rated dv) data
  /\ (forall v, one_rep_max (rated dv) = Some v ->
                is_max_over_rows (dv_cummax dv) (up_to data e (r_date (rated dv))))
  /\ is_max_over_rows (dv_rolling dv) (trailing data e 90 (r_date (rated dv))).
Proof.
  unfold calculate_derivative_metrics. intros Hin Hname.
  apply in_sort_values in Hin. apply in_merge_daily_max in Hin.
  set (sorted := sort_values by_name_date data) in *.
  destruct Hin as [Hr Hmatch].
  assert (Hkey : key_of (rated dv) = Some (e, r_date (rated dv)))
    by (apply key_of_iff; tauto).
  assert (Hup : forall d s, up_to sorted e d s <-> up_to data e d s).
  { intros d s. unfold up_to, sorted. rewrite in_sort_values. tauto. }
  assert (Htr : forall d s, trailing sorted e 90 d s <-> trailing data e 90 d s).
  { intros d s. unfold trailing, sorted. rewrite in_sort_values. tauto. }
  destruct Hmatch as [(dm & Hdm & Hk & Hc & Hro)|(Hnone & _)].
  - rewrite Hkey in Hk. injection Hk as He Hd.
    apply in_daily_max_table in Hdm. destruct Hdm as (i & Hi & Hnth).
    rewrite <- He, <- Hd in Hi.
    destruct (daily_max_table_nth sorted i e _ Hi) as (c & r & Hnth' & _ & Hsome & Hroll).
    rewrite Hnth in Hnth'. injection Hnth' as ->. cbn in Hc, Hro.
    rewrite Hc, Hro. split; [apply in_sort_values in Hr; exact Hr|]. split.
    + intros v Hv. eapply is_max_over_rows_ext; [apply Hup|]. apply Hsome.
      intro Hnone.
      pose proof (nanmax_is_max
                    (map one_rep_max (filter (has_key (e, r_date (rated dv))) sorted)))
        as Hm.
      fold (daily_value sorted (e, r_date (rated dv))) in Hm.
      rewrite Hnone in Hm. simpl in Hm.
      assert (Hx : one_rep_max (rated dv) = None).
      { apply Hm. apply in_map. apply filter_In. split; [exact Hr|].
        apply has_key_iff. exact Hkey. }
      congruence.
    + eapply is_max_over_rows_ext; [apply Htr|]. exact Hroll.
  - exfalso.
    assert (Hk : In (e, r_date (rated dv)) (group_keys sorted)).
    { apply in_group_keys. exists (rated dv). tauto. }
    apply In_nth_error in Hk. destruct Hk as (i & Hi).
    destruct (daily_max_table_nth sorted i e _ Hi) as (c & r & Hnth & _).
    apply nth_error_In in Hnth. apply (Hnone _ Hnth). exact Hkey.
Qed.

End DerivedFacts.

(* ------------------------------------------------------------------ *)
(** ** Strength: the rows of the final table *)

Section EngineFacts.
Import Strength StrengthSpec.

Lemma in_wrangle exercise_data weight_data r :
  In r (wrangle_weightlifting_data exercise_data weight_data) <->
  exists dv,
    In dv (calculate_derivative_metrics (scored_sets exercise_data weight_data))
    /\ r_exercise_name (rated dv) <> None
    /\ cell_gt0 (one_rep_max (rated dv)) = true
    /\ r = project dv.
Proof.
  unfold wrangle_weightlifting_data, filter_exercise_data, scored_sets.
  rewrite in_map_iff. split.
  - intros (dv & <- & Hin). apply filter_In in Hin. destruct Hin as [Hin Hpos].
    apply filter_In in Hin. destruct Hin as [Hin Hname].
    apply in_sort_values in Hin. exists dv. repeat split; try assumption.
    destruct (r_exercise_name (rated dv)); [discriminate|discriminate].
  - intros (dv & Hin & Hname & Hpos & ->). exists dv. split; [reflexivity|].
    apply filter_In. split; [|exact Hpos]. apply filter_In. split.
    + apply in_sort_values. exact Hin.
    + destruct (r_exercise_name (rated dv)); [reflexivity|congruence].
Qed.

Lemma in_merge_body_mass exercise_data weight_data s bm :
  In (s, bm) (merge_body_mass exercise_data weight_data) -> In s exercise_data.
Proof.
  unfold merge_body_mass. intros H. apply in_flat_map in H.
  destruct H as (s' & Hs' & Hin).
  destruct (filter _ weight_data) as [|m ms].
  - destruct Hin as [[= <- <-]|[]]. exact Hs'.
  - apply in_map_iff in Hin. destruct Hin as (w & [= <- <-] & _). exact Hs'.
Qed.

Lemma in_scored_sets exercise_data weight_data s :
  In s (scored_sets exercise_data weight_data) <->
  exists row, In row (merge_body_mass exercise_data weight_data) /\ s = spec_rated row.
Proof.
  unfold scored_sets. rewrite calculate_1RM_spec, in_map_iff.
  split; intros (row & H1 & H2); exists row; split; auto.
Qed.

Lemma cell_gt0_iff x : cell_gt0 x = true <-> exists v, x = Some v /\ (0 < v)%Q.
Proof.
  destruct x as [v|]; simpl.
  - rewrite negb_true_iff. split.
    + intros H. exists v. split; [reflexivity|].
      apply Qnot_le_lt. intro Hle. apply Qle_bool_iff in Hle. congruence.
    + intros (u & [= <-] & Hlt). destruct (Qle_bool v 0) eqn:E; [|reflexivity].
      apply Qle_bool_iff in E. exfalso. apply (Qlt_not_le _ _ Hlt E).
  - split; [discriminate|intros (v & H & _); discriminate].
Qed.

Lemma is_max_over_rows_some m (P : Rated -> Prop) s v :
  is_max_over_rows m P -> P s -> one_rep_max s = Some v ->
  exists u, m = Some u /\ (v <= u)%Q.
Proof.
  destruct m as [u|]; simpl.
  - intros [_ Hub] Hs Hv. exists u. split; [reflexivity|]. apply (Hub s v Hs Hv).
  - intros Hn Hs Hv. apply Hn in Hs. congruence.
Qed.

(** A row of the final table, traced back through the pipeline. *)
Lemma final_row exercise_data weight_data r :
  In r (wrangle_weightlifting_data exercise_data weight_data) ->
  exists s e v,
    In s (scored_sets exercise_data weight_data)
    /\ r_exercise_name s = Some e /\ s_exercise_name r = Some e
    /\ r_date s = s_date r /\ r_reps s = s_reps r
    /\ one_rep_max s = Some v /\ s_one_rep_max r = Some v /\ (0 < v)%Q
    /\ is_max_over_rows (cummax_one_rep_max r)
         (up_to (scored_sets exercise_data weight_data) e (s_date r))
    /\ is_max_over_rows (rolling_90d_max r)
         (trailing (scored_sets exercise_data weight_data) e 90 (s_date r)).
Proof.
  intros Hin. apply in_wrangle in Hin.
  destruct Hin as (dv & Hdv & Hname & Hpos & ->).
  destruct (r_exercise_name (rated dv)) as [e|] eqn:He; [|congruence].
  apply cell_gt0_iff in Hpos. destruct Hpos as (v & Hv & Hlt).
  destruct (derived_metrics _ dv e Hdv He) as (Hs & Hc & Hr).
  exists (rated dv), e, v. unfold project. cbn.
  repeat split; try assumption; try reflexivity.
  apply (Hc v Hv).
Qed.

End EngineFacts.

Section EngineClaims.
Import Strength StrengthSpec.

(** C5.  In the final table, two rows of one exercise with dates
    [d1 <= d2] carry running maxima [c1 <= c2]: [cummax_one_rep_max] is a
    number on every row and does not decrease along the dates of an
    exercise. *)
Theorem cummax_monotone
    (exercise_data : list ExerciseSet) (weight_data : list (Z * cell))
    (r1 r2 : ExerciseSetScored) :
  In r1 (wrangle_weightlifting_data exercise_data weight_data) ->
  In r2 (wrangle_weightlifting_data exercise_data weight_data) ->
  s_exercise_name r1 = s_exercise_name r2 ->
  s_date r1 <= s_date r2 ->
  exists c1 c2,
    cummax_one_rep_max r1 = Some c1
    /\ cummax_one_rep_max r2 = Some c2
    /\ (c1 <= c2)%Q.
Proof.
  intros H1 H2 Hname Hdate.
  destruct (final_row _ _ _ H1)
    as (s1 & e1 & v1 & Hs1 & Hn1 & Hr1 & Hd1 & _ & Hv1 & _ & _ & Hc1 & _).
  destruct (final_row _ _ _ H2)
    as (s2 & e2 & v2 & Hs2 & Hn2 & Hr2 & Hd2 & _ & Hv2 & _ & _ & Hc2 & _).
  assert (e2 = e1) by congruence. subst e2.
  assert (Hin1 : up_to (scored_sets exercise_data weight_data) e1 (s_date r1) s1).
  { unfold up_to. repeat split; [assumption|assumption|lia]. }
  assert (Hin2 : up_to (scored_sets exercise_data weight_data) e1 (s_date r2) s2).
  { unfold up_to. repeat split; [assumption|assumption|lia]. }
  destruct (is_max_over_rows_some _ _ _ _ Hc1 Hin1 Hv1) as (c1 & E1 & _).
  destruct (is_max_over_rows_some _ _ _ _ Hc2 Hin2 Hv2) as (c2 & E2 & _).
  exists c1, c2. split; [exact E1|]. split; [exact E2|].
  rewrite E1 in Hc1. rewrite E2 in Hc2. simpl in Hc1, Hc2.
  destruct Hc1 as [(s & (Hs & Hn & Hle) & Hv) _].
  destruct Hc2 as [_ Hub]. apply (Hub s c1); [|exact Hv].
  unfold up_to. repeat split; [assumption|assumption|lia].
Qed.

(** The bench-press rows of 2023-01-10 and 2023-06-01 of the sample log. *)
Lemma cummax_monotone_witness :
  exists c1 c2,
    cummax_one_rep_max
      (nth 0 (wrangle_weightlifting_data sample_sets sample_weights)
           (mkScored 0 None None None None None)) = Some c1
    /\ cummax_one_rep_max
         (nth 4 (wrangle_weightlifting_data sample_sets sample_weights)
              (mkScored 0 None None None None None)) = Some c2
    /\ (c1 <= c2)%Q.
Proof.
  apply (cummax_monotone sample_sets sample_weights).
  - vm_compute. tauto.
  - vm_compute. tauto.
  - vm_compute. reflexivity.
  - vm_compute. discriminate.
Defined.

(** C6.  On every row of the final table, of exercise [e] and date [d],
    [rolling_90d_max] is the largest [one_rep_max] among the sets of [e]
    dated from [d - 89] to [d]: it is the value of one of them, which is
    itself a row of the table, and no set of [e] in those 90 calendar days
    has a larger one. *)
Theorem rolling_90d_max_is_window_max
    (exercise_data : list ExerciseSet) (weight_data : list (Z * cell))
    (r : ExerciseSetScored) :
  In r (wrangle_weightlifting_data exercise_data weight_data) ->
  exists e m,
    s_exercise_name r = Some e
    /\ rolling_90d_max r = Some m
    /\ (exists s, In s (scored_sets exercise_data weight_data)
                  /\ in_window e (s_date r) 90 s /\ one_rep_max s = Some m)
    /\ (forall s v, In s (scored_sets exercise_data weight_data) ->
                    in_window e (s_date r) 90 s ->
                    one_rep_max s = Some v -> (v <= m)%Q)
    /\ (exists r', In r' (wrangle_weightlifting_data exercise_data weight_data)
                   /\ s_exercise_name r' = Some e
                   /\ s_date r - 89 <= s_date r' <= s_date r
                   /\ s_one_rep_max r' = Some m).
Proof.
  intros Hin.
  destruct (final_row _ _ _ Hin)
    as (s0 & e & v & Hs0 & Hn0 & Hr0 & Hd0 & _ & Hv0 & _ & Hpos & _ & Hroll).
  assert (Hin0 : trailing (scored_sets exercise_data weight_data) e 90 (s_date r) s0).
  { unfold trailing. repeat split; [assumption|assumption|lia|lia]. }
  destruct (is_max_over_rows_some _ _ _ _ Hroll Hin0 Hv0) as (m & Em & Hvm).
  exists e, m. split; [exact Hr0|]. split; [exact Em|].
  rewrite Em in Hroll. simpl in Hroll.
  destruct Hroll as [(s & (Hs & Hn & Hlo & Hhi) & Hv) Hub].
  split; [|split].
  - exists s. unfold in_window. repeat split; [assumption|assumption|lia|lia|assumption].
  - intros s' v' Hs' [Hn' [Hlo' Hhi']] Hv'. apply (Hub s' v'); [|exact Hv'].
    unfold trailing. repeat split; [assumption|assumption|lia|lia].
  - destruct (merge_daily_max_complete
                (sort_values by_name_date (scored_sets exercise_data weight_data))
                (daily_max_table
                   (sort_values by_name_date (scored_sets exercise_data weight_data)))
                s) as (dv & Hdv & Hrated).
    { apply in_sort_values. exact Hs. }
    exists (project dv). split.
    + apply in_wrangle. exists dv. split.
      * unfold calculate_derivative_metrics. apply in_sort_values. exact Hdv.
      * rewrite Hrated. split; [congruence|]. split; [|reflexivity].
        apply cell_gt0_iff. exists m. split; [exact Hv|].
        apply Qlt_le_trans with v; assumption.
    + unfold project. cbn. rewrite Hrated. repeat split; [assumption|lia|lia|assumption].
Qed.

(** The bench-press row of 2023-06-01 of the sample log. *)
Lemma rolling_90d_max_is_window_max_witness :
  let out := wrangle_weightlifting_data sample_sets sample_weights in
  let r := nth 4 out (mkScored 0 None None None None None) in
  exists e m,
    s_exercise_name r = Some e
    /\ rolling_90d_max r = Some m
    /\ (exists s, In s (scored_sets sample_sets sample_weights)
                  /\ in_window e (s_date r) 90 s /\ one_rep_max s = Some m)
    /\ (forall s v, In s (scored_sets sample_sets sample_weights) ->
                    in_window e (s_date r) 90 s ->
                    one_rep_max s = Some v -> (v <= m)%Q)
    /\ (exists r', In r' out
                   /\ s_exercise_name r' = Some e
                   /\ s_date r - 89 <= s_date r' <= s_date r
                   /\ s_one_rep_max r' = Some m).
Proof.
  apply (rolling_90d_max_is_window_max sample_sets sample_weights).
  vm_compute. tauto.
Defined.

(** C3 (as amended).  Every row of the final table has a [one_rep_max]
    above 0 and a name, and stems from a set of the log, whose date, reps
    and name (when it has one, the empty string included) it carries; and
    every set with a name and a [one_rep_max] above 0 is in the table. *)
Theorem filtered_rows
    (exercise_data : list ExerciseSet) (weight_data : list (Z * cell)) :
  (forall r,
      In r (wrangle_weightlifting_data exercise_data weight_data) ->
      (exists v, s_one_rep_max r = Some v /\ (0 < v)%Q)
      /\ s_exercise_name r <> None
      /\ exists s, In s exercise_data
                   /\ s_date r = date s /\ s_reps r = reps s
                   /\ forall n, exercise_name s = Some n ->
                                s_exercise_name r = Some n)
  /\ (forall s bm n,
        In (s, bm) (merge_body_mass exercise_data weight_data) ->
        exercise_name s = Some n ->
        cell_gt0 (spec_one_rep_max n (weight s) (reps s) bm) = true ->
        exists r, In r (wrangle_weightlifting_data exercise_data weight_data)
                  /\ s_date r = date s /\ s_exercise_name r = Some n
                  /\ s_reps r = reps s
                  /\ s_one_rep_max r = spec_one_rep_max n (weight s) (reps s) bm).
Proof.
  split.
  - intros r Hin.
    destruct (final_row _ _ _ Hin)
      as (s0 & e & v & Hs0 & Hn0 & Hr0 & Hd0 & Hreps & _ & Hv & Hpos & _).
    split; [exists v; tauto|]. split; [congruence|].
    apply in_scored_sets in Hs0. destruct Hs0 as ([s bm] & Hrow & ->).
    exists s. split; [eapply in_merge_body_mass; exact Hrow|].
    unfold spec_rated in *. cbn in *. repeat split; try congruence.
    intros n Hn. rewrite Hn in Hn0. cbn in Hn0. congruence.
  - intros s bm n Hrow Hn Hpos.
    assert (Hs : In (spec_rated (s, bm)) (scored_sets exercise_data weight_data)).
    { apply in_scored_sets. exists (s, bm). tauto. }
    destruct (merge_daily_max_complete
                (sort_values by_name_date (scored_sets exercise_data weight_data))
                (daily_max_table
                   (sort_values by_name_date (scored_sets exercise_data weight_data)))
                (spec_rated (s, bm))) as (dv & Hdv & Hrated).
    { apply in_sort_values. exact Hs. }
    exists (project dv). split.
    + apply in_wrangle. exists dv. split.
      * unfold calculate_derivative_metrics. apply in_sort_values. exact Hdv.
      * rewrite Hrated. unfold spec_rated. cbn. rewrite Hn. cbn.
        split; [discriminate|]. split; [exact Hpos|reflexivity].
    + unfold project. rewrite Hrated. unfold spec_rated. cbn. rewrite Hn. cbn.
      repeat split.
Qed.

(** The bench-press set of 2023-01-10 of the sample log is in the table. *)
Lemma filtered_rows_witness :
  exists r, In r (wrangle_weightlifting_data sample_sets sample_weights)
            /\ s_date r = date_of_ymd 2023 1 10
            /\ s_exercise_name r = Some "Bench Press (Barbell)"%string
            /\ s_reps r = Some 5%Q
            /\ s_one_rep_max r
               = spec_one_rep_max "Bench Press (Barbell)" (Some 100%Q) (Some 5%Q)
                                  (Some 180%Q).
Proof.
  apply (proj2 (filtered_rows sample_sets sample_weights)
               (mkSet (date_of_ymd 2023 1 10) (Some "Bench Press (Barbell)"%string) 1
                      (Some 100%Q) (Some 5%Q))
               (Some 180%Q) "Bench Press (Barbell)"%string).
  - vm_compute. tauto.
  - reflexivity.
  - vm_compute. reflexivity.
Defined.

(** C3 (as stated) fails: a set without a name and a set named by the empty
    string, each of weight 100 and 5 reps, both reach the final table, the
    first under the name "Unknown", which no set of the log has. *)
Lemma unnamed_sets_are_kept :
  map s_exercise_name (wrangle_weightlifting_data unnamed_sets [])
  = [Some "Unknown"%string; Some ""%string]
  /\ ~ In (Some "Unknown"%string) (map exercise_name unnamed_sets)
  /\ ~ (forall exercise_data weight_data r,
          In r (wrangle_weightlifting_data exercise_data weight_data) ->
          exists n, s_exercise_name r = Some n
                    /\ n <> ""%string
                    /\ In (Some n) (map exercise_name exercise_data)
                    /\ cell_gt0 (s_one_rep_max r) = true).
Proof.
  assert (Hno : ~ In (Some "Unknown"%string) (map exercise_name unnamed_sets)).
  { simpl. intros [H|[H|[]]]; discriminate. }
  split; [vm_compute; reflexivity|]. split; [exact Hno|].
  intros H.
  destruct (H unnamed_sets []
              (nth 0 (wrangle_weightlifting_data unnamed_sets [])
                   (mkScored 0 None None None None None)))
    as (n & Hn & _ & Hin & _).
  - vm_compute. tauto.
  - vm_compute in Hn. injection Hn as <-. exact (Hno Hin).
Qed.

End EngineClaims.

(* ------------------------------------------------------------------ *)
(** ** Reconciler *)

Section ReconcilerFacts.
Import Reconciler.

Lemma series_min_none dates : series_min dates = None <-> dates = [].
Proof. destruct dates; simpl; split; congruence. Qed.

Lemma series_max_none dates : series_max dates = None <-> dates = [].
Proof. destruct dates; simpl; split; congruence. Qed.

Lemma map_fst_nil {A B} (l : list (A * B)) : map fst l = [] <-> l = [].
Proof. destruct l; simpl; split; congruence. Qed.

(** The outcomes of [join_dates], case by case. *)
Lemma join_dates_cases {Row} (metric : option (Row -> option string))
    (data : Frame Row) multiple_metrics metric_type today :
  (rows data = []
   /\ join_dates metric data multiple_metrics metric_type today
      = (Raise "ValueError", data))
  \/ (rows data <> []
      /\ ((multiple_metrics = true
           /\ join_dates metric data multiple_metrics metric_type today
              = (Raise "UnboundLocalError", data))
          \/ (multiple_metrics = true
              /\ join_dates metric data multiple_metrics metric_type today
                 = (Raise "KeyError", to_datetime data))
          \/ (exists out,
                 join_dates metric data multiple_metrics metric_type today
                 = (Ok out, to_datetime data)))).
Proof.
  unfold join_dates. destruct data as [dtype [|o os]]; cbn [rows map series_min].
  - left. split; reflexivity.
  - right. split; [discriminate|]. cbn [date_range].
    destruct multiple_metrics.
    + destruct (metrics_of metric_type) as [ms|]; [|left; split; reflexivity].
      right. destruct metric as [column|].
      * right. eexists. reflexivity.
      * left. split; reflexivity.
    + right. right. eexists. reflexivity.
Qed.

End ReconcilerFacts.

Section ReconcilerClaims.
Import Reconciler.

(** C2 (as amended).  On a frame without rows the reconciler returns no
    result: building the date range fails with [ValueError], in
    [join_dates] and in [fill_missing_dates] alike, and with no other
    input does either fail so; with one metric per date, [join_dates]
    returns a result for every frame that has a row.  No call raises an
    [EmptyInputError]. *)
Theorem empty_input_is_a_value_error :
  (forall (Row : Type) (metric : option (Row -> option string)) (data : Frame Row)
          (multiple_metrics : bool) (metric_type : string) (today : Z),
      (fst (join_dates metric data multiple_metrics metric_type today)
       = Raise "ValueError" <-> rows data = [])
      /\ fst (join_dates metric data multiple_metrics metric_type today)
         <> Raise "EmptyInputError"
      /\ (multiple_metrics = false -> rows data <> [] ->
          exists out,
            fst (join_dates metric data multiple_metrics metric_type today) = Ok out))
  /\ (forall (data : list (Z * cell)) (fill_column : string)
             (new_column : option string),
        (fill_missing_dates data fill_column new_column = Raise "ValueError"
         <-> data = [])
        /\ fill_missing_dates data fill_column new_column <> Raise "EmptyInputError").
Proof.
  split.
  - intros Row metric data mm mt today.
    destruct (join_dates_cases metric data mm mt today)
      as [[He ->]|[Hne [[Hmm ->]|[[Hmm ->]|(out & ->)]]]]; cbn [fst].
    + repeat split; try tauto; try discriminate.
    + repeat split; try discriminate; try tauto. intros ->. discriminate.
    + repeat split; try discriminate; try tauto. intros ->. discriminate.
    + repeat split; try discriminate; try tauto. intros _ _. exists out. reflexivity.
  - intros data fc nc. unfold fill_missing_dates.
    destruct data as [|o os]; cbn [map series_min series_max date_range bind].
    + split; [tauto|discriminate].
    + split; [split; discriminate|discriminate].
Qed.

(** C2 (as stated) fails: what an empty frame raises is a [ValueError]. *)
Lemma empty_input_error_counterexample :
  fst (join_dates None (mkFrame DateObject ([] : list (Z * cell))) false "energy"
                  (date_of_ymd 2024 1 1))
  = Raise "ValueError"
  /\ ~ (forall (Row : Type) (metric : option (Row -> option string))
               (data : Frame Row) (multiple_metrics : bool)
               (metric_type : string) (today : Z),
           fst (join_dates metric data multiple_metrics metric_type today)
           = Raise "EmptyInputError" <-> rows data = []).
Proof.
  split; [reflexivity|]. intros H.
  pose proof (proj2 (H cell None (mkFrame DateObject []) false "energy"%string
                       (date_of_ymd 2024 1 1)) eq_refl) as E.
  discriminate E.
Qed.

(** C9 (as amended).  [join_dates] leaves the rows of the caller's frame as
    they were, and rewrites its [date] column in place as Timestamps in
    every call that gets as far as the join; a frame whose dates were
    Timestamps already is left unchanged. *)
Theorem join_dates_frame_effect
    (Row : Type) (metric : option (Row -> option string)) (data : Frame Row)
    (multiple_metrics : bool) (metric_type : string) (today : Z) :
  let after := snd (join_dates metric data multiple_metrics metric_type today) in
  rows after = rows data
  /\ (after = data \/ after = to_datetime data)
  /\ (forall out,
         fst (join_dates metric data multiple_metrics metric_type today) = Ok out ->
         after = to_datetime data)
  /\ (rows data = [] -> after = data)
  /\ (date_dtype data = Datetime64 -> after = data).
Proof.
  cbv zeta.
  assert (Hdt : date_dtype data = Datetime64 -> to_datetime data = data).
  { destruct data as [dtype rs]. cbn. intros ->. reflexivity. }
  destruct (join_dates_cases metric data multiple_metrics metric_type today)
    as [[He ->]|[Hne [[Hmm ->]|[[Hmm ->]|(out & ->)]]]]; cbn [fst snd].
  - repeat split; try tauto. discriminate.
  - repeat split; try tauto. discriminate.
  - repeat split; try tauto; try discriminate.
  - repeat split; try tauto.
Qed.

(** C9 (as stated) fails: after a call on a frame of [datetime.date]
    objects, the caller's [date] column holds Timestamps. *)
Lemma join_dates_mutates_input :
  let data := mkFrame DateObject [(date_of_ymd 2024 1 1, Some 80%Q)] in
  snd (join_dates None data false "energy" (date_of_ymd 2024 1 3))
  = mkFrame Datetime64 [(date_of_ymd 2024 1 1, Some 80%Q)]
  /\ snd (join_dates None data false "energy" (date_of_ymd 2024 1 3)) <> data.
Proof.
  cbv zeta. split; [reflexivity|]. cbn. discriminate.
Qed.

End ReconcilerClaims.

(* ------------------------------------------------------------------ *)
(** ** Volume *)

Section VolumeFacts.
Import Strength Reconciler Volume VolumeSpec.

Lemma in_insert_date d d' ds : In d' (insert_date d ds) <-> d' = d \/ In d' ds.
Proof.
  induction ds as [|x ds IH]; simpl.
  - split; [intros [<-|[]]; tauto|intros [->|[]]; tauto].
  - destruct (Z.compare_spec d x) as [E|E|E]; simpl.
    + subst. split; [tauto|]. intros [->|H]; tauto.
    + split; [intros [<-|H]; tauto|intros [->|H]; tauto].
    + rewrite IH. tauto.
Qed.

Lemma insert_date_sorted d ds :
  StronglySorted Z.lt ds -> StronglySorted Z.lt (insert_date d ds).
Proof.
  induction 1 as [|x ds Hs IH Hx]; simpl.
  - repeat constructor.
  - destruct (Z.compare_spec d x) as [E|E|E].
    + constructor; assumption.
    + constructor; [constructor; assumption|].
      constructor; [exact E|].
      eapply Forall_impl; [|exact Hx]. intros y Hy. lia.
    + constructor; [exact IH|].
      apply Forall_forall. intros y Hy. apply in_insert_date in Hy.
      destruct Hy as [->|Hy]; [exact E|].
      rewrite Forall_forall in Hx. apply Hx. exact Hy.
Qed.

Lemma in_group_dates data d :
  In d (group_dates data) <-> exists r, In r data /\ s_date r = d.
Proof.
  induction data as [|r data IH]; simpl.
  - split; [intros []|intros (r & [] & _)].
  - rewrite in_insert_date, IH. split.
    + intros [->|(r' & Hr' & Hd)]; [exists r; tauto|exists r'; tauto].
    + intros (r' & [<-|Hr'] & Hd); [left; congruence|right; exists r'; tauto].
Qed.

Lemma group_dates_sorted data : StronglySorted Z.lt (group_dates data).
Proof.
  induction data as [|r data IH]; simpl; [constructor|].
  apply insert_date_sorted. exact IH.
Qed.

(** A left join against a frame of distinct, sorted dates finds at most
    one row. *)
Lemma filter_sorted_dates (g : Z -> option Q) d ds :
  StronglySorted Z.lt ds ->
  filter (fun o : Z * option Q => d =? fst o) (map (fun d' => (d', g d')) ds)
  = if existsb (Z.eqb d) ds then [(d, g d)] else [].
Proof.
  induction 1 as [|x ds Hs IH Hx]; simpl; [reflexivity|].
  destruct (Z.eqb_spec d x) as [->|Hne]; simpl.
  - assert (Hno : existsb (Z.eqb x) ds = false).
    { destruct (existsb (Z.eqb x) ds) eqn:E; [|reflexivity].
      apply existsb_exists in E. destruct E as (y & Hy & Exy).
      apply Z.eqb_eq in Exy. subst y.
      rewrite Forall_forall in Hx. specialize (Hx _ Hy). lia. }
    rewrite IH, Hno. reflexivity.
  - exact IH.
Qed.

Lemma fold_min_spec ds d :
  let lo := fold_left Z.min ds d in
  In lo (d :: ds) /\ forall x, In x (d :: ds) -> lo <= x.
Proof.
  revert d. induction ds as [|y ds IH]; intros d; cbn zeta; simpl fold_left.
  - split; [left; reflexivity|]. intros x [<-|[]]. lia.
  - destruct (IH (Z.min d y)) as [Hin Hle]. split.
    + destruct Hin as [E|Hin]; [|right; right; exact Hin].
      rewrite <- E. destruct (Z.min_spec d y) as [[_ ->]|[_ ->]]; simpl; tauto.
    + intros x [<-|[<-|Hx]].
      * specialize (Hle _ (or_introl eq_refl)). lia.
      * specialize (Hle _ (or_introl eq_refl)). lia.
      * apply Hle. right. exact Hx.
Qed.

Lemma fold_max_spec ds d :
  let hi := fold_left Z.max ds d in
  In hi (d :: ds) /\ forall x, In x (d :: ds) -> x <= hi.
Proof.
  revert d. induction ds as [|y ds IH]; intros d; cbn zeta; simpl fold_left.
  - split; [left; reflexivity|]. intros x [<-|[]]. lia.
  - destruct (IH (Z.max d y)) as [Hin Hle]. split.
    + destruct Hin as [E|Hin]; [|right; right; exact Hin].
      rewrite <- E. destruct (Z.max_spec d y) as [[_ ->]|[_ ->]]; simpl; tauto.
    + intros x [<-|[<-|Hx]].
      * specialize (Hle _ (or_introl eq_refl)). lia.
      * specialize (Hle _ (or_introl eq_refl)). lia.
      * apply Hle. right. exact Hx.
Qed.

Lemma flat_map_singleton {A B} (f : A -> B) (g : A -> list B) l :
  (forall a, In a l -> g a = [f a]) -> flat_map g l = map f l.
Proof.
  induction l as [|a l IH]; intros H; simpl; [reflexivity|].
  rewrite (H a (or_introl eq_refl)). simpl. f_equal.
  apply IH. intros b Hb. apply H. right. exact Hb.
Qed.

Lemma process_volume_data_eq data :
  data <> [] ->
  exists lo hi,
    In lo (map s_date data) /\ In hi (map s_date data)
    /\ (forall r, In r data -> lo <= s_date r <= hi)
    /\ process_volume_data data
       = Ok ("one_rep_max"%string,
             map (fun d => (d, day_volume data d)) (days_from lo hi)).
Proof.
  intros Hne.
  assert (Hdates : forall d, In d (group_dates data) <-> In d (map s_date data)).
  { intros d. rewrite in_group_dates, in_map_iff. split;
      intros (r & H1 & H2); exists r; tauto. }
  unfold process_volume_data, fill_missing_dates, wrangle_volume_data.
  rewrite map_map. cbn [fst]. rewrite map_id.
  destruct (group_dates data) as [|d0 ds] eqn:G.
  { exfalso. destruct data as [|r data]; [congruence|].
    apply (proj2 (Hdates (s_date r))). left. reflexivity. }
  cbn [series_min series_max date_range bind].
  destruct (fold_min_spec ds d0) as [Hlo Hlo_le].
  destruct (fold_max_spec ds d0) as [Hhi Hhi_le].
  cbn zeta in *.
  set (lo := fold_left Z.min ds d0) in *. set (hi := fold_left Z.max ds d0) in *.
  exists lo, hi. split; [apply Hdates; exact Hlo|]. split; [apply Hdates; exact Hhi|].
  split.
  { intros r Hr.
    assert (Hd : In (s_date r) (d0 :: ds)).
    { apply Hdates. apply in_map. exact Hr. }
    split; [apply Hlo_le|apply Hhi_le]; exact Hd. }
  f_equal. f_equal. unfold day_volume.
  rewrite (flat_map_singleton
             (fun d => (d, if existsb (Z.eqb d) (d0 :: ds)
                           then Some (nansum (map s_one_rep_max (filter (on_day d) data)))
                           else None))).
  - rewrite map_map. apply map_ext. intros d. cbn [fst snd].
    destruct (existsb (Z.eqb d) (d0 :: ds)) eqn:E; cbn [fillna]; [reflexivity|].
    replace (filter (on_day d) data) with (@nil ExerciseSetScored); [reflexivity|].
    symmetry. destruct (filter (on_day d) data) as [|r rs] eqn:F; [reflexivity|].
    exfalso.
    assert (Hr : In r (filter (on_day d) data)) by (rewrite F; left; reflexivity).
    apply filter_In in Hr. destruct Hr as [Hr Hd]. apply Z.eqb_eq in Hd.
    assert (Hin : In d (d0 :: ds)).
    { apply Hdates. rewrite <- Hd. apply in_map. exact Hr. }
    assert (existsb (Z.eqb d) (d0 :: ds) = true).
    { apply existsb_exists. exists d. split; [exact Hin|apply Z.eqb_refl]. }
    congruence.
  - intros d _.
    match goal with
    | |- context [filter ?f ?l] =>
        assert (E : filter f l
                    = if existsb (Z.eqb d) (d0 :: ds)
                      then [(d, Some (nansum (map s_one_rep_max
                                                 (filter (on_day d) data))))]
                      else [])
    end.
    { apply (filter_sorted_dates
               (fun d' => Some (nansum (map s_one_rep_max (filter (on_day d') data))))
               d (d0 :: ds)).
      rewrite <- G. apply group_dates_sorted. }
    rewrite E. destruct (existsb (Z.eqb d) (d0 :: ds)); reflexivity.
Qed.

End VolumeFacts.

Section VolumeClaims.
Import Strength StrengthSpec Reconciler Volume VolumeSpec.

Lemma in_days_from lo hi d : In d (days_from lo hi) <-> lo <= d <= hi.
Proof.
  unfold days_from. rewrite in_map_iff. split.
  - intros (i & <- & Hi). apply in_seq in Hi. lia.
  - intros H. exists (Z.to_nat (d - lo)). split; [lia|]. apply in_seq. lia.
Qed.

Lemma days_from_nodup lo hi : NoDup (days_from lo hi).
Proof.
  unfold days_from. apply Injective_map_NoDup; [|apply seq_NoDup].
  intros i j H. lia.
Qed.

(** C7.  For a table of scored sets with at least one row, the volume
    series has exactly one row for each calendar date from the earliest to
    the latest date of the table, in order and without gaps, so
    [hi - lo + 1] rows; a date with sets carries the sum of their
    [one_rep_max], and a date without sets carries 0. *)
Theorem volume_series_is_complete (weightlifting_data : list ExerciseSetScored) :
  weightlifting_data <> [] ->
  exists lo hi out,
    In lo (map s_date weightlifting_data)
    /\ In hi (map s_date weightlifting_data)
    /\ (forall r, In r weightlifting_data -> lo <= s_date r <= hi)
    /\ process_volume_data weightlifting_data = Ok ("one_rep_max"%string, out)
    /\ map fst out = days_from lo hi
    /\ NoDup (map fst out)
    /\ (forall d, In d (map fst out) <-> lo <= d <= hi)
    /\ List.length out = Z.to_nat (hi - lo + 1)
    /\ (forall d v,
           In (d, v) out ->
           v = nansum (map s_one_rep_max (filter (on_day d) weightlifting_data))
           /\ ((forall r, In r weightlifting_data -> s_date r <> d) -> v = 0%Q)).
Proof.
  intros Hne.
  destruct (process_volume_data_eq weightlifting_data Hne)
    as (lo & hi & Hlo & Hhi & Hbounds & Heq).
  exists lo, hi. eexists. split; [exact Hlo|]. split; [exact Hhi|].
  split; [exact Hbounds|]. split; [exact Heq|].
  assert (Hfst : map fst (map (fun d => (d, day_volume weightlifting_data d))
                              (days_from lo hi)) = days_from lo hi).
  { rewrite map_map. cbn [fst]. apply map_id. }
  split; [exact Hfst|]. split; [rewrite Hfst; apply days_from_nodup|].
  split; [intros d; rewrite Hfst; apply in_days_from|].
  split.
  - rewrite length_map. unfold days_from. rewrite length_map, length_seq. reflexivity.
  - intros d v Hin. apply in_map_iff in Hin. destruct Hin as (d' & [= -> <-] & _).
    split; [reflexivity|]. intros Hnone. unfold day_volume.
    replace (filter (on_day d) weightlifting_data) with (@nil ExerciseSetScored);
      [reflexivity|].
    symmetry. destruct (filter (on_day d) weightlifting_data) as [|r rs] eqn:F;
      [reflexivity|].
    exfalso.
    assert (Hr : In r (filter (on_day d) weightlifting_data))
      by (rewrite F; left; reflexivity).
    apply filter_In in Hr. destruct Hr as [Hr Hd]. apply Z.eqb_eq in Hd.
    apply (Hnone r Hr Hd).
Qed.

(** The volume series of the sample log runs from 2023-01-10 to
    2023-06-01. *)
Lemma volume_series_is_complete_witness :
  let data := wrangle_weightlifting_data sample_sets sample_weights in
  exists lo hi out,
    In lo (map s_date data)
    /\ In hi (map s_date data)
    /\ (forall r, In r data -> lo <= s_date r <= hi)
    /\ process_volume_data data = Ok ("one_rep_max"%string, out)
    /\ map fst out = days_from lo hi
    /\ NoDup (map fst out)
    /\ (forall d, In d (map fst out) <-> lo <= d <= hi)
    /\ List.length out = Z.to_nat (hi - lo + 1)
    /\ (forall d v,
           In (d, v) out ->
           v = nansum (map s_one_rep_max (filter (on_day d) data))
           /\ ((forall r, In r data -> s_date r <> d) -> v = 0%Q)).
Proof.
  apply (volume_series_is_complete
           (wrangle_weightlifting_data sample_sets sample_weights)).
  vm_compute. discriminate.
Defined.

End VolumeClaims.


(* ================================================================== *)
(** * Further properties of the code *)

(* ------------------------------------------------------------------ *)
(** ** Strength: body mass, and how the derived columns relate *)

Section EngineInvariants.
Import Strength StrengthSpec.

Lemma merge_body_mass_measured exercise_data weight_data s b :
  In (s, Some b) (merge_body_mass exercise_data weight_data) ->
  In (date s, Some b) weight_data.
Proof.
  unfold merge_body_mass. intros H. apply in_flat_map in H.
  destruct H as (s' & _ & Hin).
  destruct (filter (fun w => fst w =? date s') weight_data) as [|m ms] eqn:F.
  - destruct Hin as [[=]|[]].
  - apply in_map_iff in Hin. destruct Hin as ([d x] & [= <- <-] & Hw).
    rewrite <- F in Hw. apply filter_In in Hw. destruct Hw as [Hw Hd].
    cbn [fst snd] in *. apply Z.eqb_eq in Hd. subst d. exact Hw.
Qed.

Lemma epley_some x reps v : epley x reps = Some v -> exists b, x = Some b.
Proof.
  unfold epley, lift2. destruct x as [b|]; [exists b; reflexivity|discriminate].
Qed.

(** A set of an unweighted exercise is in the final table only if its date
    has a body-mass measurement: its [one_rep_max] is that body mass times
    [1 + reps/30], and without a measurement it is NaN and the set is
    dropped. *)
Theorem unweighted_set_needs_body_mass
    (exercise_data : list ExerciseSet) (weight_data : list (Z * cell))
    (r : ExerciseSetScored) (n : string) :
  In r (wrangle_weightlifting_data exercise_data weight_data) ->
  s_exercise_name r = Some n ->
  name_in n unweighted_exercises = true ->
  exists b,
    In (s_date r, Some b) weight_data
    /\ s_one_rep_max r = epley (Some b) (s_reps r).
Proof.
  intros Hin Hn Hun.
  destruct (final_row _ _ _ Hin)
    as (s & e & v & Hs & Hse & Hre & Hd & Hreps & Hv & Hrv & _).
  assert (e = n) by congruence. subst e.
  apply in_scored_sets in Hs. destruct Hs as ([s0 bm] & Hrow & ->).
  unfold spec_rated in Hse, Hd, Hreps, Hv.
  cbn [r_exercise_name r_date r_reps one_rep_max fst snd] in Hse, Hd, Hreps, Hv.
  injection Hse as Hname. rewrite Hname in Hv.
  unfold spec_one_rep_max in Hv. rewrite Hun in Hv.
  destruct (epley_some _ _ _ Hv) as (b & ->).
  exists b. split.
  - rewrite <- Hd. eapply merge_body_mass_measured. exact Hrow.
  - rewrite Hrv, <- Hv, Hreps. reflexivity.
Qed.

(** The chin-up set of the sample log, weighed 180 on its day. *)
Lemma unweighted_set_needs_body_mass_witness :
  let r := nth 1 (wrangle_weightlifting_data sample_sets sample_weights)
               (mkScored 0 None None None None None) in
  exists b,
    In (s_date r, Some b) sample_weights
    /\ s_one_rep_max r = epley (Some b) (s_reps r).
Proof.
  apply (unweighted_set_needs_body_mass sample_sets sample_weights _ "Chin Up").
  - vm_compute. tauto.
  - vm_compute. reflexivity.
  - vm_compute. reflexivity.
Defined.

(** On every row of the final table the three maxima are ordered:
    [0 < one_rep_max <= rolling_90d_max <= cummax_one_rep_max]. *)
Theorem derived_maxima_are_ordered
    (exercise_data : list ExerciseSet) (weight_data : list (Z * cell))
    (r : ExerciseSetScored) :
  In r (wrangle_weightlifting_data exercise_data weight_data) ->
  exists v m c,
    s_one_rep_max r = Some v
    /\ rolling_90d_max r = Some m
    /\ cummax_one_rep_max r = Some c
    /\ (0 < v)%Q /\ (v <= m)%Q /\ (m <= c)%Q.
Proof.
  intros Hin.
  destruct (final_row _ _ _ Hin)
    as (s & e & v & Hs & Hse & Hre & Hd & _ & Hv & Hrv & Hpos & Hc & Hroll).
  assert (Htr : trailing (scored_sets exercise_data weight_data) e 90 (s_date r) s).
  { unfold trailing. repeat split; [assumption|assumption|lia|lia]. }
  assert (Hup : up_to (scored_sets exercise_data weight_data) e (s_date r) s).
  { unfold up_to. repeat split; [assumption|assumption|lia]. }
  destruct (is_max_over_rows_some _ _ _ _ Hroll Htr Hv) as (m & Em & Hvm).
  destruct (is_max_over_rows_some _ _ _ _ Hc Hup Hv) as (c & Ec & _).
  exists v, m, c. repeat split; try assumption.
  rewrite Em in Hroll. rewrite Ec in Hc. simpl in Hroll, Hc.
  destruct Hroll as [(s' & (Hs' & Hn' & Hlo & Hhi) & Hv') _].
  destruct Hc as [_ Hub]. apply (Hub s' m); [|exact Hv'].
  unfold up_to. repeat split; assumption.
Qed.

(** The bench-press row of 2023-06-01 of the sample log. *)
Lemma derived_maxima_are_ordered_witness :
  exists v m c,
    s_one_rep_max (nth 4 (wrangle_weightlifting_data sample_sets sample_weights)
                       (mkScored 0 None None None None None)) = Some v
    /\ rolling_90d_max (nth 4 (wrangle_weightlifting_data sample_sets sample_weights)
                            (mkScored 0 None None None None None)) = Some m
    /\ cummax_one_rep_max (nth 4 (wrangle_weightlifting_data sample_sets sample_weights)
                               (mkScored 0 None None None None None)) = Some c
    /\ (0 < v)%Q /\ (v <= m)%Q /\ (m <= c)%Q.
Proof.
  apply (derived_maxima_are_ordered sample_sets sample_weights).
  vm_compute. tauto.
Defined.

(** Two rows of the final table of one exercise and one date carry the same
    running maximum and the same 90-day maximum. *)
Theorem same_day_rows_share_maxima
    (exercise_data : list ExerciseSet) (weight_data : list (Z * cell))
    (r1 r2 : ExerciseSetScored) :
  In r1 (wrangle_weightlifting_data exercise_data weight_data) ->
  In r2 (wrangle_weightlifting_data exercise_data weight_data) ->
  s_exercise_name r1 = s_exercise_name r2 ->
  s_date r1 = s_date r2 ->
  exists c1 c2 m1 m2,
    cummax_one_rep_max r1 = Some c1 /\ cummax_one_rep_max r2 = Some c2
    /\ rolling_90d_max r1 = Some m1 /\ rolling_90d_max r2 = Some m2
    /\ (c1 == c2)%Q /\ (m1 == m2)%Q.
Proof.
  intros H1 H2 Hname Hdate.
  destruct (final_row _ _ _ H1)
    as (s1 & e1 & v1 & Hs1 & Hn1 & Hr1 & Hd1 & _ & Hv1 & _ & _ & Hcum1 & Hroll1).
  destruct (final_row _ _ _ H2)
    as (s2 & e2 & v2 & Hs2 & Hn2 & Hr2 & Hd2 & _ & Hv2 & _ & _ & Hcum2 & Hroll2).
  assert (e2 = e1) by congruence. subst e2.
  rewrite <- Hdate in Hroll2, Hcum2.
  assert (Htr1 : trailing (scored_sets exercise_data weight_data) e1 90 (s_date r1) s1).
  { unfold trailing. repeat split; [assumption|assumption|lia|lia]. }
  assert (Hup1 : up_to (scored_sets exercise_data weight_data) e1 (s_date r1) s1).
  { unfold up_to. repeat split; [assumption|assumption|lia]. }
  destruct (is_max_over_rows_some _ _ _ _ Hcum1 Hup1 Hv1) as (c1 & Ec1 & _).
  destruct (is_max_over_rows_some _ _ _ _ Hcum2 Hup1 Hv1) as (c2 & Ec2 & _).
  destruct (is_max_over_rows_some _ _ _ _ Hroll1 Htr1 Hv1) as (m1 & Em1 & _).
  destruct (is_max_over_rows_some _ _ _ _ Hroll2 Htr1 Hv1) as (m2 & Em2 & _).
  exists c1, c2, m1, m2. repeat split; try assumption.
  - rewrite Ec1 in Hcum1. rewrite Ec2 in Hcum2. simpl in Hcum1, Hcum2.
    destruct Hcum1 as [(sa & Hsa & Hva) Hub1].
    destruct Hcum2 as [(sb & Hsb & Hvb) Hub2].
    apply Qle_antisym; [apply (Hub2 sa c1 Hsa Hva)|apply (Hub1 sb c2 Hsb Hvb)].
  - rewrite Em1 in Hroll1. rewrite Em2 in Hroll2. simpl in Hroll1, Hroll2.
    destruct Hroll1 as [(sa & Hsa & Hva) Hub1].
    destruct Hroll2 as [(sb & Hsb & Hvb) Hub2].
    apply Qle_antisym; [apply (Hub2 sa m1 Hsa Hva)|apply (Hub1 sb m2 Hsb Hvb)].
Qed.

(** The bench-press and chin-up logs of a day on which bench press was done
    twice. *)
Lemma same_day_rows_share_maxima_witness :
  let out := wrangle_weightlifting_data
               (mkSet (date_of_ymd 2023 1 10) (Some "Bench Press (Barbell)"%string) 2
                      (Some 110%Q) (Some 3%Q) :: sample_sets) sample_weights in
  exists c1 c2 m1 m2,
    cummax_one_rep_max (nth 0 out (mkScored 0 None None None None None)) = Some c1
    /\ cummax_one_rep_max (nth 1 out (mkScored 0 None None None None None)) = Some c2
    /\ rolling_90d_max (nth 0 out (mkScored 0 None None None None None)) = Some m1
    /\ rolling_90d_max (nth 1 out (mkScored 0 None None None None None)) = Some m2
    /\ (c1 == c2)%Q /\ (m1 == m2)%Q.
Proof.
  apply (same_day_rows_share_maxima
           (mkSet (date_of_ymd 2023 1 10) (Some "Bench Press (Barbell)"%string) 2
                  (Some 110%Q) (Some 3%Q) :: sample_sets) sample_weights).
  - vm_compute. tauto.
  - vm_compute. tauto.
  - vm_compute. reflexivity.
  - vm_compute. reflexivity.
Defined.

End EngineInvariants.

(* ------------------------------------------------------------------ *)
(** ** Strength: joins that keep the rows *)

Section JoinFacts.
Import Strength StrengthSpec StrengthLookup.

(** A filter by key on a list whose keys are distinct finds what [find]
    finds, and nothing more. *)
Lemma filter_distinct_keys {A K} (f : A -> K) (test : K -> bool) (l : list A) :
  (forall a b, In a l -> In b l -> test (f a) = true -> test (f b) = true -> f a = f b) ->
  NoDup (map f l) ->
  filter (fun a => test (f a)) l
  = match find (fun a => test (f a)) l with Some a => [a] | None => [] end.
Proof.
  induction l as [|x l IH]; intros Hsame Hnd; simpl; [reflexivity|].
  inversion Hnd as [|? ? Hx Hnd']; subst.
  destruct (test (f x)) eqn:E.
  - f_equal.
    destruct (filter (fun a => test (f a)) l) as [|y ys] eqn:F; [reflexivity|].
    exfalso.
    assert (Hy : In y (filter (fun a => test (f a)) l)) by (rewrite F; left; reflexivity).
    apply filter_In in Hy. destruct Hy as [Hy Ty].
    apply Hx. rewrite (Hsame x y); [apply in_map; exact Hy|left; reflexivity|right; exact Hy|exact E|exact Ty].
  - apply IH; [|exact Hnd'].
    intros a b Ha Hb. apply Hsame; right; assumption.
Qed.

(** With one body-mass row per date, as [wrangle_weight_data] produces, the
    join keeps every set exactly once, in the order of the log, beside the
    body mass of its date. *)
Theorem merge_body_mass_keeps_sets
    (exercise_data : list ExerciseSet) (weight_data : list (Z * cell)) :
  NoDup (map fst weight_data) ->
  merge_body_mass exercise_data weight_data
  = map (fun s => (s, body_mass_on weight_data (date s))) exercise_data.
Proof.
  intros Hnd. unfold merge_body_mass.
  apply flat_map_singleton. intros s _.
  rewrite (filter_distinct_keys fst (fun d => d =? date s) weight_data).
  - unfold body_mass_on.
    destruct (find (fun w => fst w =? date s) weight_data) as [w|]; reflexivity.
  - intros a b _ _ Ha Hb. apply Z.eqb_eq in Ha, Hb. congruence.
  - exact Hnd.
Qed.

Lemma merge_body_mass_keeps_sets_witness :
  merge_body_mass sample_sets sample_weights
  = map (fun s => (s, body_mass_on sample_weights (date s))) sample_sets.
Proof.
  apply (merge_body_mass_keeps_sets sample_sets sample_weights).
  vm_compute. repeat constructor; simpl; intuition discriminate.
Defined.

Lemma zip_with_map_fst {A B C D} (f : A -> B -> C) (g : C -> D) (h : A -> D) xs ys :
  (forall a b, g (f a b) = h a) ->
  List.length xs = List.length ys ->
  map g (zip_with f xs ys) = map h xs.
Proof.
  intros Hg. revert ys. induction xs as [|x xs IH]; intros [|y ys]; simpl;
    try discriminate; [reflexivity|].
  intros [= Hlen]. rewrite Hg. f_equal. apply IH. exact Hlen.
Qed.

(** The keys of [daily_max] are the sorted, distinct group keys. *)
Lemma daily_max_table_keys data :
  map daily_key (daily_max_table data) = group_keys data.
Proof.
  unfold daily_max_table.
  rewrite (zip_with_map_fst _ daily_key fst).
  - rewrite groupby_max_eq, map_map. cbn [fst]. apply map_id.
  - intros [k v] [c r]. destruct k. reflexivity.
  - rewrite length_combine, group_cummax_length, group_rolling_max_length.
    apply eq_sym, Nat.min_id.
Qed.

Lemma sorted_keys_nodup (ks : list key) : StronglySorted key_lt ks -> NoDup ks.
Proof.
  induction 1 as [|k ks Hs IH Hk]; constructor; [|exact IH].
  intros Hin. rewrite Forall_forall in Hk. apply (key_lt_irrefl k). apply Hk. exact Hin.
Qed.

Lemma merge_daily_max_rows data table :
  NoDup (map daily_key table) ->
  map rated (merge_daily_max data table) = data.
Proof.
  intros Hnd. unfold merge_daily_max.
  induction data as [|r rest IH]; [reflexivity|].
  cbn [flat_map]. rewrite map_app, IH.
  assert (E : filter (fun d => has_key (d_exercise_name d, d_date d) r) table
              = match find (fun d => has_key (daily_key d) r) table with
                | Some a => [a] | None => [] end).
  { apply (filter_distinct_keys daily_key (fun k => has_key k r)).
    - intros a b _ _ Ha Hb. apply has_key_iff in Ha, Hb. congruence.
    - exact Hnd. }
  rewrite E. destruct (find _ table) as [dm|]; reflexivity.
Qed.

(** [calculate_derivative_metrics] neither loses nor repeats a row: its
    result is the rows it was given, reordered, each with its two derived
    columns. *)
Theorem derivative_metrics_keep_rows (data : list Rated) :
  Permutation (map rated (calculate_derivative_metrics data)) data.
Proof.
  unfold calculate_derivative_metrics.
  rewrite (Permutation_map rated (sort_values_perm by_date_name _)).
  rewrite merge_daily_max_rows; [apply sort_values_perm|].
  rewrite daily_max_table_keys. apply sorted_keys_nodup, group_keys_sorted.
Qed.

End JoinFacts.

(* ------------------------------------------------------------------ *)
(** ** Strength: the order of the final table *)

Section OrderFacts.
Import Strength StrengthSpec.

Lemma insert_sorted_by_date x l :
  StronglySorted (fun a b => r_date (rated a) <= r_date (rated b)) l ->
  StronglySorted (fun a b => r_date (rated a) <= r_date (rated b))
                 (insert_sorted by_date x l).
Proof.
  induction 1 as [|y l Hs IH Hy]; simpl.
  - repeat constructor.
  - unfold by_date at 1. destruct (Z.leb_spec (r_date (rated x)) (r_date (rated y))).
    + constructor; [constructor; assumption|].
      constructor; [assumption|].
      eapply Forall_impl; [|exact Hy]. intros z Hz. cbv beta in *. lia.
    + constructor; [exact IH|].
      apply Forall_forall. intros z Hz.
      apply (Permutation_in _ (insert_sorted_perm by_date x l)) in Hz.
      destruct Hz as [<-|Hz]; [lia|].
      rewrite Forall_forall in Hy. apply Hy. exact Hz.
Qed.

Lemma sort_by_date_sorted l :
  StronglySorted (fun a b => r_date (rated a) <= r_date (rated b))
                 (sort_values by_date l).
Proof.
  induction l as [|x l IH]; simpl; [constructor|].
  apply insert_sorted_by_date. exact IH.
Qed.

Lemma strongly_sorted_filter {A} (R : A -> A -> Prop) (f : A -> bool) l :
  StronglySorted R l -> StronglySorted R (filter f l).
Proof.
  induction 1 as [|x l Hs IH Hx]; simpl; [constructor|].
  destruct (f x); [|exact IH].
  constructor; [exact IH|].
  apply Forall_forall. intros y Hy. apply filter_In in Hy.
  rewrite Forall_forall in Hx. apply Hx. tauto.
Qed.

Lemma strongly_sorted_map {A B} (R : B -> B -> Prop) (g : A -> B) l :
  StronglySorted (fun a b => R (g a) (g b)) l -> StronglySorted R (map g l).
Proof.
  induction 1 as [|x l Hs IH Hx]; simpl; constructor; [exact IH|].
  apply Forall_forall. intros y Hy. apply in_map_iff in Hy.
  destruct Hy as (a & <- & Ha). rewrite Forall_forall in Hx. apply Hx. exact Ha.
Qed.

(** The final table is in date order: no row is dated before a row above
    it. *)
Theorem final_table_is_in_date_order
    (exercise_data : list ExerciseSet) (weight_data : list (Z * cell)) :
  StronglySorted Z.le
    (map s_date (wrangle_weightlifting_data exercise_data weight_data)).
Proof.
  unfold wrangle_weightlifting_data, filter_exercise_data.
  rewrite map_map. cbn [s_date].
  apply (strongly_sorted_map Z.le (fun r => r_date (rated r))).
  apply strongly_sorted_filter, strongly_sorted_filter.
  apply sort_by_date_sorted.
Qed.

End OrderFacts.

(* ------------------------------------------------------------------ *)
(** ** Reconciler: what the joined frame holds *)

Section JoinDatesRows.
Import Reconciler.

Lemma in_merge_left {Row} (date_seq : list (Z * option string))
    (matches : Z * option string -> Z * Row -> bool) (data : Frame Row)
    (j : Joined Row) :
  In j (merge_left Row date_seq matches data) <->
  exists key,
    In key date_seq /\ j_date j = fst key /\ j_metric j = snd key
    /\ ((exists o, In o (rows data) /\ matches key o = true /\ j_row j = Some (snd o))
        \/ (j_row j = None /\ forall o, In o (rows data) -> matches key o = false)).
Proof.
  unfold merge_left. rewrite in_flat_map. split.
  - intros (key & Hkey & Hj). exists key. split; [exact Hkey|].
    destruct (filter (matches key) (rows data)) as [|m ms] eqn:F.
    + destruct Hj as [<-|[]]. cbn. repeat split. right. split; [reflexivity|].
      intros o Ho. destruct (matches key o) eqn:E; [|reflexivity].
      assert (Hf : In o (filter (matches key) (rows data))) by (apply filter_In; tauto).
      rewrite F in Hf. destruct Hf.
    + apply in_map_iff in Hj. destruct Hj as (o & <- & Ho). cbn. repeat split.
      left. exists o. rewrite <- F in Ho. apply filter_In in Ho. tauto.
  - intros (key & Hkey & Hd & Hm & Hrow). exists key. split; [exact Hkey|].
    destruct j as [jd jm jr]. cbn in Hd, Hm, Hrow. subst jd jm.
    destruct Hrow as [(o & Ho & Hmatch & ->)|[-> Hnone]].
    + assert (Hf : In o (filter (matches key) (rows data))) by (apply filter_In; tauto).
      destruct (filter (matches key) (rows data)) as [|m ms]; [destruct Hf|].
      apply in_map_iff. exists o. split; [reflexivity|exact Hf].
    + destruct (filter (matches key) (rows data)) as [|m ms] eqn:F.
      * left. reflexivity.
      * exfalso. assert (Hf : In m (filter (matches key) (rows data)))
          by (rewrite F; left; reflexivity).
        apply filter_In in Hf. destruct Hf as [Hf Hm]. rewrite (Hnone m Hf) in Hm.
        discriminate.
Qed.

Lemma series_min_spec dates lo :
  series_min dates = Some lo -> In lo dates /\ forall d, In d dates -> lo <= d.
Proof.
  destruct dates as [|d ds]; [discriminate|]. intros [= <-].
  apply (fold_min_spec ds d).
Qed.

(** With one metric per date, [join_dates] on a frame that has a row returns
    a frame that runs from the earliest observed date to [today]: every day
    of that span is there, with each observation of the day, or once with
    NaN when the day has none; nothing else is there, so observations dated
    after [today] are left out. *)
Theorem join_dates_covers_every_day
    (Row : Type) (metric : option (Row -> option string)) (data : Frame Row)
    (metric_type : string) (today : Z) :
  rows data <> [] ->
  exists lo out,
    In lo (map fst (rows data))
    /\ (forall o, In o (rows data) -> lo <= fst o)
    /\ fst (join_dates metric data false metric_type today) = Ok out
    /\ (forall j, In j out -> lo <= j_date j <= today /\ j_metric j = None)
    /\ (forall d x, lo <= d <= today -> In (d, x) (rows data) ->
                    In (mkJoined Row d None (Some x)) out)
    /\ (forall d, lo <= d <= today -> (forall x, ~ In (d, x) (rows data)) ->
                  In (mkJoined Row d None None) out)
    /\ (forall j x, In j out -> j_row j = Some x -> In (j_date j, x) (rows data))
    /\ (forall j, In j out -> j_row j = None ->
                  forall x, ~ In (j_date j, x) (rows data)).
Proof.
  intros Hne. unfold join_dates.
  destruct (series_min (map fst (rows data))) as [lo|] eqn:Hmin.
  2:{ apply series_min_none, map_fst_nil in Hmin. contradiction. }
  destruct (series_min_spec _ _ Hmin) as [Hlo Hle].
  cbn [date_range fst]. exists lo. eexists. split; [exact Hlo|].
  split; [intros o Ho; apply Hle, in_map, Ho|]. split; [reflexivity|].
  assert (Hseq : forall key, In key (map (fun d => (d, @None string)) (days_from lo today))
                             <-> lo <= fst key <= today /\ snd key = None).
  { intros [d m]. rewrite in_map_iff. cbn [fst snd]. split.
    - intros (d' & [= <- <-] & Hd). apply in_days_from in Hd. tauto.
    - intros [Hd ->]. exists d. split; [reflexivity|apply in_days_from; exact Hd]. }
  repeat split.
  - apply in_merge_left in H. destruct H as (key & Hkey & -> & _).
    apply Hseq in Hkey. lia.
  - apply in_merge_left in H. destruct H as (key & Hkey & -> & _).
    apply Hseq in Hkey. lia.
  - apply in_merge_left in H. destruct H as (key & Hkey & _ & -> & _).
    apply Hseq in Hkey. tauto.
  - intros d x Hd Hin. apply in_merge_left. exists (d, None).
    split; [apply Hseq; cbn; tauto|]. cbn. repeat split. left.
    exists (d, x). cbn. split; [exact Hin|]. split; [apply Z.eqb_refl|reflexivity].
  - intros d Hd Hnone. apply in_merge_left. exists (d, None).
    split; [apply Hseq; cbn; tauto|]. cbn. repeat split. right.
    split; [reflexivity|]. intros [d' x] Ho. unfold on_date. cbn.
    apply Z.eqb_neq. intros ->. apply (Hnone x). exact Ho.
  - intros j x Hj Hx. apply in_merge_left in Hj.
    destruct Hj as (key & _ & Hd & _ & [(o & Ho & Hm & Hrow)|[Hrow _]]).
    + unfold on_date in Hm. apply Z.eqb_eq in Hm. rewrite Hd, Hm.
      rewrite Hx in Hrow. injection Hrow as ->. destruct o; exact Ho.
    + congruence.
  - intros j Hj Hx x Hin. apply in_merge_left in Hj.
    destruct Hj as (key & _ & Hd & _ & [(o & Ho & Hm & Hrow)|[_ Hnone]]).
    + congruence.
    + specialize (Hnone _ Hin). unfold on_date in Hnone. cbn in Hnone.
      rewrite Hd in Hnone. rewrite Z.eqb_refl in Hnone. discriminate.
Qed.

(** Two weighings, one of them dated after the day of the call. *)
Lemma join_dates_covers_every_day_witness :
  let data := mkFrame DateObject
                [(date_of_ymd 2024 1 1, Some 80%Q); (date_of_ymd 2024 1 9, Some 81%Q)] in
  exists lo out,
    In lo (map fst (rows data))
    /\ (forall o, In o (rows data) -> lo <= fst o)
    /\ fst (join_dates None data false "energy" (date_of_ymd 2024 1 3)) = Ok out
    /\ (forall j, In j out -> lo <= j_date j <= date_of_ymd 2024 1 3 /\ j_metric j = None)
    /\ (forall d x, lo <= d <= date_of_ymd 2024 1 3 -> In (d, x) (rows data) ->
                    In (mkJoined cell d None (Some x)) out)
    /\ (forall d, lo <= d <= date_of_ymd 2024 1 3 -> (forall x, ~ In (d, x) (rows data)) ->
                  In (mkJoined cell d None None) out)
    /\ (forall j x, In j out -> j_row j = Some x -> In (j_date j, x) (rows data))
    /\ (forall j, In j out -> j_row j = None ->
                  forall x, ~ In (j_date j, x) (rows data)).
Proof.
  apply (join_dates_covers_every_day cell None
           (mkFrame DateObject
              [(date_of_ymd 2024 1 1, Some 80%Q); (date_of_ymd 2024 1 9, Some 81%Q)])
           "energy" (date_of_ymd 2024 1 3)).
  discriminate.
Defined.

(** With several metrics per date, [join_dates] on a frame that has a row
    fails with [UnboundLocalError] when [metric_type] is none of "energy",
    "nutrition" and "volume", and with [KeyError] when the frame has no
    [metric] column; otherwise its result has a row for every day from the
    earliest observed date to [today] and every metric of the list, and a
    row that carries an observation carries one of that day and metric. *)
Theorem join_dates_metric_product
    (Row : Type) (metric : option (Row -> option string)) (data : Frame Row)
    (metric_type : string) (today : Z) :
  rows data <> [] ->
  match metrics_of metric_type, metric with
  | None, _ =>
      fst (join_dates metric data true metric_type today) = Raise "UnboundLocalError"
  | Some _, None =>
      fst (join_dates metric data true metric_type today) = Raise "KeyError"
  | Some metrics, Some column =>
      exists lo out,
        series_min (map fst (rows data)) = Some lo
        /\ fst (join_dates metric data true metric_type today) = Ok out
        /\ (forall d m, lo <= d <= today -> In m metrics ->
                        exists j, In j out /\ j_date j = d /\ j_metric j = Some m)
        /\ (forall j, In j out ->
                      lo <= j_date j <= today
                      /\ exists m, j_metric j = Some m /\ In m metrics
                         /\ forall x, j_row j = Some x ->
                                      In (j_date j, x) (rows data) /\ column x = Some m)
  end.
Proof.
  intros Hne. unfold join_dates.
  destruct (series_min (map fst (rows data))) as [lo|] eqn:Hmin.
  2:{ apply series_min_none, map_fst_nil in Hmin. contradiction. }
  cbn [date_range].
  destruct (metrics_of metric_type) as [metrics|]; [|reflexivity].
  destruct metric as [column|]; [|reflexivity].
  cbn [fst]. exists lo. eexists. split; [reflexivity|]. split; [reflexivity|].
  assert (Hseq : forall key,
             In key (flat_map (fun d => map (fun m => (d, Some m)) metrics)
                              (days_from lo today))
             <-> lo <= fst key <= today /\ exists m, snd key = Some m /\ In m metrics).
  { intros [d om]. rewrite in_flat_map. cbn [fst snd]. split.
    - intros (d' & Hd & Hin). apply in_map_iff in Hin.
      destruct Hin as (m & [= <- <-] & Hm). apply in_days_from in Hd.
      split; [exact Hd|]. exists m. tauto.
    - intros [Hd (m & -> & Hm)]. exists d. split; [apply in_days_from; exact Hd|].
      apply in_map_iff. exists m. tauto. }
  split.
  - intros d m Hd Hm.
    assert (Hkey : In (d, Some m)
                      (flat_map (fun d => map (fun m => (d, Some m)) metrics)
                                (days_from lo today))).
    { apply Hseq. cbn. split; [exact Hd|]. exists m. tauto. }
    destruct (filter (on_date_metric Row column (d, Some m)) (rows (to_datetime data)))
      as [|o os] eqn:F.
    + exists (mkJoined Row d (Some m) None). split; [|split; reflexivity].
      apply in_merge_left. exists (d, Some m). split; [exact Hkey|]. cbn.
      repeat split. right. split; [reflexivity|]. intros o Ho.
      destruct (on_date_metric Row column (d, Some m) o) eqn:E; [|reflexivity].
      assert (Hf : In o (filter (on_date_metric Row column (d, Some m))
                                (rows (to_datetime data)))) by (apply filter_In; tauto).
      rewrite F in Hf. destruct Hf.
    + exists (mkJoined Row d (Some m) (Some (snd o))). split; [|split; reflexivity].
      assert (Hf : In o (filter (on_date_metric Row column (d, Some m))
                                (rows (to_datetime data)))) by (rewrite F; left; reflexivity).
      apply filter_In in Hf.
      apply in_merge_left. exists (d, Some m). split; [exact Hkey|]. cbn.
      repeat split. left. exists o. tauto.
  - intros j Hj. apply in_merge_left in Hj.
    destruct Hj as (key & Hkey & Hd & Hm & Hrow). apply Hseq in Hkey.
    destruct Hkey as [Hrange (m & Hsm & Hin)]. rewrite Hd. split; [exact Hrange|].
    exists m. split; [congruence|]. split; [exact Hin|].
    intros x Hx. destruct Hrow as [(o & Ho & Hmatch & Hrow)|[Hrow _]]; [|congruence].
    rewrite Hx in Hrow. injection Hrow as ->.
    unfold on_date_metric in Hmatch. rewrite Hsm in Hmatch.
    apply andb_true_iff in Hmatch. destruct Hmatch as [Hdate Hmet].
    apply Z.eqb_eq in Hdate. rewrite Hdate.
    destruct (column (snd o)) as [m'|]; [|discriminate].
    apply String.eqb_eq in Hmet. subst m'.
    split; [destruct o; exact Ho|reflexivity].
Qed.

(** A volume frame with one observation, asked for the volume metrics. *)
Lemma join_dates_metric_product_witness :
  exists lo out,
    series_min [date_of_ymd 2024 1 1] = Some lo
    /\ fst (join_dates (Some (fun x : option string * cell => fst x))
              (mkFrame Datetime64 [(date_of_ymd 2024 1 1, (Some "volume"%string, Some 5%Q))])
              true "volume" (date_of_ymd 2024 1 2)) = Ok out
    /\ (forall d m, lo <= d <= date_of_ymd 2024 1 2 ->
                    In m ["hypertrophy_adjusted_volume"; "volume"]%string ->
                    exists j, In j out /\ j_date j = d /\ j_metric j = Some m)
    /\ (forall j, In j out ->
                  lo <= j_date j <= date_of_ymd 2024 1 2
                  /\ exists m, j_metric j = Some m
                     /\ In m ["hypertrophy_adjusted_volume"; "volume"]%string
                     /\ forall x, j_row j = Some x ->
                                  In (j_date j, x)
                                     [(date_of_ymd 2024 1 1, (Some "volume"%string, Some 5%Q))]
                                  /\ fst x = Some m).
Proof.
  apply (join_dates_metric_product (option string * cell)
           (Some (fun x : option string * cell => fst x))
           (mkFrame Datetime64 [(date_of_ymd 2024 1 1, (Some "volume"%string, Some 5%Q))])
           "volume" (date_of_ymd 2024 1 2)).
  discriminate.
Defined.

End JoinDatesRows.

(* ------------------------------------------------------------------ *)
(** ** Volume: what the series adds up to *)

Section VolumeTotals.
Import Strength StrengthSpec Reconciler Volume VolumeSpec.

Lemma qsum_map_plus {A} (f g : A -> Q) (l : list A) :
  (qsum (map (fun a => f a + g a) l) == qsum (map f l) + qsum (map g l))%Q.
Proof.
  induction l as [|a l IH]; simpl.
  - reflexivity.
  - rewrite !qsum_cons, IH. ring.
Qed.

Lemma qsum_zero {A} (l : list A) : (qsum (map (fun _ => 0) l) == 0)%Q.
Proof.
  induction l as [|a l IH]; simpl; [reflexivity|]. rewrite qsum_cons, IH. ring.
Qed.

(** Over distinct days, a quantity booked on one day is counted once. *)
Lemma qsum_one_day (x : Z) (v : Q) (days : list Z) :
  NoDup days -> In x days ->
  (qsum (map (fun d => if x =? d then v else 0) days) == v)%Q.
Proof.
  induction 1 as [|d days Hd Hnd IH]; intros Hin; [destruct Hin|].
  simpl map. rewrite qsum_cons.
  destruct Hin as [->|Hin].
  - rewrite Z.eqb_refl.
    rewrite (qsum_map_ext _ (fun _ => 0%Q)); [rewrite qsum_zero; ring|].
    apply Forall_forall. intros d Hd'.
    destruct (Z.eqb_spec x d) as [->|_]; [contradiction|reflexivity].
  - destruct (Z.eqb_spec x d) as [->|_]; [contradiction|]. rewrite (IH Hin). ring.
Qed.

Lemma day_volume_cons r data d :
  (day_volume (r :: data) d
   == (if s_date r =? d then fillna 0 (s_one_rep_max r) else 0) + day_volume data d)%Q.
Proof.
  unfold day_volume, nansum, on_day. cbn [filter].
  destruct (s_date r =? d).
  - cbn [map]. rewrite qsum_cons. reflexivity.
  - ring.
Qed.

Lemma volume_total data days :
  NoDup days -> (forall r, In r data -> In (s_date r) days) ->
  (qsum (map (day_volume data) days) == nansum (map s_one_rep_max data))%Q.
Proof.
  intros Hnd. induction data as [|r data IH]; intros Hin.
  - unfold nansum. cbn [map]. apply qsum_zero.
  - rewrite (qsum_map_ext _ (fun d => (if s_date r =? d then fillna 0 (s_one_rep_max r) else 0)
                                       + day_volume data d)%Q).
    2:{ apply Forall_forall. intros d _. apply day_volume_cons. }
    rewrite qsum_map_plus, IH.
    + rewrite qsum_one_day; [|exact Hnd|apply Hin; left; reflexivity].
      unfold nansum. cbn [map]. rewrite qsum_cons. reflexivity.
    + intros r' Hr'. apply Hin. right. exact Hr'.
Qed.

(** The volume series books every set once: its values add up to the sum of
    [one_rep_max] over the whole table. *)
Theorem volume_series_keeps_the_total (weightlifting_data : list ExerciseSetScored) :
  weightlifting_data <> [] ->
  exists column out,
    process_volume_data weightlifting_data = Ok (column, out)
    /\ (qsum (map snd out) == nansum (map s_one_rep_max weightlifting_data))%Q.
Proof.
  intros Hne.
  destruct (process_volume_data_eq weightlifting_data Hne)
    as (lo & hi & _ & _ & Hbounds & Heq).
  eexists. eexists. split; [exact Heq|].
  rewrite map_map. cbn [snd].
  apply volume_total; [apply days_from_nodup|].
  intros r Hr. apply in_days_from. apply Hbounds. exact Hr.
Qed.

Lemma volume_series_keeps_the_total_witness :
  exists column out,
    process_volume_data (wrangle_weightlifting_data sample_sets sample_weights)
    = Ok (column, out)
    /\ (qsum (map snd out)
        == nansum (map s_one_rep_max
                       (wrangle_weightlifting_data sample_sets sample_weights)))%Q.
Proof.
  apply (volume_series_keeps_the_total
           (wrangle_weightlifting_data sample_sets sample_weights)).
  vm_compute. discriminate.
Defined.

Lemma qsum_positive (l : list Q) :
  l <> [] -> Forall (fun x => (0 < x)%Q) l -> (0 < qsum l)%Q.
Proof.
  intros Hne Hall. destruct l as [|x l]; [congruence|]. clear Hne.
  revert x Hall. induction l as [|y l IH]; intros x Hall.
  - inversion Hall; subst. unfold qsum. simpl. rewrite Qplus_0_l. assumption.
  - inversion Hall as [|? ? Hx Hrest]; subst.
    rewrite qsum_cons.
    apply Qlt_le_trans with (0 + qsum (y :: l))%Q.
    + rewrite Qplus_0_l. apply IH. exact Hrest.
    + apply Qplus_le_l. apply Qlt_le_weak. exact Hx.
Qed.

(** Fed with the final table of the Strength Metric Engine, the volume
    series is positive on the days that have a set in the table and 0 on all
    other days. *)
Theorem volume_is_positive_on_training_days
    (exercise_data : list ExerciseSet) (weight_data : list (Z * cell)) :
  wrangle_weightlifting_data exercise_data weight_data <> [] ->
  exists column out,
    process_volume_data (wrangle_weightlifting_data exercise_data weight_data)
    = Ok (column, out)
    /\ forall d v,
         In (d, v) out ->
         ((exists r, In r (wrangle_weightlifting_data exercise_data weight_data)
                     /\ s_date r = d) -> (0 < v)%Q)
         /\ ((forall r, In r (wrangle_weightlifting_data exercise_data weight_data) ->
                        s_date r <> d) -> v = 0%Q).
Proof.
  intros Hne.
  set (data := wrangle_weightlifting_data exercise_data weight_data) in *.
  destruct (process_volume_data_eq data Hne) as (lo & hi & _ & _ & _ & Heq).
  eexists. eexists. split; [exact Heq|].
  intros d v Hin. apply in_map_iff in Hin. destruct Hin as (d' & [= -> <-] & _).
  split.
  - intros (r & Hr & Hd). unfold day_volume, nansum.
    apply qsum_positive.
    + assert (Hf : In r (filter (on_day d) data)).
      { apply filter_In. split; [exact Hr|]. apply Z.eqb_eq. exact Hd. }
      destruct (filter (on_day d) data); [destruct Hf|discriminate].
    + apply Forall_forall. intros x Hx.
      apply in_map_iff in Hx. destruct Hx as (c & <- & Hc).
      apply in_map_iff in Hc. destruct Hc as (r' & <- & Hr').
      apply filter_In in Hr'. destruct Hr' as [Hr' _].
      destruct (final_row _ _ _ Hr') as (_ & _ & w & _ & _ & _ & _ & _ & _ & Hw & Hpos & _).
      rewrite Hw. exact Hpos.
  - intros Hnone. unfold day_volume.
    replace (filter (on_day d) data) with (@nil ExerciseSetScored); [reflexivity|].
    symmetry. destruct (filter (on_day d) data) as [|r rs] eqn:F; [reflexivity|].
    exfalso.
    assert (Hr : In r (filter (on_day d) data)) by (rewrite F; left; reflexivity).
    apply filter_In in Hr. destruct Hr as [Hr Hd]. apply Z.eqb_eq in Hd.
    apply (Hnone r Hr Hd).
Qed.

Lemma volume_is_positive_on_training_days_witness :
  exists column out,
    process_volume_data (wrangle_weightlifting_data sample_sets sample_weights)
    = Ok (column, out)
    /\ forall d v,
         In (d, v) out ->
         ((exists r, In r (wrangle_weightlifting_data sample_sets sample_weights)
                     /\ s_date r = d) -> (0 < v)%Q)
         /\ ((forall r, In r (wrangle_weightlifting_data sample_sets sample_weights) ->
                        s_date r <> d) -> v = 0%Q).
Proof.
  apply (volume_is_positive_on_training_days sample_sets sample_weights).
  vm_compute. discriminate.
Defined.

End VolumeTotals.

(* ------------------------------------------------------------------ *)
(** ** Scoring: range of the rescaled score, cutoffs, undefined scores *)

Section ScoringRangeFacts.
Import Scoring ScoringSpec ScoringRanges.

Lemma qsum_map_le {A} (f g : A -> Q) (l : list A) :
  Forall (fun a => (f a <= g a)%Q) l ->
  (qsum (map f l) <= qsum (map g l))%Q.
Proof.
  induction 1 as [|a l Ha _ IH]; simpl.
  - apply Qle_refl.
  - rewrite !qsum_cons. apply Qplus_le_compat; assumption.
Qed.

Lemma weight_sign (w : Q) :
  (Qle_bool w 0 = false /\ (0 < w)%Q) \/ (Qle_bool w 0 = true /\ (w <= 0)%Q).
Proof.
  destruct (Qle_bool w 0) eqn:E.
  - right. split; [reflexivity|]. apply Qle_bool_iff. exact E.
  - left. split; [reflexivity|]. apply Qnot_le_lt. intro H.
    apply Qle_bool_iff in H. congruence.
Qed.

Lemma Qmult_le_nonpos_r (a b w : Q) : (a <= b)%Q -> (w <= 0)%Q -> (b * w <= a * w)%Q.
Proof.
  intros Hab Hw.
  setoid_replace (b * w)%Q with (- (b * - w))%Q by ring.
  setoid_replace (a * w)%Q with (- (a * - w))%Q by ring.
  apply Qopp_le_compat. apply Qmult_le_compat_r; [exact Hab|].
  setoid_replace 0%Q with (- 0)%Q by ring. apply Qopp_le_compat. exact Hw.
Qed.

(** A factor inside its range, under a non-decreasing transformation,
    contributes between its entries of [min_scores] and [max_scores]. *)
Lemma contribution_in_range r kv x :
  monotone_on_range (snd kv) ->
  factor r (fst kv) = Some x ->
  (min_val (snd kv) <= x)%Q -> (x <= max_val (snd kv))%Q ->
  ((let v := snd kv in
    if negb (Qle_bool (weight v) 0)
    then transformation v (min_val v) * weight v
    else transformation v (max_val v) * weight v) <= transformed r kv)%Q
  /\ (transformed r kv <=
      (let v := snd kv in
       if negb (Qle_bool (weight v) 0)
       then transformation v (max_val v) * weight v
       else transformation v (min_val v) * weight v))%Q.
Proof.
  destruct kv as [k v]. cbn [fst snd]. intros Hmono Hx Hlo Hhi.
  unfold transformed. cbn [fst snd]. rewrite Hx. cbn [fillna].
  assert (H1 : (transformation v (min_val v) <= transformation v x)%Q).
  { apply Hmono; [apply Qle_refl|exact Hlo|exact Hhi]. }
  assert (H2 : (transformation v x <= transformation v (max_val v))%Q).
  { apply Hmono; [exact Hlo|exact Hhi|apply Qle_refl]. }
  destruct (weight_sign (weight v)) as [[-> Hw]|[-> Hw]]; cbn [negb].
  - split; apply Qmult_le_compat_r; try assumption; apply Qlt_le_weak; exact Hw.
  - split; apply Qmult_le_nonpos_r; assumption.
Qed.

(** With [rescale=True], a valid row whose factors are all present inside
    their declared ranges scores between -100 and 100, provided every
    transformation of the definition is non-decreasing over its range and
    the two possible extremes differ. *)
Theorem rescaled_score_is_within_bounds
    (data : MoodFrame) (vars_info : ScoreDefinition) (cutoff : Q)
    (exclude_dates : list (Z * Z)) (i : nat) (r : MoodRow) :
  columns_present data vars_info ->
  nth_error (rows data) i = Some r ->
  valid_row vars_info cutoff r = true ->
  Forall (fun kv => monotone_on_range (snd kv)) vars_info ->
  in_declared_range vars_info r ->
  (min_possible_score vars_info < max_possible_score vars_info)%Q ->
  exists out q,
    calculate_score data vars_info cutoff exclude_dates true = Ok out
    /\ nth_error out i = Some (Num q)
    /\ (-100 <= q)%Q /\ (q <= 100)%Q.
Proof.
  intros Hcols Hr Hvalid Hmono Hrange Hlt.
  destruct (calculate_score_nth data vars_info cutoff exclude_dates true i r Hcols Hr)
    as (out & Hout & Hnth).
  unfold score_of_row in Hnth. unfold valid_row in Hvalid. rewrite Hvalid in Hnth.
  assert (Hne : ~ (max_possible_score vars_info == min_possible_score vars_info)%Q).
  { intro E. rewrite E in Hlt. exact (Qlt_irrefl _ Hlt). }
  rewrite (rescaled_finite _ _ Hne) in Hnth.
  exists out. eexists. split; [exact Hout|]. split; [exact Hnth|].
  assert (Hboth : Forall (fun kv =>
            ((let v := snd kv in
              if negb (Qle_bool (weight v) 0)
              then transformation v (min_val v) * weight v
              else transformation v (max_val v) * weight v) <= transformed r kv)%Q
            /\ (transformed r kv <=
                (let v := snd kv in
                 if negb (Qle_bool (weight v) 0)
                 then transformation v (max_val v) * weight v
                 else transformation v (min_val v) * weight v))%Q) vars_info).
  { unfold in_declared_range in Hrange. rewrite Forall_forall in *.
    intros kv Hkv. destruct (Hrange kv Hkv) as (x & Hx & Hlo & Hhi).
    apply (contribution_in_range r kv x (Hmono kv Hkv) Hx Hlo Hhi). }
  assert (Hlow : (min_possible_score vars_info <= score_sum vars_info r)%Q).
  { unfold min_possible_score, min_scores, score_sum. apply qsum_map_le.
    eapply Forall_impl; [|exact Hboth]. intros kv [H _]. exact H. }
  assert (Hhigh : (score_sum vars_info r <= max_possible_score vars_info)%Q).
  { unfold max_possible_score, max_scores, score_sum. apply qsum_map_le.
    eapply Forall_impl; [|exact Hboth]. intros kv [_ H]. exact H. }
  set (s := score_sum vars_info r) in *.
  set (lo := min_possible_score vars_info) in *.
  set (hi := max_possible_score vars_info) in *.
  assert (Hd : (0 < hi - lo)%Q).
  { apply (Qplus_lt_l _ _ lo). ring_simplify. exact Hlt. }
  assert (H0 : (0 <= (s - lo) / (hi - lo))%Q).
  { apply Qle_shift_div_l; [exact Hd|]. rewrite Qmult_0_l.
    apply (Qplus_le_l _ _ lo). ring_simplify. exact Hlow. }
  assert (H1 : ((s - lo) / (hi - lo) <= 1)%Q).
  { apply Qle_shift_div_r; [exact Hd|]. rewrite Qmult_1_l.
    apply (Qplus_le_l _ _ lo). ring_simplify. exact Hhigh. }
  split.
  - apply (Qplus_le_l _ _ 100). ring_simplify.
    setoid_replace 0%Q with (0 * 200)%Q by ring.
    setoid_replace (200 * ((s - lo) / (hi - lo)))%Q
      with ((s - lo) / (hi - lo) * 200)%Q by ring.
    apply Qmult_le_compat_r; [exact H0|discriminate].
  - apply (Qplus_le_l _ _ 100). ring_simplify.
    setoid_replace 200%Q with (1 * 200)%Q at 2 by ring.
    setoid_replace (200 * ((s - lo) / (hi - lo)))%Q
      with ((s - lo) / (hi - lo) * 200)%Q by ring.
    apply Qmult_le_compat_r; [exact H1|discriminate].
Qed.

Lemma ident_monotone lo hi w : monotone_on_range (mkVar lo hi w ident).
Proof. intros x y _ Hxy _. exact Hxy. Qed.

Lemma square_monotone lo hi w :
  (0 <= lo)%Q -> monotone_on_range (mkVar lo hi w square).
Proof.
  intros H0 x y Hlo Hxy _. cbn in *. unfold square.
  assert (Hx : (0 <= x)%Q) by (eapply Qle_trans; eassumption).
  assert (Hy : (0 <= y)%Q) by (eapply Qle_trans; eassumption).
  apply Qle_trans with (y * x)%Q.
  - apply Qmult_le_compat_r; [exact Hxy|exact Hx].
  - setoid_replace (y * x)%Q with (x * y)%Q by ring.
    apply Qmult_le_compat_r; [exact Hxy|exact Hy].
Qed.

(** A row of twos under [life_satisfaction_vars]. *)
Lemma rescaled_score_is_within_bounds_witness :
  exists out q,
    calculate_score (frame_of life_satisfaction_vars
                       [constant_row (date_of_ymd 2022 3 1) 2])
      life_satisfaction_vars 1 default_exclude_dates true = Ok out
    /\ nth_error out 0 = Some (Num q)
    /\ (-100 <= q)%Q /\ (q <= 100)%Q.
Proof.
  apply (rescaled_score_is_within_bounds
           (frame_of life_satisfaction_vars [constant_row (date_of_ymd 2022 3 1) 2])
           life_satisfaction_vars 1 default_exclude_dates 0
           (constant_row (date_of_ymd 2022 3 1) 2)).
  - vm_compute. reflexivity.
  - reflexivity.
  - vm_compute. reflexivity.
  - repeat constructor;
      first [apply ident_monotone | apply square_monotone; discriminate].
  - repeat constructor; exists 2%Q; repeat split; discriminate.
  - vm_compute. reflexivity.
Defined.

Lemma cutoff_check_weaker vars_info (c c' : Q) r :
  (c' <= c)%Q -> cutoff_check vars_info c r = true -> cutoff_check vars_info c' r = true.
Proof.
  unfold cutoff_check. destruct (List.length vars_info); [discriminate|].
  intros Hle H. apply Qle_bool_iff in H. apply Qle_bool_iff.
  eapply Qle_trans; eassumption.
Qed.

(** A row that passes a cutoff gets the same score under every lower
    cutoff: where the strict score is computed, the partial score of the
    same definition equals it. *)
Theorem lower_cutoff_gives_the_same_score
    (data : MoodFrame) (vars_info : ScoreDefinition) (cutoff cutoff' : Q)
    (exclude_dates : list (Z * Z)) (rescale : bool) (i : nat) (r : MoodRow) :
  columns_present data vars_info ->
  nth_error (rows data) i = Some r ->
  (cutoff' <= cutoff)%Q ->
  cutoff_check vars_info cutoff r = true ->
  exists out out' s,
    calculate_score data vars_info cutoff exclude_dates rescale = Ok out
    /\ calculate_score data vars_info cutoff' exclude_dates rescale = Ok out'
    /\ nth_error out i = Some s
    /\ nth_error out' i = Some s.
Proof.
  intros Hcols Hr Hle Hcut.
  destruct (calculate_score_nth data vars_info cutoff exclude_dates rescale i r Hcols Hr)
    as (out & Hout & Hnth).
  destruct (calculate_score_nth data vars_info cutoff' exclude_dates rescale i r Hcols Hr)
    as (out' & Hout' & Hnth').
  exists out, out'. eexists. split; [exact Hout|]. split; [exact Hout'|].
  split; [exact Hnth|]. rewrite Hnth'. f_equal. unfold score_of_row.
  rewrite Hcut, (cutoff_check_weaker _ _ _ _ Hle Hcut). reflexivity.
Qed.

(** The strict and the partial [life_satisfaction] score of a row of twos. *)
Lemma lower_cutoff_gives_the_same_score_witness :
  exists out out' s,
    calculate_score (frame_of life_satisfaction_vars
                       [constant_row (date_of_ymd 2022 3 1) 2])
      life_satisfaction_vars 1 default_exclude_dates true = Ok out
    /\ calculate_score (frame_of life_satisfaction_vars
                          [constant_row (date_of_ymd 2022 3 1) 2])
         life_satisfaction_vars 0.5 default_exclude_dates true = Ok out'
    /\ nth_error out 0 = Some s
    /\ nth_error out' 0 = Some s.
Proof.
  apply (lower_cutoff_gives_the_same_score
           (frame_of life_satisfaction_vars [constant_row (date_of_ymd 2022 3 1) 2])
           life_satisfaction_vars 1 0.5 default_exclude_dates true 0
           (constant_row (date_of_ymd 2022 3 1) 2)).
  - vm_compute. reflexivity.
  - reflexivity.
  - vm_compute. discriminate.
  - vm_compute. reflexivity.
Defined.

(** Without rescaling, or when the two possible extremes differ, the score
    of a row is NaN exactly when the row fails the cutoff or is uniform. *)
Theorem score_is_undefined_exactly_on_invalid_rows
    (data : MoodFrame) (vars_info : ScoreDefinition) (cutoff : Q)
    (exclude_dates : list (Z * Z)) (rescale : bool) (i : nat) (r : MoodRow) :
  columns_present data vars_info ->
  nth_error (rows data) i = Some r ->
  rescale = false
  \/ ~ (max_possible_score vars_info == min_possible_score vars_info)%Q ->
  exists out s,
    calculate_score data vars_info cutoff exclude_dates rescale = Ok out
    /\ nth_error out i = Some s
    /\ (s = NaN <-> valid_row vars_info cutoff r = false).
Proof.
  intros Hcols Hr Hcase.
  destruct (calculate_score_nth data vars_info cutoff exclude_dates rescale i r Hcols Hr)
    as (out & Hout & Hnth).
  exists out. eexists. split; [exact Hout|]. split; [exact Hnth|].
  unfold score_of_row, valid_row.
  destruct (cutoff_check vars_info cutoff r && negb (uniform_data vars_info r)).
  - split; [|discriminate].
    destruct Hcase as [->|Hne]; [discriminate|].
    destruct rescale; [|discriminate].
    rewrite (rescaled_finite _ _ Hne). discriminate.
  - split; reflexivity.
Qed.

(** An unrescaled score of one factor, on a row where the factor is absent. *)
Lemma score_is_undefined_exactly_on_invalid_rows_witness :
  exists out s,
    calculate_score (frame_of [("energy"%string, mkVar 1 4 1 ident)]
                       [mkMood (date_of_ymd 2022 3 1) (fun _ => None)])
      [("energy"%string, mkVar 1 4 1 ident)] 1 default_exclude_dates false = Ok out
    /\ nth_error out 0 = Some s
    /\ (s = NaN <->
        valid_row [("energy"%string, mkVar 1 4 1 ident)] 1
                  (mkMood (date_of_ymd 2022 3 1) (fun _ => None)) = false).
Proof.
  apply (score_is_undefined_exactly_on_invalid_rows
           (frame_of [("energy"%string, mkVar 1 4 1 ident)]
                     [mkMood (date_of_ymd 2022 3 1) (fun _ => None)])
           [("energy"%string, mkVar 1 4 1 ident)] 1 default_exclude_dates false 0
           (mkMood (date_of_ymd 2022 3 1) (fun _ => None))).
  - vm_compute. reflexivity.
  - reflexivity.
  - left. reflexivity.
Defined.

End ScoringRangeFacts.

(* ------------------------------------------------------------------ *)
(** ** Workout pace *)

Section PaceFacts.
Import Workouts.

Lemma py_mod1_range x : (0 <= py_mod1 x)%Q /\ (py_mod1 x < 1)%Q.
Proof.
  unfold py_mod1. split.
  - apply (Qplus_le_l _ _ (inject_Z (Qfloor x))).
    setoid_replace (x - inject_Z (Qfloor x) + inject_Z (Qfloor x))%Q with x by ring.
    rewrite Qplus_0_l. apply Qfloor_le.
  - apply (Qplus_lt_l _ _ (inject_Z (Qfloor x))).
    setoid_replace (x - inject_Z (Qfloor x) + inject_Z (Qfloor x))%Q with x by ring.
    pose proof (Qlt_floor x) as H. rewrite inject_Z_plus in H.
    setoid_replace (1 + inject_Z (Qfloor x))%Q with (inject_Z (Qfloor x) + inject_Z 1)%Q
      by ring.
    exact H.
Qed.

Lemma py_int_nonneg x : (0 <= x)%Q -> py_int x = Qfloor x.
Proof.
  intros H. unfold py_int. apply Qle_bool_iff in H. rewrite H. reflexivity.
Qed.

(** The converted value of a non-negative number, as floor plus six tenths
    of the fraction. *)
Lemma convert_nonneg x :
  (0 <= x)%Q ->
  convert_to_minute_proportion (Some x)
  = Ok (inject_Z (Qfloor x) + (py_mod1 x / 100 * 60))%Q.
Proof.
  intros H. unfold convert_to_minute_proportion. rewrite (py_int_nonneg x H).
  reflexivity.
Qed.


(** On non-negative numbers [convert_to_minute_proportion] keeps the whole
    part and turns the fraction into sixtieths written as hundredths: the
    result lies from the floor of the number to less than 0.6 above it,
    never exceeds the number, and keeps the order of two numbers. *)
Theorem minute_proportion_properties (x y : Q) :
  (0 <= x)%Q -> (x <= y)%Q ->
  exists p q,
    convert_to_minute_proportion (Some x) = Ok p
    /\ convert_to_minute_proportion (Some y) = Ok q
    /\ (inject_Z (Qfloor x) <= p)%Q
    /\ (p < inject_Z (Qfloor x) + 6 / 10)%Q
    /\ (p <= x)%Q
    /\ (p <= q)%Q.
Proof.
  intros Hx Hxy.
  assert (Hy : (0 <= y)%Q) by (eapply Qle_trans; eassumption).
  rewrite (convert_nonneg x Hx), (convert_nonneg y Hy).
  eexists. eexists. split; [reflexivity|]. split; [reflexivity|].
  destruct (py_mod1_range x) as [Hx0 Hx1]. destruct (py_mod1_range y) as [Hy0 Hy1].
  assert (Hscale : forall f, (f / 100 * 60 == f * (6 / 10))%Q) by (intros; field).
  assert (H6 : (0 <= 6 / 10)%Q) by discriminate.
  assert (Hfx : (0 <= py_mod1 x / 100 * 60)%Q).
  { rewrite Hscale. setoid_replace 0%Q with (0 * (6 / 10))%Q by ring.
    apply Qmult_le_compat_r; assumption. }
  assert (Hfx' : (py_mod1 x / 100 * 60 < 6 / 10)%Q).
  { rewrite Hscale. setoid_replace (6 / 10)%Q with (1 * (6 / 10))%Q at 2 by ring.
    apply Qmult_lt_compat_r; [reflexivity|exact Hx1]. }
  assert (Hfy : (0 <= py_mod1 y / 100 * 60)%Q).
  { rewrite Hscale. setoid_replace 0%Q with (0 * (6 / 10))%Q by ring.
    apply Qmult_le_compat_r; assumption. }
  split; [|split; [|split]].
  - setoid_replace (inject_Z (Qfloor x)) with (inject_Z (Qfloor x) + 0)%Q at 1 by ring.
    apply Qplus_le_r. exact Hfx.
  - apply Qplus_lt_r. exact Hfx'.
  - apply Qle_trans with (inject_Z (Qfloor x) + py_mod1 x)%Q.
    + apply Qplus_le_r. rewrite Hscale. rewrite (Qmult_comm (py_mod1 x)).
      apply Qle_trans with (1 * py_mod1 x)%Q.
      * apply Qmult_le_compat_r; [discriminate|exact Hx0].
      * rewrite Qmult_1_l. apply Qle_refl.
    + unfold py_mod1.
      setoid_replace (inject_Z (Qfloor x) + (x - inject_Z (Qfloor x)))%Q with x by ring.
      apply Qle_refl.
  - pose proof (Qfloor_resp_le x y Hxy) as Hfl.
    destruct (Z.eq_dec (Qfloor x) (Qfloor y)) as [E|Hne].
    + rewrite E. apply Qplus_le_r. rewrite !Hscale.
      apply Qmult_le_compat_r; [|exact H6].
      unfold py_mod1. rewrite E. apply Qplus_le_l. exact Hxy.
    + assert (Hstep : (Qfloor x + 1 <= Qfloor y)%Z) by lia.
      rewrite Zle_Qle, inject_Z_plus in Hstep.
      apply Qle_trans with (inject_Z (Qfloor x) + inject_Z 1)%Q.
      * apply Qplus_le_r. apply Qlt_le_weak.
        apply Qlt_le_trans with (6 / 10)%Q; [exact Hfx'|discriminate].
      * apply Qle_trans with (inject_Z (Qfloor y)); [exact Hstep|].
        setoid_replace (inject_Z (Qfloor y)) with (inject_Z (Qfloor y) + 0)%Q at 1 by ring.
        apply Qplus_le_r. exact Hfy.
Qed.

(** Five and a half minutes read 5.30, six and a quarter read 6.15. *)
Lemma minute_proportion_properties_witness :
  exists p q,
    convert_to_minute_proportion (Some (11 # 2)) = Ok p
    /\ convert_to_minute_proportion (Some (25 # 4)) = Ok q
    /\ (inject_Z (Qfloor (11 # 2)) <= p)%Q
    /\ (p < inject_Z (Qfloor (11 # 2)) + 6 / 10)%Q
    /\ (p <= 11 # 2)%Q
    /\ (p <= q)%Q.
Proof.
  apply (minute_proportion_properties (11 # 2) (25 # 4)); discriminate.
Defined.

End PaceFacts.

(* ================================================================== *)
(** ** Exceptional days *)

Section ExceptionalDayFacts.
Import MoodLog MoodLogSpec.

Variable str_contains : string -> string -> bool.
Variable Others : Type.

Lemma fold_set_score (conditions : list (string * Q)) (data : list (Entry Others)) :
  fold_left (set_score str_contains) conditions data
  = map (fun e =>
           match find (fun c => note_matches str_contains (fst c) e) (rev conditions) with
           | Some c => mkEntry (note e) (Some (snd c)) (others e)
           | None => e
           end)
        data.
Proof.
  induction conditions as [|c cs IH] using rev_ind.
  - cbn. symmetry. apply map_id.
  - rewrite fold_left_app. cbn [fold_left]. rewrite IH, rev_app_distr.
    unfold set_score. rewrite map_map. apply map_ext. intros e.
    cbn [rev app find].
    assert (Hnote : forall e' : Entry Others,
               note e' = note e ->
               note_matches str_contains (fst c) e'
               = note_matches str_contains (fst c) e).
    { intros e' He'. unfold note_matches. rewrite He'. reflexivity. }
    destruct (find (fun c0 => note_matches str_contains (fst c0) e) (rev cs))
      as [c'|] eqn:Hfind.
    + rewrite (Hnote (mkEntry (note e) (Some (snd c')) (others e)) eq_refl).
      destruct (note_matches str_contains (fst c) e); reflexivity.
    + destruct (note_matches str_contains (fst c) e); reflexivity.
Qed.

Lemma last_match_note (e e' : Entry Others) :
  note e' = note e -> last_match str_contains e' = last_match str_contains e.
Proof.
  intros Hnote. unfold last_match.
  induction (rev exceptional_days_conditions) as [|c cs IH]; [reflexivity|].
  cbn [find]. unfold note_matches at 1 3. rewrite Hnote, IH. reflexivity.
Qed.

Lemma scores_of_the_table (c : string * Q) :
  In c exceptional_days_conditions -> (4 <= snd c /\ snd c <= 5)%Q.
Proof.
  intros Hin.
  assert (Hall : forallb (fun c => Qle_bool 4 (snd c) && Qle_bool (snd c) 5)
                         exceptional_days_conditions = true) by (vm_compute; reflexivity).
  rewrite forallb_forall in Hall. specialize (Hall c Hin).
  apply andb_true_iff in Hall. destruct Hall as [H4 H5].
  split; apply Qle_bool_iff; assumption.
Qed.

(** [add_scores_to_exceptional_days] works row by row: a row whose
    note matches none of the listed phrases (a missing note matches none) is
    left as it is; any other row keeps its note and its other columns and
    gets as [elevated] the score of the last listed phrase that matches. *)
Theorem exceptional_days_last_match_wins (data : list (Entry Others)) :
  add_scores_to_exceptional_days str_contains data
  = map (rescored str_contains) data.
Proof.
  unfold add_scores_to_exceptional_days. rewrite fold_set_score.
  apply map_ext. intros e. reflexivity.
Qed.

(** Every row of the result of [add_scores_to_exceptional_days] comes
    from a row of the input with the same note and other columns, and its
    [elevated] is either the one it had or a score from 4 to 5. *)
Theorem exceptional_days_scores_are_high
    (data : list (Entry Others)) (e' : Entry Others) :
  In e' (add_scores_to_exceptional_days str_contains data) ->
  exists e,
    In e data /\ note e' = note e /\ others e' = others e
    /\ (elevated e' = elevated e
        \/ exists q, elevated e' = Some q /\ (4 <= q /\ q <= 5)%Q).
Proof.
  unfold add_scores_to_exceptional_days. rewrite fold_set_score.
  intros Hin. apply in_map_iff in Hin. destruct Hin as (e & <- & Hin).
  exists e. split; [exact Hin|].
  destruct (find (fun c => note_matches str_contains (fst c) e)
                 (rev exceptional_days_conditions)) as [c|] eqn:Hfind.
  - cbn. repeat split. right. exists (snd c). split; [reflexivity|].
    apply find_some in Hfind. destruct Hfind as [Hc _].
    apply in_rev in Hc. apply scores_of_the_table. exact Hc.
  - repeat split. left. reflexivity.
Qed.

(** Running [add_scores_to_exceptional_days] on its own result changes
    nothing. *)
Theorem exceptional_days_idempotent (data : list (Entry Others)) :
  add_scores_to_exceptional_days str_contains
    (add_scores_to_exceptional_days str_contains data)
  = add_scores_to_exceptional_days str_contains data.
Proof.
  unfold add_scores_to_exceptional_days. rewrite !fold_set_score, map_map.
  apply map_ext. intros e.
  fold (last_match str_contains e).
  destruct (last_match str_contains e) as [c|] eqn:Hlast.
  - fold (last_match str_contains (mkEntry (note e) (Some (snd c)) (others e))).
    rewrite (last_match_note e) by reflexivity. rewrite Hlast. reflexivity.
  - fold (last_match str_contains e). rewrite Hlast. reflexivity.
Qed.

End ExceptionalDayFacts.

Lemma exceptional_days_scores_are_high_witness :
  In (MoodLog.mkEntry
        (Some "Back in Nassau after a blissful meditation experience"%string)
        (Some 4.0%Q) tt)
     (MoodLog.add_scores_to_exceptional_days Py.contains MoodLogSpec.sample_entries)
  /\ exists e,
       In e MoodLogSpec.sample_entries
       /\ Some "Back in Nassau after a blissful meditation experience"%string
          = MoodLog.note e
       /\ tt = MoodLog.others e
       /\ (Some 4.0%Q = MoodLog.elevated e
           \/ exists q, Some 4.0%Q = Some q /\ (4 <= q /\ q <= 5)%Q).
Proof.
  assert (Hin : In (MoodLog.mkEntry
                      (Some "Back in Nassau after a blissful meditation experience"%string)
                      (Some 4.0%Q) tt)
                   (MoodLog.add_scores_to_exceptional_days Py.contains
                      MoodLogSpec.sample_entries)).
  { vm_compute. right. left. reflexivity. }
  split; [exact Hin|].
  exact (exceptional_days_scores_are_high Py.contains unit
           MoodLogSpec.sample_entries _ Hin).
Defined.

(* ================================================================== *)
(** ** Filling a column of the mood log *)

Section FillFacts.
Import MoodLog MoodLogSpec.

Lemma in_numbered_dates (column : list (Z * cell)) (d : Z) :
  In d (map fst (filter (fun dv => notna (snd dv)) column))
  <-> exists x, In (d, Some x) column.
Proof.
  rewrite in_map_iff. split.
  - intros ([d0 v] & Hd & Hin). apply filter_In in Hin. destruct Hin as [Hin Hv].
    cbn in Hd, Hv. subst d0. destruct v as [x|]; [|discriminate].
    exists x. exact Hin.
  - intros (x & Hin). exists (d, Some x). split; [reflexivity|].
    apply filter_In. split; [exact Hin|reflexivity].
Qed.

Lemma after_first_iff (column : list (Z * cell)) (d : Z) :
  after_first column d = true <-> numbered_before column d.
Proof.
  unfold after_first, first_non_na_date, numbered_before.
  destruct (Reconciler.series_min (map fst (filter (fun dv => notna (snd dv)) column)))
    as [lo|] eqn:Hmin.
  - apply series_min_spec in Hmin. destruct Hmin as [Hlo Hle].
    rewrite Z.ltb_lt. split.
    + intros Hlt. apply in_numbered_dates in Hlo. destruct Hlo as (x & Hin).
      exists lo, x. split; assumption.
    + intros (d0 & x & Hin & Hlt).
      assert (Hd0 : lo <= d0) by (apply Hle, in_numbered_dates; exists x; exact Hin).
      lia.
  - split; [discriminate|]. intros (d0 & x & Hin & _).
    assert (Hd0 : In d0 (map fst (filter (fun dv => notna (snd dv)) column)))
      by (apply in_numbered_dates; exists x; exact Hin).
    destruct (map fst (filter (fun dv => notna (snd dv)) column));
      [destruct Hd0|discriminate].
Qed.

(** The fill of [clean_merged_data] on one numeric column keeps the
    rows, their order and their dates, keeps every number, and turns a NaN
    into 1 exactly when some row dated strictly earlier holds a number; the
    NaN cells dated on or before the first numbered date stay NaN, and so
    does a column without any number. *)
Theorem fill_after_first_cells (column : list (Z * cell)) (i : nat) (d : Z) (v : cell) :
  nth_error column i = Some (d, v) ->
  exists v',
    nth_error (fill_after_first column) i = Some (d, v')
    /\ (forall x, v = Some x -> v' = Some x)
    /\ (v = None -> numbered_before column d -> v' = Some 1%Q)
    /\ (v = None -> ~ numbered_before column d -> v' = None).
Proof.
  intros Hi. unfold fill_after_first.
  rewrite nth_error_map, Hi. cbn [option_map fst snd].
  destruct (after_first column d) eqn:Hafter.
  - exists (Some (fillna 1 v)). split; [reflexivity|]. split; [|split].
    + intros x ->. reflexivity.
    + intros -> _. reflexivity.
    + intros _ Hnot. apply after_first_iff in Hafter. contradiction.
  - exists v. split; [reflexivity|]. split; [|split].
    + intros x Hx. exact Hx.
    + intros _ Hbefore. apply after_first_iff in Hbefore. congruence.
    + intros Hv _. exact Hv.
Qed.

Lemma numbered_before_fill (column : list (Z * cell)) (d : Z) :
  numbered_before (fill_after_first column) d <-> numbered_before column d.
Proof.
  unfold numbered_before at 1. unfold fill_after_first. split.
  - intros (d0 & x & Hin & Hlt). apply in_map_iff in Hin.
    destruct Hin as ([d1 v] & Heq & Hin). cbn [fst snd] in Heq.
    destruct (after_first column d1) eqn:Hafter.
    + injection Heq as -> _. apply after_first_iff in Hafter.
      destruct Hafter as (d2 & y & Hin2 & Hlt2).
      exists d2, y. split; [exact Hin2|lia].
    + injection Heq as -> ->. exists d0, x. split; assumption.
  - intros (d0 & x & Hin & Hlt). exists d0, x. split; [|exact Hlt].
    apply in_map_iff. exists (d0, Some x). split; [|exact Hin].
    cbn [fst snd]. destruct (after_first column d0); reflexivity.
Qed.

(** Filling a filled column changes nothing: the first numbered date
    of a column is not moved by the fill. *)
Theorem fill_after_first_idempotent (column : list (Z * cell)) :
  fill_after_first (fill_after_first column) = fill_after_first column.
Proof.
  assert (Hafter : forall d,
             after_first (fill_after_first column) d = after_first column d).
  { intros d. apply eq_true_iff_eq.
    rewrite !after_first_iff. apply numbered_before_fill. }
  unfold fill_after_first at 1 3. unfold fill_after_first at 2.
  rewrite map_map. apply map_ext. intros [d v]. cbn [fst snd].
  destruct (after_first column d) eqn:Hd; cbn [fst snd]; rewrite Hafter, Hd; reflexivity.
Qed.

End FillFacts.

Lemma fill_after_first_cells_witness :
  nth_error MoodLogSpec.sample_column 3 = Some (6, None)
  /\ exists v',
       nth_error (MoodLog.fill_after_first MoodLogSpec.sample_column) 3 = Some (6, v')
       /\ (forall x, (None : Py.cell) = Some x -> v' = Some x)
       /\ ((None : Py.cell) = None -> MoodLogSpec.numbered_before MoodLogSpec.sample_column 6 ->
           v' = Some 1%Q)
       /\ ((None : Py.cell) = None -> ~ MoodLogSpec.numbered_before MoodLogSpec.sample_column 6 ->
           v' = None).
Proof.
  split; [reflexivity|].
  apply (fill_after_first_cells MoodLogSpec.sample_column 3 6 None). reflexivity.
Defined.

(* ================================================================== *)
(** ** The mental-health score *)

Section MentalHealthFacts.
Import Py Scoring ScoringSpec MoodLog MoodLogSpec.

Variables pow_6_6582 pow_0_5 pow_2_8675 : Q -> Q.

Lemma bind_ok {A B} (x : result A) (k : A -> result B) (b : B) :
  bind x k = Ok b -> exists a, x = Ok a /\ k a = Ok b.
Proof. destruct x as [a|e]; cbn; [eauto|discriminate]. Qed.

Lemma calculate_score_columns data vars_info cutoff exclude_dates rescale out :
  calculate_score data vars_info cutoff exclude_dates rescale = Ok out ->
  columns_present data vars_info.
Proof.
  unfold calculate_score, columns_present.
  destruct (forallb (fun kv => has_column data (fst kv)) vars_info);
    [reflexivity|discriminate].
Qed.

Lemma metrics_parts data m :
  calculate_mental_health_metrics pow_6_6582 pow_0_5 pow_2_8675 data = Ok m ->
  exists data1,
    anxiety_depression_interaction pow_6_6582 pow_0_5 data = Ok data1
    /\ calculate_score data1 (mental_health_vars pow_2_8675) 1
         default_exclude_dates false = Ok (mental_health m)
    /\ calculate_score data1 (mental_health_vars pow_2_8675) 0.5
         default_exclude_dates false = Ok (mental_health_partial m).
Proof.
  unfold calculate_mental_health_metrics. intros H.
  apply bind_ok in H. destruct H as (data1 & Hd & H). exists data1.
  split; [exact Hd|].
  repeat (apply bind_ok in H; let x := fresh "x" in let Hx := fresh "Hx" in
          destruct H as (x & Hx & H)).
  injection H as <-. cbn [mental_health mental_health_partial]. split; assumption.
Qed.

(** The row of the log once its interaction column is set. *)
Lemma interaction_rows data data1 i r :
  anxiety_depression_interaction pow_6_6582 pow_0_5 data = Ok data1 ->
  nth_error (rows data) i = Some r ->
  exists r1,
    nth_error (rows data1) i = Some r1
    /\ factor r1 "elevated" = factor r "elevated"
    /\ factor r1 "anxiety_depression_interaction"
       = interaction_of pow_6_6582 pow_0_5 (factor r "anxiety") (factor r "depressed").
Proof.
  unfold anxiety_depression_interaction. intros Hd Hr.
  destruct (negb (has_column data "anxiety")); [discriminate|].
  destruct (negb (has_column data "depressed")); [discriminate|].
  injection Hd as <-. unfold assign_column. cbn [rows].
  eexists. rewrite nth_error_map, Hr. cbn [option_map].
  split; [reflexivity|]. split; reflexivity.
Qed.

(** The cells of [mental_health] and [mental_health_partial] at one row. *)
Lemma mental_health_cells data m i r :
  calculate_mental_health_metrics pow_6_6582 pow_0_5 pow_2_8675 data = Ok m ->
  nth_error (rows data) i = Some r ->
  exists r1,
    factor r1 "elevated" = factor r "elevated"
    /\ factor r1 "anxiety_depression_interaction"
       = interaction_of pow_6_6582 pow_0_5 (factor r "anxiety") (factor r "depressed")
    /\ nth_error (mental_health m) i
       = Some (score_of_row (mental_health_vars pow_2_8675) 1 false r1)
    /\ nth_error (mental_health_partial m) i
       = Some (score_of_row (mental_health_vars pow_2_8675) 0.5 false r1).
Proof.
  intros Hm Hr. apply metrics_parts in Hm. destruct Hm as (data1 & Hd & Hfull & Hpart).
  destruct (interaction_rows _ _ _ _ Hd Hr) as (r1 & Hr1 & He & Hx).
  exists r1. split; [exact He|]. split; [exact Hx|].
  split.
  - destruct (calculate_score_nth data1 _ 1 default_exclude_dates false i r1
                (calculate_score_columns _ _ _ _ _ _ Hfull) Hr1) as (out & Hout & Hnth).
    rewrite Hfull in Hout. injection Hout as <-. exact Hnth.
  - destruct (calculate_score_nth data1 _ 0.5 default_exclude_dates false i r1
                (calculate_score_columns _ _ _ _ _ _ Hpart) Hr1) as (out & Hout & Hnth).
    rewrite Hpart in Hout. injection Hout as <-. exact Hnth.
Qed.

Lemma interaction_missing (a d : cell) :
  zero_or_missing a || zero_or_missing d = true ->
  interaction_of pow_6_6582 pow_0_5 a d = None.
Proof.
  unfold interaction_of, power_or_nan, zero_or_missing.
  destruct a as [a|], d as [d|]; cbn; try reflexivity;
    destruct (Qeq_bool a 0); try destruct (Qeq_bool d 0); cbn; try reflexivity;
    discriminate.
Qed.

(** On a day whose [anxiety] or [depressed] is 0 or NaN the interaction
    column is NaN, so [mental_health] (all factors required) is NaN, while
    [mental_health_partial] (half of the factors suffice) is the transformed
    [elevated] alone, [elevated ** 2.8675], and NaN when [elevated] is NaN
    too. *)
Theorem zero_anxiety_or_depression_voids_the_strict_score
    (data : MoodFrame) (m : Metrics) (i : nat) (r : MoodRow) :
  calculate_mental_health_metrics pow_6_6582 pow_0_5 pow_2_8675 data = Ok m ->
  nonnegative_log data ->
  nth_error (rows data) i = Some r ->
  zero_or_missing (factor r "anxiety") || zero_or_missing (factor r "depressed") = true ->
  nth_error (mental_health m) i = Some NaN
  /\ (forall e, factor r "elevated" = Some e ->
      exists q, nth_error (mental_health_partial m) i = Some (Num q)
                /\ (q == pow_2_8675 e)%Q)
  /\ (factor r "elevated" = None ->
      nth_error (mental_health_partial m) i = Some NaN).
Proof.
  intros Hm _ Hr Hzero.
  destruct (mental_health_cells _ _ _ _ Hm Hr) as (r1 & He & Hx & Hfull & Hpart).
  rewrite (interaction_missing _ _ Hzero) in Hx.
  rewrite Hfull, Hpart.
  unfold score_of_row, cutoff_check, available_factors, uniform_data,
    main_zero_check, custom_one_check, score_sum, transformed, mental_health_vars.
  cbn [filter map fst snd List.length in_main_vars main_vars existsb String.eqb
       Ascii.eqb Bool.eqb orb negb forallb weight transformation min_val max_val].
  rewrite He, Hx.
  destruct (factor r "elevated") as [e|];
    cbn [notna List.length cell_eq andb negb fillna];
    repeat match goal with
      | |- context [Qle_bool ?a ?b] =>
          let v := eval vm_compute in (Qle_bool a b) in
          change (Qle_bool a b) with v
      end;
    cbn [andb negb].
  - split; [reflexivity|]. split; [|discriminate].
    intros e' [= <-]. rewrite andb_false_r. cbn [negb].
    eexists. split; [reflexivity|]. unfold qsum. cbn [fold_left]. ring.
  - split; [reflexivity|]. split; [discriminate|]. reflexivity.
Qed.

(** On a day with [elevated] and non-zero [anxiety] and [depressed],
    [mental_health] and [mental_health_partial] hold the same value:
    [elevated ** 2.8675 - 0.5 * (anxiety ** 6.6582 + depressed ** 6.6582) ** 0.5],
    not rescaled; NaN in the one degenerate case of [elevated] at 0 with the
    interaction at 1. *)
Theorem mental_health_formula
    (data : MoodFrame) (m : Metrics) (i : nat) (r : MoodRow) (a d e : Q) :
  calculate_mental_health_metrics pow_6_6582 pow_0_5 pow_2_8675 data = Ok m ->
  nonnegative_log data ->
  nth_error (rows data) i = Some r ->
  factor r "anxiety" = Some a -> ~ (a == 0)%Q ->
  factor r "depressed" = Some d -> ~ (d == 0)%Q ->
  factor r "elevated" = Some e ->
  exists s,
    nth_error (mental_health m) i = Some s
    /\ nth_error (mental_health_partial m) i = Some s
    /\ ((e == 0)%Q /\ (0.5 * pow_0_5 (pow_6_6582 a + pow_6_6582 d) == 1)%Q -> s = NaN)
    /\ (~ ((e == 0)%Q /\ (0.5 * pow_0_5 (pow_6_6582 a + pow_6_6582 d) == 1)%Q) ->
        exists q,
          s = Num q
          /\ (q == pow_2_8675 e - 0.5 * pow_0_5 (pow_6_6582 a + pow_6_6582 d))%Q).
Proof.
  intros Hm _ Hr Ha Ha0 Hd Hd0 He.
  destruct (mental_health_cells _ _ _ _ Hm Hr) as (r1 & He1 & Hx & Hfull & Hpart).
  rewrite Ha, Hd in Hx. rewrite He in He1.
  unfold interaction_of, power_or_nan in Hx.
  destruct (Qeq_bool a 0) eqn:Ea; [apply Qeq_bool_iff in Ea; contradiction|].
  destruct (Qeq_bool d 0) eqn:Ed; [apply Qeq_bool_iff in Ed; contradiction|].
  cbn [lift2 option_map] in Hx.
  assert (Hsame : score_of_row (mental_health_vars pow_2_8675) 0.5 false r1
                  = score_of_row (mental_health_vars pow_2_8675) 1 false r1).
  { unfold score_of_row, cutoff_check, available_factors, mental_health_vars.
    cbn [filter map fst snd List.length]. rewrite He1, Hx. reflexivity. }
  rewrite Hsame in Hpart.
  exists (score_of_row (mental_health_vars pow_2_8675) 1 false r1).
  split; [exact Hfull|]. split; [exact Hpart|].
  unfold score_of_row, cutoff_check, available_factors, uniform_data,
    main_zero_check, custom_one_check, score_sum, transformed, mental_health_vars.
  cbn [filter map fst snd List.length in_main_vars main_vars existsb String.eqb
       Ascii.eqb Bool.eqb orb negb forallb weight transformation min_val max_val].
  rewrite He1, Hx.
  cbn [notna List.length cell_eq andb negb fillna].
  repeat match goal with
    | |- context [Qle_bool ?x ?y] =>
        let v := eval vm_compute in (Qle_bool x y) in
        change (Qle_bool x y) with v
    end.
  rewrite !andb_true_r. cbn [andb].
  split.
  - intros [He0 Hx1].
    apply Qeq_bool_iff in He0, Hx1. rewrite He0, Hx1. reflexivity.
  - intros Hnot.
    destruct (Qeq_bool e 0 && Qeq_bool (0.5 * pow_0_5 (pow_6_6582 a + pow_6_6582 d)) 1)
      eqn:Hu.
    + exfalso. apply Hnot. apply andb_true_iff in Hu. destruct Hu as [H1 H2].
      split; apply Qeq_bool_iff; assumption.
    + cbn [negb]. eexists. split; [reflexivity|].
      unfold qsum, ident. cbn [fold_left]. ring.
Qed.

Lemma has_column_assign data name value k :
  has_column (assign_column data name value) k
  = has_column data k || String.eqb k name.
Proof.
  unfold assign_column, has_column at 1. cbn [columns].
  destruct (has_column data name) eqn:Hname.
  - fold (has_column data k).
    destruct (String.eqb k name) eqn:Hk; [|rewrite orb_false_r; reflexivity].
    apply String.eqb_eq in Hk. subst k. rewrite Hname. reflexivity.
  - rewrite existsb_app. cbn [existsb]. rewrite orb_false_r. reflexivity.
Qed.

Lemma calculate_score_present data vars_info cutoff exclude_dates rescale :
  columns_present data vars_info ->
  exists out,
    calculate_score data vars_info cutoff exclude_dates rescale = Ok out
    /\ List.length out = List.length (rows data).
Proof.
  intros Hcols.
  destruct (calculate_score data vars_info cutoff exclude_dates rescale) as [out|e] eqn:Hc.
  - exists out. split; [reflexivity|]. exact (calculate_score_length _ _ _ _ _ _ Hc).
  - exfalso. unfold calculate_score, columns_present in *. rewrite Hcols in Hc.
    discriminate.
Qed.

Lemma calculate_score_raise data vars_info cutoff exclude_dates rescale e :
  calculate_score data vars_info cutoff exclude_dates rescale = Raise e ->
  e = "KeyError"%string.
Proof.
  unfold calculate_score.
  destruct (negb _); [|discriminate]. intros [= <-]. reflexivity.
Qed.

Lemma interaction_cases data :
  (has_column data "anxiety" && has_column data "depressed" = true
   /\ anxiety_depression_interaction pow_6_6582 pow_0_5 data
      = Ok (assign_column data "anxiety_depression_interaction"
              (fun r => interaction_of pow_6_6582 pow_0_5
                          (factor r "anxiety") (factor r "depressed"))))
  \/ (has_column data "anxiety" && has_column data "depressed" = false
      /\ anxiety_depression_interaction pow_6_6582 pow_0_5 data = Raise "KeyError").
Proof.
  unfold anxiety_depression_interaction.
  destruct (has_column data "anxiety"), (has_column data "depressed"); cbn;
    intuition reflexivity.
Qed.

Lemma present_after_interaction data value (vars_info : ScoreDefinition) :
  (forall kv, In kv vars_info -> has_column data (fst kv) = true) ->
  columns_present (assign_column data "anxiety_depression_interaction" value) vars_info.
Proof.
  intros H. unfold columns_present. apply forallb_forall. intros kv Hin.
  rewrite has_column_assign, (H kv Hin). reflexivity.
Qed.

Lemma present_before_interaction data value (vars_info : ScoreDefinition) k :
  columns_present (assign_column data "anxiety_depression_interaction" value) vars_info ->
  In k (map fst vars_info) ->
  String.eqb k "anxiety_depression_interaction" = false ->
  has_column data k = true.
Proof.
  unfold columns_present. intros H Hin Hk. rewrite forallb_forall in H.
  apply in_map_iff in Hin. destruct Hin as (kv & <- & Hin).
  specialize (H kv Hin). rewrite has_column_assign, Hk, orb_false_r in H. exact H.
Qed.

Lemma metrics_ok_columns data m :
  calculate_mental_health_metrics pow_6_6582 pow_0_5 pow_2_8675 data = Ok m ->
  forallb (has_column data) log_columns = true.
Proof.
  unfold calculate_mental_health_metrics. intros H.
  destruct (interaction_cases data) as [[Hcols Hd]|[_ Hd]]; rewrite Hd in H;
    [|discriminate].
  cbn [bind] in H.
  apply bind_ok in H. destruct H as (mh & Hmh & H).
  apply bind_ok in H. destruct H as (swb & Hswb & H).
  apply bind_ok in H. destruct H as (ls & Hls & H).
  apply bind_ok in H. destruct H as (ws & Hws & _).
  apply calculate_score_columns in Hmh, Hswb, Hls, Hws.
  apply andb_true_iff in Hcols. destruct Hcols as [Hanx Hdep].
  assert (Hkeys : forall vars_info k,
             columns_present
               (assign_column data "anxiety_depression_interaction"
                  (fun r => interaction_of pow_6_6582 pow_0_5
                              (factor r "anxiety") (factor r "depressed")))
               vars_info ->
             forallb (fun k => negb (String.eqb k "anxiety_depression_interaction"))
                     (map fst vars_info) = true ->
             In k (map fst vars_info) -> has_column data k = true).
  { intros vars_info k Hp Hne Hin.
    apply (present_before_interaction _ _ _ _ Hp Hin).
    rewrite forallb_forall in Hne. apply negb_true_iff. apply Hne. exact Hin. }
  apply forallb_forall. intros k Hk. unfold log_columns in Hk.
  repeat (apply in_app_or in Hk; destruct Hk as [Hk|Hk]).
  - destruct Hk as [<-|[<-|[<-|[]]]]; [exact Hanx|exact Hdep|].
    apply (Hkeys _ _ Hswb); [reflexivity|]. left. reflexivity.
  - apply (Hkeys _ _ Hswb); [reflexivity|exact Hk].
  - apply (Hkeys _ _ Hls); [reflexivity|exact Hk].
  - apply (Hkeys _ _ Hws); [reflexivity|exact Hk].
Qed.

Lemma metrics_raise data e :
  calculate_mental_health_metrics pow_6_6582 pow_0_5 pow_2_8675 data = Raise e ->
  e = "KeyError"%string.
Proof.
  unfold calculate_mental_health_metrics. intros H.
  destruct (interaction_cases data) as [[_ Hd]|[_ Hd]]; rewrite Hd in H;
    [|injection H as <-; reflexivity].
  cbn [bind] in H.
  repeat match type of H with
    | bind ?x _ = Raise _ =>
        let Hx := fresh "Hx" in
        destruct x eqn:Hx;
        [cbn [bind] in H
        |cbn [bind] in H; injection H as <-;
         exact (calculate_score_raise _ _ _ _ _ _ Hx)]
    end.
  discriminate.
Qed.

(** [calculate_mental_health_metrics] returns its eight score columns, each
    with one cell per row of the log, when the log has [anxiety],
    [depressed] and every factor column of the four definitions; when one of
    them is missing it fails with a [KeyError]. *)
Theorem metrics_need_every_column (data : MoodFrame) :
  (forallb (has_column data) log_columns = true ->
   exists m,
     calculate_mental_health_metrics pow_6_6582 pow_0_5 pow_2_8675 data = Ok m
     /\ Forall (fun column => List.length column = List.length (rows data))
          [ mental_health m; subjective_well_being m; life_satisfaction m;
            work_satisfaction m; mental_health_partial m;
            subjective_well_being_partial m; life_satisfaction_partial m;
            work_satisfaction_partial m ])
  /\ (forallb (has_column data) log_columns = false ->
      calculate_mental_health_metrics pow_6_6582 pow_0_5 pow_2_8675 data
      = Raise "KeyError").
Proof.
  split.
  - intros Hall. rewrite forallb_forall in Hall.
    assert (Hin : forall (vars_info : ScoreDefinition),
               forallb (fun kv => existsb (String.eqb (fst kv)) log_columns) vars_info
               = true ->
               forall kv, In kv vars_info -> has_column data (fst kv) = true).
    { intros vars_info Hsub kv Hkv. rewrite forallb_forall in Hsub.
      specialize (Hsub kv Hkv). apply existsb_exists in Hsub.
      destruct Hsub as (k & Hk & Heq). apply String.eqb_eq in Heq. rewrite Heq.
      apply Hall. exact Hk. }
    unfold calculate_mental_health_metrics.
    destruct (interaction_cases data) as [[_ Hd]|[Hcols _]].
    2:{ rewrite (Hall "anxiety"%string), (Hall "depressed"%string) in Hcols;
          [discriminate| |]; unfold log_columns; cbn; auto. }
    rewrite Hd. cbn [bind].
    set (data1 := assign_column data _ _).
    assert (Hrows : List.length (rows data1) = List.length (rows data)).
    { unfold data1, assign_column. cbn [rows]. apply length_map. }
    assert (Hmh : columns_present data1 (mental_health_vars pow_2_8675)).
    { unfold columns_present, data1, mental_health_vars. cbn [forallb fst].
      rewrite !has_column_assign. cbn [String.eqb Ascii.eqb Bool.eqb].
      rewrite (Hall "elevated"%string) by (unfold log_columns; cbn; auto).
      rewrite orb_true_r. reflexivity. }
    assert (Hswb : columns_present data1 subjective_well_being_vars)
      by (apply present_after_interaction, Hin; reflexivity).
    assert (Hls : columns_present data1 life_satisfaction_vars)
      by (apply present_after_interaction, Hin; reflexivity).
    assert (Hws : columns_present data1 work_satisfaction_vars)
      by (apply present_after_interaction, Hin; reflexivity).
    destruct (calculate_score_present data1 _ 1 default_exclude_dates false Hmh)
      as (c1 & -> & L1).
    destruct (calculate_score_present data1 _ 1 default_exclude_dates true Hswb)
      as (c2 & -> & L2).
    destruct (calculate_score_present data1 _ 1 default_exclude_dates true Hls)
      as (c3 & -> & L3).
    destruct (calculate_score_present data1 _ 1 default_exclude_dates true Hws)
      as (c4 & -> & L4).
    destruct (calculate_score_present data1 _ 0.5 default_exclude_dates false Hmh)
      as (c5 & -> & L5).
    destruct (calculate_score_present data1 _ 0.5 default_exclude_dates true Hswb)
      as (c6 & -> & L6).
    destruct (calculate_score_present data1 _ 0.5 default_exclude_dates true Hls)
      as (c7 & -> & L7).
    destruct (calculate_score_present data1 _ 0.5 default_exclude_dates true Hws)
      as (c8 & -> & L8).
    cbn [bind]. eexists. split; [reflexivity|].
    cbn [mental_health subjective_well_being life_satisfaction work_satisfaction
         mental_health_partial subjective_well_being_partial
         life_satisfaction_partial work_satisfaction_partial].
    repeat constructor; congruence.
  - intros Hmissing.
    destruct (calculate_mental_health_metrics pow_6_6582 pow_0_5 pow_2_8675 data)
      as [m|e] eqn:Hm.
    + apply metrics_ok_columns in Hm. congruence.
    + apply metrics_raise in Hm. subst e. reflexivity.
Qed.

End MentalHealthFacts.

Lemma zero_anxiety_or_depression_voids_the_strict_score_witness :
  exists m,
    MoodLog.calculate_mental_health_metrics Scoring.ident Scoring.ident Scoring.square
      MoodLogSpec.sample_log = Py.Ok m
    /\ MoodLogSpec.nonnegative_log MoodLogSpec.sample_log
    /\ nth_error (Scoring.rows MoodLogSpec.sample_log) 0
       = Some (MoodLogSpec.day_with_anxiety (Dates.date_of_ymd 2024 1 1) 0)
    /\ nth_error (MoodLog.mental_health m) 0 = Some Py.NaN
    /\ exists q, nth_error (MoodLog.mental_health_partial m) 0 = Some (Py.Num q)
                 /\ (q == Scoring.square 2)%Q.
Proof.
  eexists. split; [vm_compute; reflexivity|].
  assert (Hnn : MoodLogSpec.nonnegative_log MoodLogSpec.sample_log)
    by (repeat constructor; vm_compute; discriminate).
  split; [exact Hnn|]. split; [reflexivity|].
  destruct (zero_anxiety_or_depression_voids_the_strict_score
              Scoring.ident Scoring.ident Scoring.square
              MoodLogSpec.sample_log _ 0%nat
              (MoodLogSpec.day_with_anxiety (Dates.date_of_ymd 2024 1 1) 0)
              eq_refl Hnn eq_refl eq_refl) as (Hfull & Hpart & _).
  split; [exact Hfull|]. exact (Hpart 2%Q eq_refl).
Defined.

Lemma mental_health_formula_witness :
  exists m,
    MoodLog.calculate_mental_health_metrics Scoring.ident Scoring.ident Scoring.square
      MoodLogSpec.sample_log = Py.Ok m
    /\ MoodLogSpec.nonnegative_log MoodLogSpec.sample_log
    /\ nth_error (Scoring.rows MoodLogSpec.sample_log) 1
       = Some (MoodLogSpec.day_with_anxiety (Dates.date_of_ymd 2024 1 2) 3)
    /\ exists q,
         nth_error (MoodLog.mental_health m) 1 = Some (Py.Num q)
         /\ nth_error (MoodLog.mental_health_partial m) 1 = Some (Py.Num q)
         /\ (q == 3 # 2)%Q.
Proof.
  eexists. split; [vm_compute; reflexivity|].
  assert (Hnn : MoodLogSpec.nonnegative_log MoodLogSpec.sample_log)
    by (repeat constructor; vm_compute; discriminate).
  split; [exact Hnn|]. split; [reflexivity|].
  destruct (mental_health_formula
              Scoring.ident Scoring.ident Scoring.square
              MoodLogSpec.sample_log _ 1%nat
              (MoodLogSpec.day_with_anxiety (Dates.date_of_ymd 2024 1 2) 3)
              3 2 2 eq_refl Hnn eq_refl eq_refl
              ltac:(vm_compute; discriminate) eq_refl
              ltac:(vm_compute; discriminate) eq_refl)
    as (s & Hfull & Hpart & _ & Hval).
  destruct Hval as (q & -> & Hq).
  { intros [H0 _]. revert H0. vm_compute. discriminate. }
  exists q. split; [exact Hfull|]. split; [exact Hpart|].
  rewrite Hq. vm_compute. reflexivity.
Defined.

(* ================================================================== *)
(** ** The body-mass table *)

Section WeightFacts.
Import Py Reconciler Volume BodyMass BodyMassSpec.

Lemma interpolate_from_length prev l :
  List.length (interpolate_from prev l) = List.length l.
Proof.
  revert prev. induction l as [|[v|] l IH]; intros prev; cbn [interpolate_from].
  - reflexivity.
  - cbn [List.length]. rewrite IH. reflexivity.
  - destruct prev as [[p k]|]; cbn [List.length]; rewrite IH; reflexivity.
Qed.

Lemma interpolate_from_keeps prev l i v :
  nth_error l i = Some (Some v) ->
  nth_error (interpolate_from prev l) i = Some (Some v).
Proof.
  revert prev i. induction l as [|[w|] l IH]; intros prev [|i] H;
    cbn [interpolate_from]; try discriminate.
  - exact H.
  - cbn [nth_error] in *. apply IH. exact H.
  - destruct prev as [[p k]|]; cbn [nth_error] in *; apply IH; exact H.
Qed.

Lemma interpolate_from_numbers p k l :
  Forall (fun c => c <> None) (interpolate_from (Some (p, k)) l).
Proof.
  revert p k. induction l as [|[w|] l IH]; intros p k; cbn [interpolate_from].
  - constructor.
  - constructor; [discriminate|apply IH].
  - constructor; [discriminate|apply IH].
Qed.

Lemma qmin_cases x y :
  (qmin x y = x /\ (x <= y)%Q) \/ (qmin x y = y /\ (y <= x)%Q).
Proof.
  unfold qmin. destruct (Qle_bool x y) eqn:E.
  - left. split; [reflexivity|]. apply Qle_bool_iff. exact E.
  - right. split; [reflexivity|].
    destruct (Qlt_le_dec y x) as [H|H]; [apply Qlt_le_weak; exact H|].
    apply Qle_bool_iff in H. congruence.
Qed.

Lemma fold_cell_min_spec l a :
  match fold_left cell_min l a with
  | Some m => In (Some m) (a :: l) /\ forall w, In (Some w) (a :: l) -> (m <= w)%Q
  | None => forall c, In c (a :: l) -> c = None
  end.
Proof.
  revert a. induction l as [|c l IH]; intros a; cbn [fold_left].
  - destruct a as [x|].
    + split; [left; reflexivity|]. intros w [[= <-]|[]]. apply Qle_refl.
    + intros c [<-|[]]. reflexivity.
  - specialize (IH (cell_min a c)).
    destruct (fold_left cell_min l (cell_min a c)) as [m|].
    + destruct IH as [Hin Hle]. split.
      * destruct Hin as [Hin|Hin]; [|right; right; exact Hin].
        destruct a as [x|], c as [y|]; cbn [cell_min] in Hin;
          try (injection Hin as <-); try discriminate.
        -- destruct (qmin_cases x y) as [[-> _]|[-> _]];
             [left; reflexivity|right; left; reflexivity].
        -- left. reflexivity.
        -- right. left. reflexivity.
      * intros w Hw.
        assert (Hmerge : exists u, In (Some u) (cell_min a c :: l) /\ (u <= w)%Q).
        { destruct Hw as [->|[->|Hw]].
          - destruct c as [y|]; cbn [cell_min].
            + destruct (qmin_cases w y) as [[E H]|[E H]]; rewrite E.
              * exists w. split; [left; reflexivity|apply Qle_refl].
              * exists y. split; [left; reflexivity|exact H].
            + exists w. split; [left; reflexivity|apply Qle_refl].
          - destruct a as [x|]; cbn [cell_min].
            + destruct (qmin_cases x w) as [[E H]|[E H]]; rewrite E.
              * exists x. split; [left; reflexivity|exact H].
              * exists w. split; [left; reflexivity|apply Qle_refl].
            + exists w. split; [left; reflexivity|apply Qle_refl].
          - exists w. split; [right; exact Hw|apply Qle_refl]. }
        destruct Hmerge as (u & Hu & Huw).
        apply Qle_trans with u; [apply Hle; exact Hu|exact Huw].
    + intros c' Hc'.
      assert (Hac : cell_min a c = None) by (apply IH; left; reflexivity).
      destruct Hc' as [<-|[<-|Hc']].
      * destruct a as [x|]; [destruct c; discriminate|reflexivity].
      * destruct a as [x|], c as [y|]; try discriminate; reflexivity.
      * apply IH. right. exact Hc'.
Qed.

Lemma nanmin_spec l :
  match nanmin l with
  | Some m => In (Some m) l /\ forall w, In (Some w) l -> (m <= w)%Q
  | None => forall c, In c l -> c = None
  end.
Proof.
  unfold nanmin. pose proof (fold_cell_min_spec l None) as H.
  destruct (fold_left cell_min l None) as [m|].
  - destruct H as [Hin Hle]. split.
    + destruct Hin as [Hin|Hin]; [discriminate|exact Hin].
    + intros w Hw. apply Hle. right. exact Hw.
  - intros c Hc. apply H. right. exact Hc.
Qed.

Lemma days_from_sorted lo hi : StronglySorted Z.lt (days_from lo hi).
Proof.
  unfold days_from. generalize (Z.to_nat (hi - lo + 1)) as n. generalize 0%nat as a.
  intros a n. revert a. induction n as [|n IH]; intros a; cbn [seq map].
  - constructor.
  - constructor; [apply IH|].
    apply Forall_forall. intros y Hy. apply in_map_iff in Hy.
    destruct Hy as (i & <- & Hi). apply in_seq in Hi. lia.
Qed.

Lemma map_fst_combine_same {A B} (xs : list A) (ys : list B) :
  List.length xs = List.length ys -> map fst (combine xs ys) = xs.
Proof.
  revert ys. induction xs as [|x xs IH]; intros [|y ys] H; cbn in *;
    try discriminate; [reflexivity|]. f_equal. apply IH. lia.
Qed.

Lemma in_combine_nth {A B} (xs : list A) (ys : list B) x y :
  In (x, y) (combine xs ys) <->
  exists i, nth_error xs i = Some x /\ nth_error ys i = Some y.
Proof.
  revert ys. induction xs as [|a xs IH]; intros [|b ys]; cbn [combine].
  - split; [intros []|intros ([|i] & H & _); discriminate].
  - split; [intros []|intros ([|i] & H & _); discriminate].
  - split; [intros []|intros ([|i] & _ & H); discriminate].
  - split.
    + intros [[= <- <-]|Hin].
      * exists 0%nat. split; reflexivity.
      * apply IH in Hin. destruct Hin as (i & H1 & H2). exists (S i). split; assumption.
    + intros ([|i] & H1 & H2); cbn [nth_error] in *.
      * left. congruence.
      * right. apply IH. exists i. split; assumption.
Qed.

Lemma group_one_day d block ds :
  block <> [] -> Forall (fun d' => d' = d) block -> Forall (fun d' => d < d') ds ->
  fold_right insert_date ds block = d :: ds.
Proof.
  intros Hne Hall Hlt.
  assert (Hhead : insert_date d ds = d :: ds).
  { destruct ds as [|d' ds']; [reflexivity|]. cbn [insert_date].
    inversion Hlt as [|? ? Hd _]; subst.
    apply Z.compare_lt_iff in Hd. rewrite Hd. reflexivity. }
  assert (Hagain : insert_date d (d :: ds) = d :: ds).
  { cbn [insert_date]. rewrite Z.compare_refl. reflexivity. }
  induction block as [|x block IH]; [contradiction|].
  inversion Hall as [|? ? Hx Hall']; subst. cbn [fold_right].
  destruct block as [|y block'].
  - cbn [fold_right]. exact Hhead.
  - rewrite IH; [exact Hagain|discriminate|exact Hall'].
Qed.

Lemma group_dates_of_join (dates : list Z) (data : Frame cell) :
  StronglySorted Z.lt dates ->
  fold_right insert_date []
    (map (@j_date cell)
       (merge_left cell (map (fun d => (d, None)) dates) (on_date cell) data))
  = dates.
Proof.
  induction 1 as [|d dates Hsorted IH Hlt]; [reflexivity|].
  cbn [map].
  change (merge_left cell ((d, None) :: map (fun d0 => (d0, None)) dates)
            (on_date cell) data)
    with ((match filter (on_date cell (d, None)) (rows data) with
           | [] => [mkJoined cell d None None]
           | found => map (fun o => mkJoined cell d None (Some (snd o))) found
           end)
          ++ merge_left cell (map (fun d0 => (d0, None)) dates) (on_date cell) data).
  rewrite map_app, fold_right_app, IH.
  apply group_one_day; [| |exact Hlt].
  - destruct (filter _ _); cbn; discriminate.
  - destruct (filter _ _) as [|o found].
    + constructor; [reflexivity|constructor].
    + apply Forall_forall. intros x Hx. rewrite map_map in Hx. cbn [j_date] in Hx.
      apply in_map_iff in Hx. destruct Hx as (o' & <- & _). reflexivity.
Qed.

(** The joined frame of [wrangle_weight_data]. *)
Lemma wrangle_weight_data_cases data today :
  (body_mass_records data = []
   /\ wrangle_weight_data data today = Raise "ValueError")
  \/ (exists lo,
        series_min (map fst (body_mass_records data)) = Some lo
        /\ wrangle_weight_data data today
           = Ok (body_mass_table
                   (merge_left cell (map (fun d => (d, None)) (days_from lo today))
                      (on_date cell) (mkFrame Datetime64 (body_mass_records data))))).
Proof.
  unfold wrangle_weight_data, join_dates. cbn [rows].
  destruct (body_mass_records data) as [|o obs] eqn:Hobs.
  - left. split; reflexivity.
  - right. cbn [map series_min date_range]. eexists. split; [reflexivity|].
    cbn [fst bind]. unfold to_datetime. cbn [rows]. reflexivity.
Qed.

Lemma in_body_mass_records data d v :
  In (d, v) (body_mass_records data) <->
  exists r, In r data /\ type r = "BodyMass"%string /\ date r = d /\ value r = v.
Proof.
  unfold body_mass_records. rewrite in_map_iff. split.
  - intros (r & [= <- <-] & Hr). apply filter_In in Hr. destruct Hr as [Hr Ht].
    apply String.eqb_eq in Ht. exists r. repeat split; assumption.
  - intros (r & Hr & Ht & <- & <-). exists r. split; [reflexivity|].
    apply filter_In. split; [exact Hr|]. apply String.eqb_eq. exact Ht.
Qed.

Lemma body_mass_table_dates (joined : list (Joined cell)) :
  map fst (body_mass_table joined)
  = fold_right insert_date [] (map (@j_date cell) joined).
Proof.
  unfold body_mass_table. rewrite map_map. cbn [fst]. rewrite map_id.
  rewrite map_fst_combine_same; [reflexivity|].
  unfold interpolate. rewrite !length_map, interpolate_from_length, length_map.
  reflexivity.
Qed.

(** When the export has a body-mass record, [wrangle_weight_data] returns a
    table with exactly one row for every day from the earliest body-mass
    record to [today], in date order; records of other types play no part. *)
Theorem weight_table_has_one_row_per_day
    (data : list HealthRecord) (today : Z) (r : HealthRecord) :
  In r data -> type r = "BodyMass"%string ->
  exists lo out,
    wrangle_weight_data data today = Ok out
    /\ map fst out = days_from lo today
    /\ (exists r0, In r0 data /\ type r0 = "BodyMass"%string /\ date r0 = lo)
    /\ (forall r', In r' data -> type r' = "BodyMass"%string -> lo <= date r').
Proof.
  intros Hr Ht.
  destruct (wrangle_weight_data_cases data today) as [[Hnone _]|(lo & Hlo & Hw)].
  { assert (Hin : In (date r, value r) (body_mass_records data))
      by (apply in_body_mass_records; exists r; repeat split; assumption).
    rewrite Hnone in Hin. destruct Hin. }
  exists lo. eexists. split; [exact Hw|].
  apply series_min_spec in Hlo. destruct Hlo as [Hin Hle].
  split; [|split].
  - rewrite body_mass_table_dates. apply group_dates_of_join, days_from_sorted.
  - apply in_map_iff in Hin. destruct Hin as ([d v] & <- & Hin).
    apply in_body_mass_records in Hin. destruct Hin as (r0 & H0 & Ht0 & Hd0 & _).
    exists r0. repeat split; assumption.
  - intros r' Hr' Ht'. apply Hle. apply in_map_iff.
    exists (date r', value r'). split; [reflexivity|].
    apply in_body_mass_records. exists r'. repeat split; assumption.
Qed.

(** Without any body-mass record [wrangle_weight_data] fails: the date range
    from the missing minimum date is refused with a [ValueError]. *)
Theorem weight_table_needs_a_measurement (data : list HealthRecord) (today : Z) :
  (forall r, In r data -> type r <> "BodyMass"%string) ->
  wrangle_weight_data data today = Raise "ValueError".
Proof.
  intros Hnone.
  destruct (wrangle_weight_data_cases data today) as [[_ Hw]|(lo & Hlo & _)];
    [exact Hw|].
  apply series_min_spec in Hlo. destruct Hlo as [Hin _].
  apply in_map_iff in Hin. destruct Hin as ([d v] & _ & Hin).
  apply in_body_mass_records in Hin. destruct Hin as (r & Hr & Ht & _).
  destruct (Hnone r Hr Ht).
Qed.

(** The rows of the frame before the [groupby]: the row at each position of
    the joined frame, with its body mass. *)
Lemma in_body_mass_rows (joined : list (Joined cell)) d b :
  In (d, b)
     (combine (map (@j_date cell) joined)
        (map (fun v => lift2 Qmult v (Some 2.20462%Q))
           (interpolate (map joined_value joined))))
  <-> exists i j v,
        nth_error joined i = Some j /\ j_date j = d
        /\ nth_error (interpolate (map joined_value joined)) i = Some v
        /\ b = lift2 Qmult v (Some 2.20462%Q).
Proof.
  rewrite in_combine_nth. split.
  - intros (i & Hd & Hb). rewrite nth_error_map in Hd, Hb.
    destruct (nth_error joined i) as [j|] eqn:Hj; [|discriminate].
    destruct (nth_error (interpolate (map joined_value joined)) i) as [v|] eqn:Hv;
      [|discriminate].
    cbn in Hd, Hb. exists i, j, v. repeat split; congruence.
  - intros (i & j & v & Hj & Hd & Hv & ->). exists i.
    rewrite !nth_error_map, Hj, Hv. cbn. rewrite Hd. split; reflexivity.
Qed.

Lemma in_body_mass_table (joined : list (Joined cell)) d m :
  In (d, m) (body_mass_table joined) ->
  In d (map (@j_date cell) joined)
  /\ m = nanmin
           (map snd
              (filter (fun row => fst row =? d)
                 (combine (map (@j_date cell) joined)
                    (map (fun v => lift2 Qmult v (Some 2.20462%Q))
                       (interpolate (map joined_value joined)))))).
Proof.
  intros Hin.
  assert (Hd : In d (map fst (body_mass_table joined)))
    by (apply in_map_iff; exists (d, m); split; [reflexivity|exact Hin]).
  rewrite body_mass_table_dates in Hd.
  split.
  - clear Hin. induction (map (@j_date cell) joined) as [|x xs IH]; [destruct Hd|].
    cbn [fold_right] in Hd. apply in_insert_date in Hd.
    destruct Hd as [->|Hd]; [left; reflexivity|right; apply IH; exact Hd].
  - unfold body_mass_table in Hin. apply in_map_iff in Hin.
    destruct Hin as (d' & [= <- <-] & _). reflexivity.
Qed.

Lemma in_day_group {B} (rows : list (Z * B)) d b :
  In b (map snd (filter (fun row => fst row =? d) rows)) <-> In (d, b) rows.
Proof.
  rewrite in_map_iff. split.
  - intros ([d' b'] & <- & Hin). apply filter_In in Hin. destruct Hin as [Hin Hd].
    cbn in Hd. apply Z.eqb_eq in Hd. subst d'. exact Hin.
  - intros Hin. exists (d, b). split; [reflexivity|].
    apply filter_In. split; [exact Hin|]. cbn. apply Z.eqb_refl.
Qed.

(** With numbers in every body-mass record, the rows of the joined frame
    dated on a measured day are the measurements of that day. *)
Lemma joined_measured_day data lo today d x0 j :
  all_numeric data -> measured data d x0 ->
  In j (merge_left cell (map (fun d => (d, None)) (days_from lo today))
          (on_date cell) (mkFrame Datetime64 (body_mass_records data))) ->
  j_date j = d ->
  exists x, measured data d x /\ joined_value j = Some x.
Proof.
  intros Hnum (r0 & Hr0 & Ht0 & Hd0 & Hv0) Hj Hd.
  apply in_merge_left in Hj. destruct Hj as (key & _ & Hdate & _ & Hrow).
  cbn [rows] in Hrow. destruct Hrow as [([d' v] & Ho & Hmatch & Hrow)|[_ Hnone]].
  - unfold on_date in Hmatch. cbn [fst] in Hmatch. apply Z.eqb_eq in Hmatch.
    apply in_body_mass_records in Ho. destruct Ho as (r & Hr & Ht & Hdr & Hvr).
    destruct v as [x|]; [|exfalso; apply (Hnum r Hr Ht); exact Hvr].
    exists x. split.
    + exists r. repeat split; try assumption. congruence.
    + unfold joined_value. rewrite Hrow. reflexivity.
  - exfalso. specialize (Hnone (d, Some x0)).
    unfold on_date in Hnone. cbn [fst] in Hnone.
    rewrite <- Hdate, Hd, Z.eqb_refl in Hnone.
    assert (Hin : In (d, Some x0) (body_mass_records data))
      by (apply in_body_mass_records; exists r0; repeat split; assumption).
    specialize (Hnone Hin). discriminate.
Qed.

(** With a number in every body-mass record, the [body_mass] of a day that
    has records is the smallest of the day's values, converted to pounds by
    the factor 2.20462; the interpolation leaves it alone. *)
Theorem body_mass_of_a_measured_day
    (data : list HealthRecord) (today : Z) (out : list (Z * cell))
    (d : Z) (m : cell) (x0 : Q) :
  all_numeric data ->
  wrangle_weight_data data today = Ok out ->
  In (d, m) out ->
  measured data d x0 ->
  exists x,
    measured data d x
    /\ m = Some (x * 2.20462)%Q
    /\ forall x', measured data d x' -> (x * 2.20462 <= x' * 2.20462)%Q.
Proof.
  intros Hnum Hw Hin Hmeasured.
  destruct (wrangle_weight_data_cases data today) as [[_ Hw']|(lo & Hlo & Hw')];
    rewrite Hw' in Hw; [discriminate|]. injection Hw as <-.
  set (joined := merge_left cell _ _ _) in *.
  apply in_body_mass_table in Hin. destruct Hin as [Hday ->].
  (* every row of the day holds a measurement of the day *)
  assert (Hrows : forall b,
             In (d, b)
                (combine (map (@j_date cell) joined)
                   (map (fun v => lift2 Qmult v (Some 2.20462%Q))
                      (interpolate (map joined_value joined)))) ->
             exists x, measured data d x /\ b = Some (x * 2.20462)%Q).
  { intros b Hb. apply in_body_mass_rows in Hb.
    destruct Hb as (i & j & v & Hj & Hd & Hv & ->).
    destruct (joined_measured_day data lo today d x0 j Hnum Hmeasured
                (nth_error_In _ _ Hj) Hd) as (x & Hx & Hval).
    assert (Hkeep : nth_error (interpolate (map joined_value joined)) i = Some (Some x)).
    { apply interpolate_from_keeps. rewrite nth_error_map, Hj. cbn. rewrite Hval.
      reflexivity. }
    rewrite Hkeep in Hv. injection Hv as <-. exists x. split; [exact Hx|reflexivity]. }
  (* every measurement of the day is in a row of the day *)
  assert (Hall : forall x', measured data d x' ->
             In (d, Some (x' * 2.20462)%Q)
                (combine (map (@j_date cell) joined)
                   (map (fun v => lift2 Qmult v (Some 2.20462%Q))
                      (interpolate (map joined_value joined))))).
  { intros x' (r & Hr & Ht & Hd & Hv).
    assert (Hj : In (mkJoined cell d None (Some (Some x'))) joined).
    { apply in_merge_left. exists (d, None). split.
      - apply in_map_iff in Hday. destruct Hday as (j0 & Hd0 & Hj0).
        apply in_merge_left in Hj0. destruct Hj0 as (key & Hkey & Hdate & _).
        apply in_map_iff in Hkey. destruct Hkey as (d1 & <- & Hd1).
        cbn [fst] in Hdate. apply in_map_iff. exists d1. split; [|exact Hd1].
        congruence.
      - cbn [j_date j_metric j_row fst snd rows]. split; [reflexivity|].
        split; [reflexivity|]. left. exists (d, Some x'). split.
        + apply in_body_mass_records. exists r. repeat split; assumption.
        + split; [|reflexivity]. unfold on_date. cbn. apply Z.eqb_refl. }
    apply In_nth_error in Hj. destruct Hj as (i & Hi).
    apply in_body_mass_rows.
    exists i, (mkJoined cell d None (Some (Some x'))), (Some x'). split; [exact Hi|].
    split; [reflexivity|]. split; [|reflexivity].
    apply interpolate_from_keeps. rewrite nth_error_map, Hi. reflexivity. }
  pose proof (nanmin_spec
                (map snd
                   (filter (fun row => fst row =? d)
                      (combine (map (@j_date cell) joined)
                         (map (fun v => lift2 Qmult v (Some 2.20462%Q))
                            (interpolate (map joined_value joined))))))) as Hmin.
  destruct (nanmin _) as [q|].
  - destruct Hmin as [Hq Hle]. apply in_day_group in Hq.
    destruct (Hrows _ Hq) as (x & Hx & [= ->]).
    exists x. split; [exact Hx|]. split; [reflexivity|].
    intros x' Hx'. apply Hle. apply in_day_group. apply Hall. exact Hx'.
  - exfalso. specialize (Hmin (Some (x0 * 2.20462)%Q)).
    assert (Hin : In (Some (x0 * 2.20462)%Q)
                     (map snd
                        (filter (fun row => fst row =? d)
                           (combine (map (@j_date cell) joined)
                              (map (fun v => lift2 Qmult v (Some 2.20462%Q))
                                 (interpolate (map joined_value joined)))))))
      by (apply in_day_group, Hall; exact Hmeasured).
    specialize (Hmin Hin). discriminate.
Qed.


Lemma next_valid_in l j q : next_valid l = Some (j, q) -> In (Some q) l.
Proof.
  revert j. induction l as [|[v|] l IH]; intros j H; cbn [next_valid] in H.
  - discriminate.
  - injection H as _ <-. left. reflexivity.
  - destruct (next_valid l) as [[j' q']|]; [|discriminate].
    injection H as _ <-. right. apply (IH j'). reflexivity.
Qed.

Lemma on_the_line (a b p q : Q) (k j : nat) :
  (a <= p /\ p <= b)%Q -> (a <= q /\ q <= b)%Q ->
  (a <= (q - p) / inject_Z (Z.of_nat (S k + S j)) * inject_Z (Z.of_nat (S k)) + p
   /\ (q - p) / inject_Z (Z.of_nat (S k + S j)) * inject_Z (Z.of_nat (S k)) + p <= b)%Q.
Proof.
  intros [Hap Hpb] [Haq Hqb].
  set (t := (inject_Z (Z.of_nat (S k)) / inject_Z (Z.of_nat (S k + S j)))%Q).
  assert (Hn : (0 < inject_Z (Z.of_nat (S k + S j)))%Q).
  { change 0%Q with (inject_Z 0). rewrite <- Zlt_Qlt. lia. }
  assert (Ht0 : (0 <= t)%Q).
  { unfold t. apply Qle_shift_div_l; [exact Hn|]. rewrite Qmult_0_l.
    change 0%Q with (inject_Z 0). rewrite <- Zle_Qle. lia. }
  assert (Ht1 : (t <= 1)%Q).
  { unfold t. apply Qle_shift_div_r; [exact Hn|]. rewrite Qmult_1_l.
    rewrite <- Zle_Qle. lia. }
  assert (Heq : ((q - p) / inject_Z (Z.of_nat (S k + S j)) * inject_Z (Z.of_nat (S k)) + p
                 == p + (q - p) * t)%Q).
  { unfold t. field. intros H0. rewrite H0 in Hn. apply (Qlt_irrefl 0). exact Hn. }
  rewrite Heq. clearbody t. clear Heq Hn. split; nra.
Qed.

Lemma interpolate_from_range (a b : Q) prev l :
  (forall v, In (Some v) l -> (a <= v /\ v <= b)%Q) ->
  match prev with Some (p, _) => (a <= p /\ p <= b)%Q | None => True end ->
  forall v, In (Some v) (interpolate_from prev l) -> (a <= v /\ v <= b)%Q.
Proof.
  revert prev. induction l as [|[w|] l IH]; intros prev Hl Hprev v Hv;
    cbn [interpolate_from] in Hv.
  - destruct Hv.
  - destruct Hv as [[= <-]|Hv]; [apply Hl; left; reflexivity|].
    apply (IH (Some (w, O))); [intros u Hu; apply Hl; right; exact Hu| |exact Hv].
    apply Hl. left. reflexivity.
  - destruct prev as [[p k]|].
    + destruct Hv as [[= <-]|Hv].
      * destruct (next_valid l) as [[j q]|] eqn:Hnext; [|exact Hprev].
        apply on_the_line; [exact Hprev|].
        apply Hl. right. apply (next_valid_in _ j). exact Hnext.
      * apply (IH (Some (p, S k))); [intros u Hu; apply Hl; right; exact Hu| |exact Hv].
        exact Hprev.
    + destruct Hv as [Hv|Hv]; [discriminate|].
      apply (IH None); [intros u Hu; apply Hl; right; exact Hu|exact I|exact Hv].
Qed.

Lemma joined_starts_with_a_number data lo today :
  all_numeric data ->
  series_min (map fst (body_mass_records data)) = Some lo ->
  let joined := merge_left cell (map (fun d => (d, None)) (days_from lo today))
                  (on_date cell) (mkFrame Datetime64 (body_mass_records data)) in
  joined = [] \/ exists x t, map joined_value joined = Some x :: t.
Proof.
  intros Hnum Hlo joined. subst joined.
  unfold days_from. destruct (Z.to_nat (today - lo + 1)) as [|n]; [left; reflexivity|].
  right. cbn [seq map]. rewrite Z.add_0_r.
  change (merge_left cell ((lo, None) :: ?keys) (on_date cell) ?data)
    with ((match filter (on_date cell (lo, None)) (rows data) with
           | [] => [mkJoined cell lo None None]
           | found => map (fun o => mkJoined cell lo None (Some (snd o))) found
           end)
          ++ merge_left cell keys (on_date cell) data).
  cbn [rows].
  apply series_min_spec in Hlo. destruct Hlo as [Hin _].
  apply in_map_iff in Hin. destruct Hin as ([d v] & Hd & Hin). cbn in Hd. subst d.
  assert (Hfound : In (lo, v) (filter (on_date cell (lo, None)) (body_mass_records data))).
  { apply filter_In. split; [exact Hin|]. unfold on_date. cbn. apply Z.eqb_refl. }
  destruct (filter (on_date cell (lo, None)) (body_mass_records data)) as [|[d1 v1] found]
    eqn:Hf; [destruct Hfound|].
  assert (H1 : In (d1, v1) (body_mass_records data)).
  { assert (H : In (d1, v1) (filter (on_date cell (lo, None)) (body_mass_records data)))
      by (rewrite Hf; left; reflexivity).
    apply filter_In in H. tauto. }
  apply in_body_mass_records in H1. destruct H1 as (r & Hr & Ht & _ & Hv).
  destruct v1 as [x|]; [|exfalso; apply (Hnum r Hr Ht); exact Hv].
  exists x. eexists. cbn [map app joined_value j_row snd]. reflexivity.
Qed.

(** With a number in every body-mass record, every day of the table has a
    [body_mass], and it lies between the smallest and the largest recorded
    value (in pounds): the days without record are filled on the line between
    the neighbouring records, or with the last record once there is no later
    one. *)
Theorem body_mass_stays_within_the_measurements
    (data : list HealthRecord) (today : Z) (out : list (Z * cell))
    (a b : Q) (d : Z) (m : cell) :
  all_numeric data ->
  (forall d' x, measured data d' x -> (a <= x /\ x <= b)%Q) ->
  wrangle_weight_data data today = Ok out ->
  In (d, m) out ->
  exists q, m = Some q /\ (a * 2.20462 <= q /\ q <= b * 2.20462)%Q.
Proof.
  intros Hnum Hrange Hw Hin.
  destruct (wrangle_weight_data_cases data today) as [[_ Hw']|(lo & Hlo & Hw')];
    rewrite Hw' in Hw; [discriminate|]. injection Hw as <-.
  pose proof (joined_starts_with_a_number data lo today Hnum Hlo) as Hhead.
  cbv zeta in Hhead.
  set (joined := merge_left cell _ _ _) in *.
  apply in_body_mass_table in Hin. destruct Hin as [Hday ->].
  destruct Hhead as [Hnil|(x & t & Hhead)]; [rewrite Hnil in Hday; destruct Hday|].
  (* the numbers of the joined column lie in the range *)
  assert (Hvalues : forall v, In (Some v) (map joined_value joined) ->
                              (a <= v /\ v <= b)%Q).
  { intros v Hv. apply in_map_iff in Hv. destruct Hv as (j & Hjv & Hj).
    apply in_merge_left in Hj. destruct Hj as (key & _ & _ & _ & Hrow).
    unfold joined_value in Hjv. cbn [rows] in Hrow.
    destruct Hrow as [([d' v'] & Ho & _ & Hrow)|[Hrow _]];
      rewrite Hrow in Hjv; [|discriminate].
    cbn in Hjv. subst v'. apply in_body_mass_records in Ho.
    destruct Ho as (r & Hr & Ht & Hd & Hv). apply (Hrange d').
    exists r. repeat split; assumption. }
  (* every cell of the interpolated column is a number of the range *)
  assert (Hcells : forall c, In c (interpolate (map joined_value joined)) ->
                             exists v, c = Some v /\ (a <= v /\ v <= b)%Q).
  { intros c Hc.
    assert (Hnumber : c <> None).
    { revert Hc. unfold interpolate. rewrite Hhead. cbn [interpolate_from].
      intros [<-|Hc]; [discriminate|].
      pose proof (interpolate_from_numbers x O t) as Hall.
      rewrite Forall_forall in Hall. apply Hall. exact Hc. }
    destruct c as [v|]; [|contradiction]. exists v. split; [reflexivity|].
    apply (interpolate_from_range a b None (map joined_value joined) Hvalues I).
    exact Hc. }
  assert (Hrows : forall c,
             In (d, c)
                (combine (map (@j_date cell) joined)
                   (map (fun v => lift2 Qmult v (Some 2.20462%Q))
                      (interpolate (map joined_value joined)))) ->
             exists q, c = Some q /\ (a * 2.20462 <= q /\ q <= b * 2.20462)%Q).
  { intros c Hc. apply in_body_mass_rows in Hc.
    destruct Hc as (i & j & v & _ & _ & Hv & ->).
    destruct (Hcells v (nth_error_In _ _ Hv)) as (u & -> & Hu).
    exists (u * 2.20462)%Q. split; [reflexivity|]. split; nra. }
  (* the day has a row *)
  assert (Hrow : exists c,
             In (d, c)
                (combine (map (@j_date cell) joined)
                   (map (fun v => lift2 Qmult v (Some 2.20462%Q))
                      (interpolate (map joined_value joined))))).
  { apply in_map_iff in Hday. destruct Hday as (j & Hd & Hj).
    apply In_nth_error in Hj. destruct Hj as (i & Hi).
    destruct (nth_error (interpolate (map joined_value joined)) i) as [v|] eqn:Hv.
    - exists (lift2 Qmult v (Some 2.20462%Q)). apply in_body_mass_rows.
      exists i, j, v. repeat split; assumption.
    - exfalso. apply nth_error_None in Hv. unfold interpolate in Hv.
      rewrite interpolate_from_length, length_map in Hv.
      assert (Hlt : (i < List.length joined)%nat)
        by (apply nth_error_Some; congruence).
      lia. }
  pose proof (nanmin_spec
                (map snd
                   (filter (fun row => fst row =? d)
                      (combine (map (@j_date cell) joined)
                         (map (fun v => lift2 Qmult v (Some 2.20462%Q))
                            (interpolate (map joined_value joined))))))) as Hmin.
  destruct (nanmin _) as [q|].
  - destruct Hmin as [Hq _]. apply in_day_group in Hq.
    destruct (Hrows _ Hq) as (q' & [= <-] & Hq'). exists q. split; [reflexivity|exact Hq'].
  - exfalso. destruct Hrow as (c & Hc).
    destruct (Hrows _ Hc) as (q & -> & _).
    apply in_day_group in Hc. specialize (Hmin _ Hc). discriminate.
Qed.

End WeightFacts.

(** The sample export has a number in each of its body-mass records. *)
Lemma sample_export_all_numeric : BodyMassSpec.all_numeric BodyMassSpec.sample_export.
Proof.
  intros r Hr _. unfold BodyMassSpec.sample_export in Hr. cbn [In] in Hr.
  destruct Hr as [<-|[<-|[<-|[<-|[]]]]]; discriminate.
Defined.

Lemma weight_table_has_one_row_per_day_witness :
  In (BodyMass.mkRecord "BodyMass" 738000 (Some 80%Q)) BodyMassSpec.sample_export
  /\ exists lo out,
       BodyMass.wrangle_weight_data BodyMassSpec.sample_export 738005 = Py.Ok out
       /\ map fst out = Reconciler.days_from lo 738005
       /\ (exists r0, In r0 BodyMassSpec.sample_export
                      /\ BodyMass.type r0 = "BodyMass"%string /\ BodyMass.date r0 = lo)
       /\ (forall r', In r' BodyMassSpec.sample_export ->
                      BodyMass.type r' = "BodyMass"%string -> lo <= BodyMass.date r').
Proof.
  assert (Hin : In (BodyMass.mkRecord "BodyMass" 738000 (Some 80%Q))
                   BodyMassSpec.sample_export) by (left; reflexivity).
  split; [exact Hin|].
  exact (weight_table_has_one_row_per_day BodyMassSpec.sample_export 738005 _
           Hin eq_refl).
Defined.

Lemma weight_table_needs_a_measurement_witness :
  BodyMass.wrangle_weight_data
    [BodyMass.mkRecord "HeartRate" 738001 (Some 61%Q)] 738005
  = Py.Raise "ValueError".
Proof.
  apply weight_table_needs_a_measurement.
  intros r [<-|[]]. discriminate.
Defined.

Lemma body_mass_of_a_measured_day_witness :
  exists out,
    BodyMass.wrangle_weight_data BodyMassSpec.sample_export 738005 = Py.Ok out
    /\ In (738000, Some (79 * 2.20462)%Q) out
    /\ BodyMassSpec.measured BodyMassSpec.sample_export 738000 80
    /\ exists x,
         BodyMassSpec.measured BodyMassSpec.sample_export 738000 x
         /\ Some (79 * 2.20462)%Q = Some (x * 2.20462)%Q
         /\ forall x', BodyMassSpec.measured BodyMassSpec.sample_export 738000 x' ->
                       (x * 2.20462 <= x' * 2.20462)%Q.
Proof.
  destruct (BodyMass.wrangle_weight_data BodyMassSpec.sample_export 738005)
    as [out|e] eqn:Hw; [|vm_compute in Hw; discriminate].
  exists out. split; [reflexivity|].
  assert (Hin : In (738000, Some (79 * 2.20462)%Q) out).
  { vm_compute in Hw. injection Hw as <-. left. vm_compute. reflexivity. }
  assert (Hmeasured : BodyMassSpec.measured BodyMassSpec.sample_export 738000 80).
  { eexists. split; [left; reflexivity|]. repeat split. }
  split; [exact Hin|]. split; [exact Hmeasured|].
  exact (body_mass_of_a_measured_day BodyMassSpec.sample_export 738005 out
           738000 _ 80 sample_export_all_numeric Hw Hin Hmeasured).
Defined.

Lemma body_mass_stays_within_the_measurements_witness :
  exists out,
    BodyMass.wrangle_weight_data BodyMassSpec.sample_export 738005 = Py.Ok out
    /\ In (738001, Some (51808570 # 300000)) out
    /\ exists q, Some (51808570 # 300000) = Some q
                 /\ (77 * 2.20462 <= q /\ q <= 80 * 2.20462)%Q.
Proof.
  destruct (BodyMass.wrangle_weight_data BodyMassSpec.sample_export 738005)
    as [out|e] eqn:Hw; [|vm_compute in Hw; discriminate].
  exists out. split; [reflexivity|].
  assert (Hin : In (738001, Some (51808570 # 300000)) out).
  { vm_compute in Hw. injection Hw as <-. right. left. reflexivity. }
  split; [exact Hin|].
  apply (body_mass_stays_within_the_measurements BodyMassSpec.sample_export 738005
           out 77 80 738001 _ sample_export_all_numeric); [|exact Hw|exact Hin].
  intros d' x (r & Hr & Ht & _ & Hv). unfold BodyMassSpec.sample_export in Hr.
  cbn [In] in Hr.
  destruct Hr as [<-|[<-|[<-|[<-|[]]]]]; try discriminate Ht;
    cbn in Hv; injection Hv as <-; split; vm_compute; discriminate.
Defined.

(* ================================================================== *)
(** ** The tidy format *)

Section TidyFacts.
Import Py Tidy TidySpec.

Lemma note_eqb_eq a b : note_eqb a b = true <-> a = b.
Proof.
  destruct a as [x|], b as [y|]; cbn; try (split; [discriminate|discriminate]).
  - rewrite String.eqb_eq. split; congruence.
  - split; reflexivity.
Qed.

Lemma filter_map_comm {A B} (f : B -> bool) (g : A -> B) (l : list A) :
  filter f (map g l) = map g (filter (fun a => f (g a)) l).
Proof.
  induction l as [|a l IH]; cbn; [reflexivity|].
  rewrite IH. destruct (f (g a)); reflexivity.
Qed.

Lemma flat_map_flat_map {A B C} (f : B -> list C) (g : A -> list B) (l : list A) :
  flat_map f (flat_map g l) = flat_map (fun a => flat_map f (g a)) l.
Proof.
  induction l as [|a l IH]; cbn; [reflexivity|].
  rewrite flat_map_app, IH. reflexivity.
Qed.

(** On a log whose days differ in date or note, the rows with the key of a
    day are that day alone. *)
Lemma filter_own_day (data : list ScoredDay) (r : ScoredDay) :
  NoDup (map day_key data) -> In r data ->
  filter (fun r' => (date r =? date r') && note_eqb (note r) (note r')) data = [r].
Proof.
  assert (Hkey : forall r', (date r =? date r') && note_eqb (note r) (note r') = true
                            <-> day_key r = day_key r').
  { intros r'. rewrite andb_true_iff, Z.eqb_eq, note_eqb_eq. unfold day_key.
    split; [intros [-> ->]; reflexivity|intros [= -> ->]; split; reflexivity]. }
  induction data as [|x data IH]; intros Hnd Hin; [destruct Hin|].
  inversion Hnd as [|? ? Hx Hnd']; subst. cbn [filter].
  destruct ((date r =? date x) && note_eqb (note r) (note x)) eqn:E.
  - apply Hkey in E.
    destruct Hin as [->|Hin].
    + f_equal.
      destruct (filter _ data) as [|y ys] eqn:F; [reflexivity|].
      exfalso. assert (Hy : In y (y :: ys)) by (left; reflexivity).
      rewrite <- F in Hy. apply filter_In in Hy. destruct Hy as [Hy Ey].
      apply Hkey in Ey. apply Hx. cbn [map] in *. rewrite Ey.
      apply in_map. exact Hy.
    + exfalso. apply Hx. rewrite <- E. apply in_map. exact Hin.
  - destruct Hin as [->|Hin].
    + exfalso. assert (Hrefl : day_key r = day_key r) by reflexivity.
      apply Hkey in Hrefl. congruence.
    + apply IH; assumption.
Qed.

(** The partial frame once its metric names are stripped. *)
Lemma renamed_partial_frame (data : list ScoredDay) :
  map (fun p => mkMelted (m_date p) (m_note p)
                  (str_replace "_partial" "" (m_metric p)) (m_value p))
      (melt data partial_value_cols)
  = flat_map
      (fun col => map (fun r => mkMelted (date r) (note r) col
                                  (score r (col ++ "_partial")%string)) data)
      value_cols.
Proof.
  unfold melt, partial_value_cols, value_cols. cbn [map flat_map].
  rewrite !app_nil_r. repeat rewrite map_app. rewrite !map_map. reflexivity.
Qed.

Lemma flat_map_ext_in {A B} (f g : A -> list B) (l : list A) :
  (forall a, In a l -> f a = g a) -> flat_map f l = flat_map g l.
Proof.
  induction l as [|a l IH]; intros H; cbn; [reflexivity|].
  rewrite (H a (or_introl eq_refl)). f_equal.
  apply IH. intros b Hb. apply H. right. exact Hb.
Qed.

Lemma filter_none {A} (f : A -> bool) (l : list A) :
  (forall a, In a l -> f a = false) -> filter f l = [].
Proof.
  induction l as [|a l IH]; intros H; cbn; [reflexivity|].
  rewrite (H a (or_introl eq_refl)). apply IH. intros b Hb. apply H. right. exact Hb.
Qed.

Lemma partial_rows_of_a_day (data : list ScoredDay) (cols : list string)
    (col : string) (r : ScoredDay) (v : pyfloat) :
  NoDup (map day_key data) -> In r data -> NoDup cols -> In col cols ->
  filter (same_key (mkMelted (date r) (note r) col v))
    (flat_map
       (fun col' => map (fun r' => mkMelted (date r') (note r') col'
                                     (score r' (col' ++ "_partial")%string)) data)
       cols)
  = [mkMelted (date r) (note r) col (score r (col ++ "_partial")%string)].
Proof.
  intros Hnd Hr Hcols Hcol.
  assert (Hblock : forall col',
             filter (same_key (mkMelted (date r) (note r) col v))
               (map (fun r' => mkMelted (date r') (note r') col'
                                 (score r' (col' ++ "_partial")%string)) data)
             = if String.eqb col col'
               then [mkMelted (date r) (note r) col (score r (col ++ "_partial")%string)]
               else []).
  { intros col'. rewrite filter_map_comm. unfold same_key.
    cbn [m_date m_note m_metric].
    destruct (String.eqb col col') eqn:E.
    - apply String.eqb_eq in E. subst col'.
      rewrite (filter_ext _ (fun r' => (date r =? date r') && note_eqb (note r) (note r')))
        by (intros r'; rewrite andb_true_r; reflexivity).
      rewrite (filter_own_day data r Hnd Hr). reflexivity.
    - rewrite filter_none; [reflexivity|].
      intros r' _. rewrite andb_false_r. reflexivity. }
  assert (Hother : forall cols',
             ~ In col cols' ->
             filter (same_key (mkMelted (date r) (note r) col v))
               (flat_map
                  (fun col' => map (fun r' => mkMelted (date r') (note r') col'
                                                (score r' (col' ++ "_partial")%string))
                                   data)
                  cols')
             = []).
  { intros cols' Hnot. apply filter_none. intros p Hp.
    apply in_flat_map in Hp. destruct Hp as (c' & Hc' & Hp).
    apply in_map_iff in Hp. destruct Hp as (r' & <- & _).
    unfold same_key. cbn [m_date m_note m_metric].
    assert (Hne : String.eqb col c' = false)
      by (apply String.eqb_neq; intros ->; contradiction).
    rewrite Hne, andb_false_r. reflexivity. }
  induction Hcols as [|c cols Hc Hcols IH]; [destruct Hcol|].
  cbn [flat_map]. rewrite filter_app, Hblock.
  destruct Hcol as [->|Hcol].
  - rewrite String.eqb_refl, (Hother cols Hc). reflexivity.
  - assert (Hne : String.eqb col c = false)
      by (apply String.eqb_neq; intros ->; contradiction).
    rewrite Hne. cbn [app]. apply IH. exact Hcol.
Qed.

(** On a scored log whose rows differ in date or note,
    [reshape_to_tidy_format] returns four rows per day, one per metric, the
    blocks in the order of the metrics and the days in the order of the log;
    each row holds the day's value of the metric beside the day's value of
    its [_partial] column. *)
Theorem tidy_rows_pair_each_day_with_its_partial (data : list ScoredDay) :
  NoDup (map day_key data) ->
  reshape_to_tidy_format data
  = flat_map (fun col => map (tidy_row col) data) value_cols.
Proof.
  intros Hnd. unfold reshape_to_tidy_format.
  rewrite renamed_partial_frame. unfold melt at 1.
  rewrite flat_map_flat_map.
  assert (Hcols : NoDup value_cols).
  { unfold value_cols. repeat constructor; cbn; intuition discriminate. }
  assert (Hall : forall col, In col value_cols ->
             flat_map
               (fun l =>
                  match
                    filter (same_key l)
                      (flat_map
                         (fun col' =>
                            map (fun r' => mkMelted (date r') (note r') col'
                                             (score r' (col' ++ "_partial")%string))
                                data)
                         value_cols)
                  with
                  | [] => [mkTidy (m_date l) (m_note l) (m_metric l) (m_value l) NaN]
                  | found =>
                      map (fun p => mkTidy (m_date l) (m_note l) (m_metric l)
                                      (m_value l) (m_value p))
                          found
                  end)
               (map (fun r => mkMelted (date r) (note r) col (score r col)) data)
             = map (tidy_row col) data).
  { intros col Hcol. rewrite flat_map_concat_map, map_map, <- flat_map_concat_map.
    apply flat_map_singleton. intros r Hr.
    rewrite (partial_rows_of_a_day data value_cols col r _ Hnd Hr Hcols Hcol).
    reflexivity. }
  apply flat_map_ext_in. exact Hall.
Qed.

End TidyFacts.

Lemma tidy_rows_pair_each_day_with_its_partial_witness :
  NoDup (map TidySpec.day_key TidySpec.sample_days)
  /\ Tidy.reshape_to_tidy_format TidySpec.sample_days
     = flat_map (fun col => map (TidySpec.tidy_row col) TidySpec.sample_days)
         Tidy.value_cols.
Proof.
  assert (Hnd : NoDup (map TidySpec.day_key TidySpec.sample_days)).
  { cbn. repeat constructor; cbn; intuition discriminate. }
  split; [exact Hnd|].
  exact (tidy_rows_pair_each_day_with_its_partial TidySpec.sample_days Hnd).
Defined.
